(** * AI Memo Generator: a shallow embedding of [main.py] (and the
      [save_config] and the batch loop of [gui.py]) and the properties of
      its specification.

    The program reads a transcript file, renders a prompt from a template,
    sends it to one of three hosted language-model providers and writes the
    answer to an output file.  The embedding keeps the program's shape:

    - the configuration is the dynamically typed value [json.load] returns,
      a nested dictionary, so a missing key raises [KeyError] here as it does
      there;
    - files, the network and the log are the state of a small state and
      exception monad; [try]/[except] is [try_except]; files hold bytes,
      and reading one decodes it as UTF-8 with universal newlines;
    - Python text is held as its UTF-8 bytes in [string].  Replacement,
      concatenation and the substring tests against ASCII needles that the
      program performs commute with that encoding. *)

From Stdlib Require Import ZArith String Ascii List Bool Lia Floats.
From stdpp Require Import base gmap strings.

Set Warnings "-inexact-float,-register-all".
#[local] Arguments String.append !s1 s2 : simpl nomatch.

(** ** Python text operations *)

Module PyStr.

(** [s.startswith(p)]. *)
Fixpoint starts_with (p s : string) : bool :=
  match p, s with
  | "", _ => true
  | String _ _, "" => false
  | String a p', String b s' => Ascii.eqb a b && starts_with p' s'
  end.

(** [p in s] for two strings: [p] occurs somewhere in [s]. *)
Fixpoint contains (p s : string) : bool :=
  starts_with p s ||
  match s with
  | "" => false
  | String _ s' => contains p s'
  end.

(** The scan of [str.replace] for a non-empty [old]: [skip] counts the
    characters of a match still to be dropped; at [skip = 0] the leftmost match
    is replaced and the scan goes on behind it, so matches never overlap and
    the inserted text is not scanned again. *)
Fixpoint replace_from (old new : string) (skip : nat) (s : string) : string :=
  match s with
  | "" => ""
  | String c s' =>
      match skip with
      | S k => replace_from old new k s'
      | O =>
          if starts_with old s
          then new +:+ replace_from old new (String.length old - 1) s'
          else String c (replace_from old new 0 s')
      end
  end.

(** [s.replace("", new)] puts [new] before every character and at the end. *)
Fixpoint interleave (new s : string) : string :=
  match s with
  | "" => new
  | String c s' => new +:+ String c (interleave new s')
  end.

(** [s.replace(old, new)]. *)
Definition replace (old new s : string) : string :=
  match old with
  | "" => interleave new s
  | String _ _ => replace_from old new 0 s
  end.

(** The proper suffixes of a string, longest first, the empty one last. *)
Fixpoint tails (s : string) : list string :=
  match s with
  | "" => []
  | String _ s' => s' :: tails s'
  end.

(** A string is unbordered when none of its proper non-empty suffixes is also
    a prefix of it: two occurrences of such a string never overlap. *)
Definition unbordered (tok : string) : bool :=
  forallb (fun v => match v with "" => true | _ => negb (starts_with v tok) end)
          (tails tok).

End PyStr.

(** ** The prompt renderer ([generate_memo], the first two statements) *)

Definition placeholder : string := "{transcription}".

(** [template.replace("{transcription}", transcription)]. *)
Definition render_prompt (template transcription : string) : string :=
  PyStr.replace placeholder transcription template.

(** ** Python values

    What [json.load] and [response.json()] return, and what the configuration
    holds.  A dictionary is an association list: Python dictionaries keep the
    order of insertion, which iteration and [json.dump] follow. *)

Inductive pyval : Type :=
| PNone
| PBool (b : bool)
| PInt (n : Z)
| PFloat (x : float)
| PStr (s : string)
| PList (items : list pyval)
| PDict (entries : list (string * pyval)).

(** Operating-system errors of [open] and [write], by [errno]. *)
Inductive os_error := ENOENT | EACCES | EISDIR | ENOSPC.

(** The exceptions the program can meet; all derive from [Exception].
    [OSError ENOENT] is Python's [FileNotFoundError].  [JSONDecodeError] and
    [UnicodeDecodeError] are subclasses of [ValueError]; none of the three
    is caught by a clause that names another of them. *)
Inductive exn : Type :=
| OSError (e : os_error)
| JSONDecodeError
| KeyError (key : pyval)
| IndexError
| TypeError
| AttributeError
| RequestException
| UnicodeDecodeError
| RecursionError
| ValueError.

Definition is_FileNotFoundError (e : exn) : bool :=
  match e with OSError ENOENT => true | _ => false end.

Definition is_JSONDecodeError (e : exn) : bool :=
  match e with JSONDecodeError => true | _ => false end.

(** The result of evaluating an expression that may raise. *)
Inductive outcome (A : Type) : Type :=
| Ret (a : A)
| Raise (e : exn).

Arguments Ret {A} a.
Arguments Raise {A} e.

#[global] Instance outcome_ret : MRet outcome := fun A a => Ret a.
#[global] Instance outcome_bind : MBind outcome := fun A B f o =>
  match o with
  | Ret a => f a
  | Raise e => Raise e
  end.

Module Py.

Fixpoint dict_lookup (k : string) (d : list (string * pyval)) : option pyval :=
  match d with
  | [] => None
  | (k', v) :: d' => if String.eqb k k' then Some v else dict_lookup k d'
  end.

(** [d[k] = v]: the entry is replaced where it stands, or added at the end. *)
Fixpoint dict_store (k : string) (v : pyval) (d : list (string * pyval))
  : list (string * pyval) :=
  match d with
  | [] => [(k, v)]
  | (k', v') :: d' =>
      if String.eqb k k' then (k', v) :: d' else (k', v') :: dict_store k v d'
  end.

(** [bool(v)], the test of [if v:] and [if not v:]. *)
Definition truthy (v : pyval) : bool :=
  match v with
  | PNone => false
  | PBool b => b
  | PInt n => negb (n =? 0)%Z
  | PFloat x => negb (PrimFloat.eqb x 0%float)
  | PStr s => negb (String.eqb s "")
  | PList items => match items with [] => false | _ => true end
  | PDict entries => match entries with [] => false | _ => true end
  end.

(** [v == s] for a string literal [s]. *)
Definition eq_str (v : pyval) (s : string) : bool :=
  match v with
  | PStr s' => String.eqb s' s
  | _ => false
  end.

(** [v[k]] for a string key. *)
Definition getitem (v : pyval) (k : string) : outcome pyval :=
  match v with
  | PDict d =>
      match dict_lookup k d with
      | Some x => Ret x
      | None => Raise (KeyError (PStr k))
      end
  | _ => Raise TypeError
  end.

(** [v[0]]. *)
Definition getitem0 (v : pyval) : outcome pyval :=
  match v with
  | PList (x :: _) => Ret x
  | PList [] => Raise IndexError
  | PStr (String c _) => Ret (PStr (String c ""))
  | PStr "" => Raise IndexError
  | PDict _ => Raise (KeyError (PInt 0))
  | _ => Raise TypeError
  end.

(** [v.get(k, default)]; only dictionaries have the method. *)
Definition get (v : pyval) (k : string) (default : pyval) : outcome pyval :=
  match v with
  | PDict d =>
      match dict_lookup k d with
      | Some x => Ret x
      | None => Ret default
      end
  | _ => Raise AttributeError
  end.

(** [v.get(k, default)] for a key that is any value: lists and dictionaries
    cannot be hashed; a key that is not a string is no key of a JSON object. *)
Definition get_any (v k default : pyval) : outcome pyval :=
  match v with
  | PDict d =>
      match k with
      | PStr s =>
          match dict_lookup s d with
          | Some x => Ret x
          | None => Ret default
          end
      | PList _ | PDict _ => Raise TypeError
      | _ => Ret default
      end
  | _ => Raise AttributeError
  end.

(** [v[k] = x] for a string key. *)
Definition setitem (v : pyval) (k : string) (x : pyval) : outcome pyval :=
  match v with
  | PDict d => Ret (PDict (dict_store k x d))
  | _ => Raise TypeError
  end.

(** [o[k1][k2] = x]: the inner object is fetched, then updated in place. *)
Definition setitem2 (o : pyval) (k1 k2 : string) (x : pyval) : outcome pyval :=
  inner ← getitem o k1;
  inner' ← setitem inner k2 x;
  setitem o k1 inner'.

(** [k in v] for a string [k]: a key of a dictionary, an element of a list,
    a substring of a string. *)
Definition contains (k : string) (v : pyval) : outcome bool :=
  match v with
  | PDict d => Ret (match dict_lookup k d with Some _ => true | None => false end)
  | PList items => Ret (existsb (fun x => eq_str x k) items)
  | PStr s => Ret (PyStr.contains k s)
  | _ => Raise TypeError
  end.

Fixpoint chars (s : string) : list pyval :=
  match s with
  | "" => []
  | String c s' => PStr (String c "") :: chars s'
  end.

(** [len(v)]. *)
Definition len (v : pyval) : outcome nat :=
  match v with
  | PStr s => Ret (String.length s)
  | PList items => Ret (length items)
  | PDict d => Ret (length d)
  | _ => Raise TypeError
  end.

(** The items [for x in v] runs through. *)
Definition iter (v : pyval) : outcome (list pyval) :=
  match v with
  | PList items => Ret items
  | PDict d => Ret (map (fun kv => PStr (fst kv)) d)
  | PStr s => Ret (chars s)
  | _ => Raise TypeError
  end.

(** [v.replace(old, new)]; only strings have the method. *)
Definition replace (v : pyval) (old new : string) : outcome string :=
  match v with
  | PStr s => Ret (PyStr.replace old new s)
  | _ => Raise AttributeError
  end.

(** ["".join(parts)]: every part must be a string. *)
Fixpoint join (parts : list pyval) : outcome string :=
  match parts with
  | [] => Ret ""
  | PStr s :: rest => r ← join rest; Ret (s +:+ r)
  | _ :: _ => Raise TypeError
  end.

(** [max(a, b)] and [min(a, b)] on floats: the first argument is kept unless
    the second is strictly greater (smaller); a NaN never is. *)
Definition max (a b : float) : float := if PrimFloat.ltb a b then b else a.
Definition min (a b : float) : float := if PrimFloat.ltb b a then b else a.

End Py.

(** ** Text files: [open(path, "r", encoding="utf-8")] and [f.read()] *)

Module TextIO.

Definition byte (c : ascii) : Z := Z.of_N (N_of_ascii c).

Definition between (lo hi : Z) (c : ascii) : bool :=
  (lo <=? byte c)%Z && (byte c <=? hi)%Z.

(** A continuation byte, [80..BF]. *)
Definition continuation (c : ascii) : bool := between 128 191 c.

(** The byte after the lead [a] of a sequence of three or four bytes: the
    leads [E0] and [F0] exclude the overlong forms, [ED] the surrogates and
    [F4] what lies beyond [U+10FFFF]. *)
Definition second (a b : ascii) : bool :=
  if (byte a =? 224)%Z then between 160 191 b
  else if (byte a =? 237)%Z then between 128 159 b
  else if (byte a =? 240)%Z then between 144 191 b
  else if (byte a =? 244)%Z then between 128 143 b
  else continuation b.

(** The bytes the strict [utf-8] codec decodes. *)
Fixpoint well_formed (s : string) : bool :=
  match s with
  | "" => true
  | String a s1 =>
      if (byte a <? 128)%Z then well_formed s1
      else if between 194 223 a then
        match s1 with
        | String b s2 => continuation b && well_formed s2
        | _ => false
        end
      else if between 224 239 a then
        match s1 with
        | String b (String c s3) =>
            second a b && continuation c && well_formed s3
        | _ => false
        end
      else if between 240 244 a then
        match s1 with
        | String b (String c (String d s4)) =>
            second a b && continuation c && continuation d && well_formed s4
        | _ => false
        end
      else false
  end.

(** Universal newlines, the default of text mode: a carriage return with
    its line feed, and one on its own, are read as one line feed. *)
Fixpoint universal_newlines (s : string) : string :=
  match s with
  | "" => ""
  | String a s1 =>
      if Ascii.eqb a "013"
      then
        match s1 with
        | String b s2 =>
            if Ascii.eqb b "010"
            then String "010" (universal_newlines s2)
            else String "010" (universal_newlines s1)
        | "" => String "010" ""
        end
      else String a (universal_newlines s1)
  end.

(** [f.read()] on the bytes of a file. *)
Definition read (bytes : string) : outcome string :=
  if well_formed bytes
  then Ret (universal_newlines bytes)
  else Raise UnicodeDecodeError.

End TextIO.

(** What the interpreter and its libraries supply: the JSON codec and
    [str()] of a value that is not a string, as an f-string applies it.
    [json_loads] is [None] on a text the parser raises on, and [json_error]
    is then what it raises: [JSONDecodeError] for a text that is no JSON
    document, [RecursionError] for one nested deeper than the interpreter
    allows, [ValueError] for an integer literal with more digits than the
    interpreter converts.  What [json.dump] writes reads back as written:
    control characters are escaped inside strings, so that the document has
    no carriage return, and the text is written as UTF-8. *)
Record pylib := {
  json_loads : string -> option pyval;
  json_error : string -> exn;
  json_dumps : pyval -> string;
  py_str : pyval -> string;
  json_dumps_text : forall v, TextIO.read (json_dumps v) = Ret (json_dumps v)
}.

(** [f"{v}"]. *)
Definition format (L : pylib) (v : pyval) : string :=
  match v with
  | PStr s => s
  | _ => py_str L v
  end.

(** ** [os.path.splitext] (the POSIX flavour) *)

Module Path.

Fixpoint rfind_from (c : ascii) (i : Z) (s : string) (found : Z) : Z :=
  match s with
  | "" => found
  | String a s' => rfind_from c (i + 1) s' (if Ascii.eqb a c then i else found)
  end.

(** [p.rfind(c)]: the last index of [c], or [-1]. *)
Definition rfind (c : ascii) (p : string) : Z := rfind_from c 0 p (-1).

Fixpoint all_dots (s : string) : bool :=
  match s with
  | "" => true
  | String a s' => Ascii.eqb a "." && all_dots s'
  end.

(** The extension starts at the last dot of the last component, unless that
    component has only dots before it. *)
Definition splitext (p : string) : string * string :=
  let sepIndex := rfind "/" p in
  let dotIndex := rfind "." p in
  if (sepIndex <? dotIndex)%Z
  then
    let leading :=
      substring (Z.to_nat (sepIndex + 1)) (Z.to_nat (dotIndex - sepIndex - 1)) p in
    if all_dots leading
    then (p, "")
    else (substring 0 (Z.to_nat dotIndex) p,
          substring (Z.to_nat dotIndex) (String.length p - Z.to_nat dotIndex) p)
  else (p, "").

(** [os.path.basename(p)]: what follows the last slash. *)
Definition basename (p : string) : string :=
  let i := Z.to_nat (rfind "/" p + 1) in
  substring i (String.length p - i) p.

Fixpoint ends_with_slash (s : string) : bool :=
  match s with
  | "" => false
  | String a "" => Ascii.eqb a "/"
  | String _ s' => ends_with_slash s'
  end.

(** [os.path.join(a, b)]. *)
Definition join (a b : string) : string :=
  match b with
  | String "/" _ => b
  | _ =>
      match a with
      | "" => b
      | _ => if ends_with_slash a then a +:+ b else a +:+ "/" +:+ b
      end
  end.

End Path.

(** ** The world: files, the network, the log *)

Inductive write_fault :=
| OpenFails (e : os_error)    (* [open(path, "w")] raises *)
| WriteFails (e : os_error).  (* the file is opened and truncated, writing raises *)

(** Files hold bytes; the text the program writes is held as its UTF-8
    bytes.  A path with a read fault cannot be opened for reading, a path
    with a write fault cannot be written. *)
Record filesystem := {
  files : gmap string string;
  read_faults : gmap string os_error;
  write_faults : gmap string write_fault
}.

Record request := {
  url : string;
  headers : list (string * pyval);
  json : pyval
}.

Record response := {
  status_code : Z;
  text : string
}.

Inductive provider_id := OpenAI | Anthropic | Google.

Inductive level := INFO | WARNING | ERROR.

(** The log lines of the program, one constructor per call of the logger. *)
Inductive message : Type :=
| ConfigLoadError (e : exn)
| ConfigSaved (path : string)
| ConfigSaveFailed (e : exn)
| MemoSaved (path : string)
| InputNotFound (path : string)
| MemoGenerationError (e : exn)
| ApiCallStart (provider : pyval)
| ApiCallDone (provider : pyval)
| ApiCallFailed (provider : pyval)
| UnsupportedProvider (provider : pyval)
| ApiKeyMissing (p : provider_id)
| ApiStatusError (p : provider_id) (status : Z) (body : string)
| ApiException (p : provider_id) (e : exn)
| GoogleParseFailed (result : pyval)
| UnknownProvider (provider : string)
| UnknownModel (provider : pyval) (model : string)
| InputMissing (path : string).

Inductive event : Type :=
| Log (lv : level) (m : message)
| HttpPost (r : request)
| OpenForWriting (path : string)
| ShowError (e : exn)
| Stdout (success : bool)
| UiProgress (index total : nat) (file : string)
| UiFileError (file : string) (e : exn)
| UiFinalResults (results : list (string * option string * bool)).

Record world := {
  fs : filesystem;
  net : request -> outcome response;
  trace : list event
}.

(** Computations: state passing over the world, with exceptions. *)
Definition M (A : Type) : Type := world -> outcome A * world.

#[global] Instance M_ret : MRet M := fun A a w => (Ret a, w).
#[global] Instance M_bind : MBind M := fun A B f m w =>
  match m w with
  | (Ret a, w') => f a w'
  | (Raise e, w') => (Raise e, w')
  end.

Definition lift {A} (o : outcome A) : M A := fun w => (o, w).

(** [try: body  except ...: handler]; [handler e = None] when no clause
    matches [e], which then propagates. *)
Definition try_except {A} (body : M A) (handler : exn -> option (M A)) : M A :=
  fun w =>
    match body w with
    | (Ret a, w') => (Ret a, w')
    | (Raise e, w') =>
        match handler e with
        | Some h => h w'
        | None => (Raise e, w')
        end
    end.

Definition emit (e : event) : M unit :=
  fun w => (Ret tt, {| fs := fs w; net := net w; trace := trace w ++ [e] |}).

Definition log (lv : level) (m : message) : M unit := emit (Log lv m).

Definition get_fs : M filesystem := fun w => (Ret (fs w), w).

Definition set_files (f : gmap string string) : M unit :=
  fun w => (Ret tt,
            {| fs := {| files := f; read_faults := read_faults (fs w);
                        write_faults := write_faults (fs w) |};
               net := net w; trace := trace w |}).

(** [with open(path, "r", encoding="utf-8") as f: f.read()]: the bytes of
    the file are decoded, which raises [UnicodeDecodeError] when they are
    not UTF-8. *)
Definition read_file (path : string) : M string :=
  fun w =>
    match read_faults (fs w) !! path with
    | Some e => (Raise (OSError e), w)
    | None =>
        match files (fs w) !! path with
        | Some bytes => (TextIO.read bytes, w)
        | None => (Raise (OSError ENOENT), w)
        end
    end.

(** [with open(path, "w", encoding="utf-8") as f: f.write(content)]: opening
    truncates the file; [write] takes a string only. *)
Definition write_file (path : string) (content : pyval) : M unit :=
  emit (OpenForWriting path);;
  f ← get_fs;
  match write_faults f !! path with
  | Some (OpenFails e) => lift (Raise (OSError e))
  | fault =>
      let truncated := <[path := ""]> (files f) in
      set_files truncated;;
      match content with
      | PStr s =>
          match fault with
          | Some (WriteFails e) => lift (Raise (OSError e))
          | _ => set_files (<[path := s]> truncated)
          end
      | _ => lift (Raise TypeError)
      end
  end.

(** [requests.post(url, headers=headers, json=data)]. *)
Definition send (r : request) : M response := fun w => (net w r, w).

Definition post (u : string) (h : list (string * pyval)) (data : pyval)
  : M response :=
  let r := {| url := u; headers := h; json := data |} in
  emit (HttpPost r);; send r.

(** [response.json()]. *)
Definition response_json (L : pylib) (r : response) : M pyval :=
  match json_loads L (text r) with
  | Some v => mret v
  | None => lift (Raise (json_error L (text r)))
  end.

(** ** [class MemoGenerator] of [main.py] *)

Definition nl : string := String "010"%char "".

Module MemoGenerator.

(** The object's two attributes. *)
Record t := {
  config : pyval;
  config_path : string
}.

Definition default_template : string :=
  "以下は会議の文字起こしです。これを元に議事録を作成してください。"
  +:+ nl +:+ nl +:+ "{transcription}".

(** The minimal default configuration [_load_config] falls back to. *)
Definition default_config : pyval :=
  PDict
    [("llm", PDict [("provider", PStr "openai");
                    ("api_key", PStr "");
                    ("model", PStr "gpt-4o-mini");
                    ("temperature", PFloat 0.3);
                    ("max_tokens", PInt 1500)]);
     ("templates", PDict [("default", PStr default_template)])].

Section Methods.

Variable L : pylib.

(** [json.load(f)] on the text [f.read()] returned. *)
Definition json_load (t : string) : M pyval :=
  match json_loads L t with
  | Some v => mret v
  | None => lift (Raise (json_error L t))
  end.

Definition _load_config (config_path : string) : M pyval :=
  try_except
    (t ← read_file config_path; json_load t)
    (fun e =>
       if is_FileNotFoundError e || is_JSONDecodeError e
       then Some (log ERROR (ConfigLoadError e);; mret default_config)
       else None).

Definition __init__ (config_path : string) : M t :=
  c ← _load_config config_path;
  mret {| config := c; config_path := config_path |}.

(** Returns [None] on either path: the method has no [return]. *)
Definition save_config (self : t) : M pyval :=
  try_except
    (write_file (config_path self) (PStr (json_dumps L (config self)));;
     log INFO (ConfigSaved (config_path self));;
     mret PNone)
    (fun e => Some (log ERROR (ConfigSaveFailed e);; mret PNone)).

(** [self.config["llm"][k]]. *)
Definition llm (self : t) (k : string) : outcome pyval :=
  d ← Py.getitem (config self) "llm"; Py.getitem d k.

Definition system_prompt : string :=
  "あなたは会議の音声文字起こしから議事録を作成する専門家です。".

Definition _call_openai_api (self : t) (prompt : string) : M pyval :=
  api_key ← lift (llm self "api_key");
  if negb (Py.truthy api_key)
  then log ERROR (ApiKeyMissing OpenAI);; mret PNone
  else
    try_except
      (let headers :=
         [("Content-Type", PStr "application/json");
          ("Authorization", PStr ("Bearer " +:+ format L api_key))] in
       model ← lift (llm self "model");
       temperature ← lift (llm self "temperature");
       max_tokens ← lift (llm self "max_tokens");
       let data :=
         PDict [("model", model);
                ("messages",
                 PList [PDict [("role", PStr "system");
                               ("content", PStr system_prompt)];
                        PDict [("role", PStr "user");
                               ("content", PStr prompt)]]);
                ("temperature", temperature);
                ("max_tokens", max_tokens)] in
       response ← post "https://api.openai.com/v1/chat/completions" headers data;
       if (status_code response =? 200)%Z
       then
         result ← response_json L response;
         choices ← lift (Py.getitem result "choices");
         choice ← lift (Py.getitem0 choices);
         msg ← lift (Py.getitem choice "message");
         lift (Py.getitem msg "content")
       else
         log ERROR (ApiStatusError OpenAI (status_code response) (text response));;
         mret PNone)
      (fun e => Some (log ERROR (ApiException OpenAI e);; mret PNone)).

Definition _call_anthropic_api (self : t) (prompt : string) : M pyval :=
  api_key ← lift (llm self "api_key");
  if negb (Py.truthy api_key)
  then log ERROR (ApiKeyMissing Anthropic);; mret PNone
  else
    try_except
      (let headers :=
         [("Content-Type", PStr "application/json");
          ("x-api-key", api_key);
          ("anthropic-version", PStr "2023-06-01")] in
       model ← lift (llm self "model");
       temperature ← lift (llm self "temperature");
       max_tokens ← lift (llm self "max_tokens");
       let data :=
         PDict [("model", model);
                ("messages",
                 PList [PDict [("role", PStr "user");
                               ("content", PStr prompt)]]);
                ("temperature", temperature);
                ("max_tokens", max_tokens)] in
       response ← post "https://api.anthropic.com/v1/messages" headers data;
       if (status_code response =? 200)%Z
       then
         result ← response_json L response;
         content ← lift (Py.getitem result "content");
         block ← lift (Py.getitem0 content);
         lift (Py.getitem block "text")
       else
         log ERROR (ApiStatusError Anthropic (status_code response) (text response));;
         mret PNone)
      (fun e => Some (log ERROR (ApiException Anthropic e);; mret PNone)).

(** The loop of [_call_google_api]: the ["text"] of every part that has one. *)
Fixpoint text_parts (parts : list pyval) : outcome (list pyval) :=
  match parts with
  | [] => Ret []
  | part :: rest =>
      has_text ← Py.contains "text" part;
      if has_text : bool
      then t ← Py.getitem part "text"; r ← text_parts rest; Ret (t :: r)
      else text_parts rest
  end.

Definition _call_google_api (self : t) (prompt : string) : M pyval :=
  d ← lift (Py.getitem (config self) "llm");
  api_key ← lift (Py.get d "google_api_key" (PStr ""));
  if negb (Py.truthy api_key)
  then log ERROR (ApiKeyMissing Google);; mret PNone
  else
    try_except
      (model ← lift (llm self "model");
       model_id ← lift (Py.replace model "gemini-" "");
       let url :=
         "https://generativelanguage.googleapis.com/v1beta/models/"
         +:+ model_id +:+ ":generateContent?key=" +:+ format L api_key in
       let headers := [("Content-Type", PStr "application/json")] in
       temperature ← lift (llm self "temperature");
       max_tokens ← lift (llm self "max_tokens");
       let data :=
         PDict [("contents",
                 PList [PDict [("role", PStr "user");
                               ("parts", PList [PDict [("text", PStr prompt)]])]]);
                ("generationConfig",
                 PDict [("temperature", temperature);
                        ("maxOutputTokens", max_tokens);
                        ("topP", PFloat 0.95);
                        ("topK", PInt 40)])] in
       response ← post url headers data;
       if (status_code response =? 200)%Z
       then
         result ← response_json L response;
         let parse_failed : M pyval :=
           log ERROR (GoogleParseFailed result);; mret PNone in
         has_candidates ← lift (Py.contains "candidates" result);
         some_candidate ←
           (if has_candidates : bool
            then candidates ← lift (Py.getitem result "candidates");
                 n ← lift (Py.len candidates);
                 mret (Nat.ltb 0 n)
            else mret false);
         if some_candidate : bool
         then
           candidates ← lift (Py.getitem result "candidates");
           candidate ← lift (Py.getitem0 candidates);
           has_content ← lift (Py.contains "content" candidate);
           if has_content : bool
           then
             content ← lift (Py.getitem candidate "content");
             has_parts ← lift (Py.contains "parts" content);
             if has_parts : bool
             then
               parts ← lift (Py.getitem content "parts");
               items ← lift (Py.iter parts);
               texts ← lift (text_parts items);
               joined ← lift (Py.join texts);
               mret (PStr joined)
             else parse_failed
           else parse_failed
         else parse_failed
       else
         log ERROR (ApiStatusError Google (status_code response) (text response));;
         mret PNone)
      (fun e => Some (log ERROR (ApiException Google e);; mret PNone)).

Definition generate_memo (self : t) (transcription : string) : M pyval :=
  templates ← lift (Py.getitem (config self) "templates");
  template ← lift (Py.getitem templates "default");
  prompt ← lift (match template with
                 | PStr s => Ret (render_prompt s transcription)
                 | _ => Raise AttributeError
                 end);
  provider ← lift (llm self "provider");
  log INFO (ApiCallStart provider);;
  let finish (result : pyval) : M pyval :=
    (if Py.truthy result
     then _ ← lift (Py.len result); log INFO (ApiCallDone provider)
     else log ERROR (ApiCallFailed provider));;
    mret result in
  if Py.eq_str provider "openai"
  then result ← _call_openai_api self prompt; finish result
  else if Py.eq_str provider "anthropic"
  then result ← _call_anthropic_api self prompt; finish result
  else if Py.eq_str provider "google"
  then result ← _call_google_api self prompt; finish result
  else log ERROR (UnsupportedProvider provider);; mret PNone.

(** [f"{os.path.splitext(input_file)[0]}_memo.txt"]. *)
Definition default_output_file (input_file : string) : string :=
  fst (Path.splitext input_file) +:+ "_memo.txt".

Definition generate_memo_from_file
  (self : t) (input_file : string) (output_file : option string) : M pyval :=
  try_except
    (transcription ← read_file input_file;
     let output_file :=
       match output_file with
       | None => default_output_file input_file
       | Some o => o
       end in
     memo ← generate_memo self transcription;
     if Py.truthy memo
     then
       write_file output_file memo;;
       log INFO (MemoSaved output_file);;
       mret memo
     else mret PNone)
    (fun e =>
       if is_FileNotFoundError e
       then Some (log ERROR (InputNotFound input_file);; mret PNone)
       else Some (log ERROR (MemoGenerationError e);; mret PNone)).

End Methods.

Definition with_config (self : t) (c : pyval) : t :=
  {| config := c; config_path := config_path self |}.

Definition set_api_key (self : t) (api_key : string) : outcome t :=
  c ← Py.setitem2 (config self) "llm" "api_key" (PStr api_key);
  Ret (with_config self c).

Definition set_google_api_key (self : t) (api_key : string) : outcome t :=
  c ← Py.setitem2 (config self) "llm" "google_api_key" (PStr api_key);
  Ret (with_config self c).

Definition set_temperature (self : t) (temperature : float) : outcome t :=
  c ← Py.setitem2 (config self) "llm" "temperature"
        (PFloat (Py.max 0%float (Py.min 1%float temperature)));
  Ret (with_config self c).

Definition set_max_tokens (self : t) (max_tokens : Z) : outcome t :=
  c ← Py.setitem2 (config self) "llm" "max_tokens" (PInt (Z.max 1 max_tokens));
  Ret (with_config self c).

Definition set_template (self : t) (template_text : string) : outcome t :=
  c ← Py.setitem2 (config self) "templates" "default" (PStr template_text);
  Ret (with_config self c).

(** The catalogue under ["providers"] is advisory: an unknown name is
    warned about and stored all the same. *)
Definition set_provider (self : t) (provider : string) : M t :=
  catalog ← lift (Py.get (config self) "providers" (PDict []));
  known ← lift (Py.contains provider catalog);
  (if known : bool then mret tt else log WARNING (UnknownProvider provider));;
  c ← lift (Py.setitem2 (config self) "llm" "provider" (PStr provider));
  mret (with_config self c).

Definition set_model (self : t) (model : string) : M t :=
  provider ← lift (llm self "provider");
  catalog ← lift (Py.get (config self) "providers" (PDict []));
  models ← lift (Py.get_any catalog provider (PList []));
  unknown ←
    (if Py.truthy models
     then known ← lift (Py.contains model models); mret (negb known)
     else mret false);
  (if unknown : bool then log WARNING (UnknownModel provider model) else mret tt);;
  c ← lift (Py.setitem2 (config self) "llm" "model" (PStr model));
  mret (with_config self c).

End MemoGenerator.

(** ** [MemoGeneratorGUI.save_config] and the batch loop of [gui.py] *)

Module Gui.

Record t := {
  config : pyval;
  config_path : string
}.

(** [messagebox.showerror] is the [ShowError] event. *)
Definition save_config (L : pylib) (self : t) : M pyval :=
  try_except
    (write_file (config_path self) (PStr (json_dumps L (config self)));;
     mret (PBool true))
    (fun e => Some (emit (ShowError e);; mret (PBool false))).

(** One entry of [results]: the input file, the output file and whether a
    memo came back. *)
Definition result : Type := string * option string * bool.

(** The output file [_generate_all_in_thread] derives for an input file. *)
Definition batch_output_file (output_dir input_file : string) : string :=
  match output_dir with
  | "" => fst (Path.splitext input_file) +:+ "_memo.txt"
  | _ =>
      Path.join output_dir
        (fst (Path.splitext (Path.basename input_file)) +:+ "_memo.txt")
  end.

(** The body of the loop of [_generate_all_in_thread] for the file at index
    [i]; the calls of [self.root.after] are the [Ui] events. *)
Definition generate_one (L : pylib) (generator : MemoGenerator.t)
  (output_dir : string) (total i : nat) (input_file : string) : M result :=
  try_except
    (emit (UiProgress i total input_file);;
     let output_file := batch_output_file output_dir input_file in
     r ← MemoGenerator.generate_memo_from_file L generator input_file
           (Some output_file);
     mret (input_file, Some output_file,
           match r with PNone => false | _ => true end))
    (fun e => Some (emit (UiFileError input_file e);;
                    mret (input_file, None, false))).

Fixpoint generate_from (L : pylib) (generator : MemoGenerator.t)
  (output_dir : string) (total i : nat) (input_files : list string)
  : M (list result) :=
  match input_files with
  | [] => mret []
  | input_file :: rest =>
      r ← generate_one L generator output_dir total i input_file;
      rs ← generate_from L generator output_dir total (S i) rest;
      mret (r :: rs)
  end.

(** [_generate_all_in_thread(output_dir)] on [self.generator] and
    [self.input_files]; the value is the list handed to
    [_show_final_results]. *)
Definition _generate_all_in_thread (L : pylib) (generator : MemoGenerator.t)
  (input_files : list string) (output_dir : string) : M (list result) :=
  results ← generate_from L generator output_dir (length input_files) 0 input_files;
  emit (UiFinalResults results);;
  mret results.

End Gui.

(** ** [main] of [main.py] *)

Module Cli.

(** What [parse_arguments] returns; an option that was not given is [None]. *)
Record args := {
  input : string;
  output : option string;
  config : string;
  provider : option string;
  model : option string;
  api_key : option string;
  google_api_key : option string;
  temperature : option float;
  max_tokens : option Z
}.

(** [if args.x: ...] for a string option: given and not empty. *)
Definition given (x : option string) : option string :=
  match x with
  | Some "" | None => None
  | Some s => Some s
  end.

(** [os.path.isfile(path)]: [files] holds the regular files. *)
Definition isfile (path : string) : M bool :=
  fun w => (Ret (match files (fs w) !! path with Some _ => true | None => false end), w).

(** [main()] on parsed arguments; the value is the exit status. *)
Definition main (L : pylib) (a : args) : M Z :=
  generator ← MemoGenerator.__init__ L (config a);
  generator ← match given (provider a) with
              | Some p => MemoGenerator.set_provider generator p
              | None => mret generator
              end;
  generator ← match given (model a) with
              | Some m => MemoGenerator.set_model generator m
              | None => mret generator
              end;
  generator ← match given (api_key a) with
              | Some k => lift (MemoGenerator.set_api_key generator k)
              | None => mret generator
              end;
  generator ← match given (google_api_key a) with
              | Some k => lift (MemoGenerator.set_google_api_key generator k)
              | None => mret generator
              end;
  generator ← match temperature a with
              | Some x => lift (MemoGenerator.set_temperature generator x)
              | None => mret generator
              end;
  generator ← match max_tokens a with
              | Some n => lift (MemoGenerator.set_max_tokens generator n)
              | None => mret generator
              end;
  present ← isfile (input a);
  if present : bool
  then
    r ← MemoGenerator.generate_memo_from_file L generator (input a) (output a);
    if Py.truthy r
    then emit (Stdout true);; mret 0%Z
    else emit (Stdout false);; mret 1%Z
  else log ERROR (InputMissing (input a));; mret 1%Z.

End Cli.

(** ** The vocabulary of the properties *)

(** The paths the program tried to open for writing, and the requests it
    sent, in a trace. *)
Definition writes (tr : list event) : list string :=
  flat_map (fun e => match e with OpenForWriting p => [p] | _ => [] end) tr.

Definition posts (tr : list event) : list request :=
  flat_map (fun e => match e with HttpPost r => [r] | _ => [] end) tr.

(** The world after one more line of trace. *)
Definition logged (w : world) (evs : list event) : world :=
  {| fs := fs w; net := net w; trace := trace w ++ evs |}.

(** A computation is quiet when it leaves the files and the network as they
    are and opens nothing for writing. *)
Definition quiet {A} (m : M A) : Prop :=
  forall w, fs (snd (m w)) = fs w /\ net (snd (m w)) = net w /\
            writes (trace (snd (m w))) = writes (trace w).

(** [c in s] for a character. *)
Fixpoint has_char (c : ascii) (s : string) : bool :=
  match s with
  | "" => false
  | String a s' => Ascii.eqb a c || has_char c s'
  end.

(** The path [generate_memo_from_file] writes to. *)
Definition output_path (input_file : string) (output_file : option string) : string :=
  match output_file with
  | None => MemoGenerator.default_output_file input_file
  | Some o => o
  end.

(** A generation that did not produce a memo: it returned a value that is
    false for [if memo:] ([None], or an empty text), or it raised. *)
Definition failed (o : outcome pyval) : Prop :=
  match o with
  | Ret v => Py.truthy v = false
  | Raise _ => True
  end.

(** The world after [path] was opened for writing and [s] written to it. *)
Definition written (w : world) (path s : string) : world :=
  {| fs := {| files := <[path := s]> (files (fs w));
              read_faults := read_faults (fs w);
              write_faults := write_faults (fs w) |};
     net := net w;
     trace := trace w ++ [OpenForWriting path] |}.

Definition provider_name (p : provider_id) : string :=
  match p with
  | OpenAI => "openai"
  | Anthropic => "anthropic"
  | Google => "google"
  end.

(** The adapter [generate_memo] selects for a provider. *)
Definition call_adapter (L : pylib) (p : provider_id)
  : MemoGenerator.t -> string -> M pyval :=
  match p with
  | OpenAI => MemoGenerator._call_openai_api L
  | Anthropic => MemoGenerator._call_anthropic_api L
  | Google => MemoGenerator._call_google_api L
  end.

(** The credential an adapter consults: the first statement of each
    [_call_*_api]. *)
Definition credential (p : provider_id) (self : MemoGenerator.t) : outcome pyval :=
  match p with
  | OpenAI | Anthropic => MemoGenerator.llm self "api_key"
  | Google =>
      d ← Py.getitem (MemoGenerator.config self) "llm";
      Py.get d "google_api_key" (PStr "")
  end.




(** How a positive finite number with mantissa [m] and exponent [e] compares
    with [1.0]. *)
Definition compare_one (m : positive) (e : Z) : comparison :=
  match (e ?= -52)%Z with
  | Eq => Pos.compare_cont Eq m 4503599627370496%positive
  | Lt => Lt
  | Gt => Gt
  end.

(** A computation sends at most [k] requests when the trace it leaves is the
    one it found followed by events of which at most [k] are requests. *)
Definition sends_at_most (k : nat) {A} (m : M A) : Prop :=
  forall w, exists evs,
    trace (snd (m w)) = trace w ++ evs /\ length (posts evs) <= k.

(** A computation that hands back a value in every world. *)
Definition never_raises {A} (m : M A) : Prop :=
  forall w, exists a, fst (m w) = Ret a.

(** [choices[0].message.content] of a chat-completions reply. *)
Definition openai_content (body : pyval) : option pyval :=
  match body with
  | PDict d =>
      match Py.dict_lookup "choices" d with
      | Some (PList (PDict choice :: _)) =>
          match Py.dict_lookup "message" choice with
          | Some (PDict msg) => Py.dict_lookup "content" msg
          | _ => None
          end
      | _ => None
      end
  | _ => None
  end.

(** [content[0].text] of a messages reply. *)
Definition anthropic_text (body : pyval) : option pyval :=
  match body with
  | PDict d =>
      match Py.dict_lookup "content" d with
      | Some (PList (PDict block :: _)) => Py.dict_lookup "text" block
      | _ => None
      end
  | _ => None
  end.

(** The request of the chat-completions API as the OpenAI adapter is to send
    it: bearer token, the system and the user message, the generation
    parameters. *)
Definition openai_request (L : pylib)
  (key model temperature max_tokens : pyval) (prompt : string) : request :=
  {| url := "https://api.openai.com/v1/chat/completions";
     headers := [("Content-Type", PStr "application/json");
                 ("Authorization", PStr ("Bearer " +:+ format L key))];
     json :=
       PDict [("model", model);
              ("messages",
               PList [PDict [("role", PStr "system");
                             ("content", PStr MemoGenerator.system_prompt)];
                      PDict [("role", PStr "user");
                             ("content", PStr prompt)]]);
              ("temperature", temperature);
              ("max_tokens", max_tokens)] |}.

(** The credential, the temperature, the token limit and the template set
    one after the other. *)
Definition apply_settings (self : MemoGenerator.t)
  (key : string) (x : float) (n : Z) (template : string)
  : outcome MemoGenerator.t :=
  s1 ← MemoGenerator.set_api_key self key;
  s2 ← MemoGenerator.set_temperature s1 x;
  s3 ← MemoGenerator.set_max_tokens s2 n;
  MemoGenerator.set_template s3 template.

(** A computation changes only the files at [paths]: the network and the
    faults of the disk stay, and every other path holds what it held. *)
Definition changes_only (paths : list string) {A} (m : M A) : Prop :=
  forall w,
    net (snd (m w)) = net w
    /\ read_faults (fs (snd (m w))) = read_faults (fs w)
    /\ write_faults (fs (snd (m w))) = write_faults (fs w)
    /\ forall p, p ∉ paths -> files (fs (snd (m w))) !! p = files (fs w) !! p.

(** Two worlds with the same disk, the same attempts at writing and the same
    requests behind them. *)
Definition same_io (w0 w : world) : Prop :=
  fs w = fs w0
  /\ writes (trace w) = writes (trace w0)
  /\ posts (trace w) = posts (trace w0).

(** ** Example worlds *)

Module Examples.

Import MemoGenerator.

(** A reply of the chat-completions shape carrying [content]. *)
Definition openai_reply (content : pyval) : pyval :=
  PDict [("choices",
          PList [PDict [("message", PDict [("content", content)])]])].

(** A reply of the generate-content shape with two text parts. *)
Definition google_reply : pyval :=
  PDict [("candidates",
          PList [PDict [("content",
                         PDict [("parts",
                                 PList [PDict [("text", PStr "Meeting ")];
                                        PDict [("text", PStr "summary.")]])])]])].

(** A codec that knows four documents, and gives up on a fifth, [deep], as
    the parser does on a document nested too deep. *)
Definition codec : pylib := {|
  json_loads := fun s =>
    if String.eqb s "summary" then Some (openai_reply (PStr "Meeting summary."))
    else if String.eqb s "empty" then Some (openai_reply (PStr ""))
    else if String.eqb s "parts" then Some google_reply
    else if String.eqb s "{}" then Some (PDict [])
    else None;
  json_error := fun s =>
    if String.eqb s "deep" then RecursionError else JSONDecodeError;
  json_dumps := fun _ => "{}";
  py_str := fun _ => "?";
  json_dumps_text := fun _ => eq_refl
|}.

Definition disk : filesystem := {|
  files := {[ "meeting.txt" := "Alice: hi" +:+ nl +:+ "Bob: hello" ]};
  read_faults := ∅;
  write_faults := ∅
|}.

(** A disk on which the derived output path cannot be opened for writing. *)
Definition locked_disk : filesystem := {|
  files := {[ "meeting.txt" := "Alice: hi" +:+ nl +:+ "Bob: hello" ]};
  read_faults := ∅;
  write_faults := {[ "meeting_memo.txt" := OpenFails EACCES;
                     "config.json" := OpenFails EACCES ]}
|}.

(** A world whose network answers every request with [status] and [body]. *)
Definition answering (d : filesystem) (status : Z) (body : string) : world := {|
  fs := d;
  net := fun _ => Ret {| status_code := status; text := body |};
  trace := []
|}.

Definition settings (provider : string) (keys : list (string * pyval)) : pyval :=
  PDict
    [("llm", PDict ([("provider", PStr provider);
                     ("model", PStr "gpt-4o-mini");
                     ("temperature", PFloat 0.3);
                     ("max_tokens", PInt 1500)] ++ keys));
     ("templates",
      PDict [("default", PStr ("Summarize:" +:+ nl +:+ "{transcription}"))])].

Definition generator (provider : string) (keys : list (string * pyval)) : t :=
  {| config := settings provider keys; config_path := "config.json" |}.

Definition transcript : string := "Alice: hi" +:+ nl +:+ "Bob: hello".

(** A generator on the configuration file as [gui.py] writes it: one key per
    provider and no ["api_key"]. *)
Definition from_gui_file (provider : string) : t :=
  generator provider [("openai_api_key", PStr "sk-openai");
                      ("anthropic_api_key", PStr "sk-ant");
                      ("google_api_key", PStr "")].

Definition openai : t := generator "openai" [("api_key", PStr "sk-test")].

Definition google : t := generator "google" [("google_api_key", PStr "g-key")].

End Examples.

(** More example worlds, for the code around the pipeline. *)
Module MoreExamples.

Import MemoGenerator Examples.

(** A reply of the messages shape carrying [text]. *)
Definition anthropic_reply (text : pyval) : pyval :=
  PDict [("content", PList [PDict [("type", PStr "text"); ("text", text)]])].

(** A codec that knows a messages reply, a chat-completions reply whose
    content is a list of two blocks, and the empty object, which is also
    what it writes. *)
Definition codec : pylib := {|
  json_loads := fun s =>
    if String.eqb s "claude" then Some (anthropic_reply (PStr "Meeting summary."))
    else if String.eqb s "blocks"
         then Some (openai_reply (PList [PStr "Meeting "; PStr "summary."]))
    else if String.eqb s "{}" then Some (PDict [])
    else None;
  json_error := fun s =>
    if String.eqb s "deep" then RecursionError else JSONDecodeError;
  json_dumps := fun _ => "{}";
  py_str := fun _ => "?";
  json_dumps_text := fun _ => eq_refl
|}.

Definition llm_entries (provider : string) : list (string * pyval) :=
  [("provider", PStr provider); ("model", PStr "gpt-4o-mini");
   ("temperature", PFloat 0.3); ("max_tokens", PInt 1500);
   ("api_key", PStr "sk-test")].

Definition anthropic : t := generator "anthropic" [("api_key", PStr "sk-test")].

(** The provider name in another case. *)
Definition capitalised : t := generator "OpenAI" [("api_key", PStr "sk-test")].

(** A generator on the empty object. *)
Definition blank : t := {| config := PDict []; config_path := "config.json" |}.

Definition catalog : pyval :=
  PDict [("openai", PList [PStr "gpt-3.5-turbo"; PStr "gpt-4o-mini"]);
         ("anthropic", PList [PStr "claude-3-haiku-20240307"]);
         ("google", PList [PStr "gemini-pro"])].

(** A generator on a configuration with the catalogue of [gui.py]. *)
Definition catalogued : t :=
  {| config := PDict [("llm", PDict (llm_entries "openai"));
                      ("templates", PDict [("default", PStr "{transcription}")]);
                      ("providers", catalog)];
     config_path := "config.json" |}.

(** A disk on which the directory of the output file does not exist. *)
Definition no_directory : filesystem := {|
  files := {[ "meeting.txt" := transcript ]};
  read_faults := ∅;
  write_faults := {[ "out/memo.txt" := OpenFails ENOENT ]}
|}.

(** A disk on which the memo of an earlier run is still there. *)
Definition used_disk : filesystem := {|
  files := {[ "meeting.txt" := transcript; "meeting_memo.txt" := "old memo" ]};
  read_faults := ∅;
  write_faults := ∅
|}.

(** A disk on which the input file cannot be opened. *)
Definition protected_disk : filesystem := {|
  files := {[ "meeting.txt" := transcript ]};
  read_faults := {[ "meeting.txt" := EACCES ]};
  write_faults := ∅
|}.

(** A disk with a configuration file and one that cannot be opened. *)
Definition configured_disk : filesystem := {|
  files := {[ "config.json" := "{}"; "locked.json" := "{}" ]};
  read_faults := {[ "locked.json" := EACCES ]};
  write_faults := ∅
|}.

Definition quoted (s : string) : string :=
  String "034" (s +:+ String "034" "").

(** The object with the entry [model] for the text [café], as Latin-1
    writes it: the accented letter is the one byte [E9]. *)
Definition latin1_document : string :=
  "{" +:+ quoted "model" +:+ ": " +:+ quoted ("caf" +:+ String "233" "") +:+ "}".

(** A disk whose configuration file was saved as Latin-1, and one holding a
    document nested too deep for the parser. *)
Definition latin1_disk : filesystem := {|
  files := {[ "config.json" := latin1_document; "deep.json" := "deep" ]};
  read_faults := ∅;
  write_faults := ∅
|}.

Definition batch_disk : filesystem := {|
  files := {[ "a/meeting.txt" := transcript; "b/notes.txt" := "Carol: bye" ]};
  read_faults := ∅;
  write_faults := ∅
|}.

(** [-i input -k sk-test], on a disk without [config.json]. *)
Definition arguments (input : string) : Cli.args := {|
  Cli.input := input;
  Cli.output := None;
  Cli.config := "config.json";
  Cli.provider := None;
  Cli.model := None;
  Cli.api_key := Some "sk-test";
  Cli.google_api_key := None;
  Cli.temperature := None;
  Cli.max_tokens := None
|}.

End MoreExamples.

(** * Properties *)

(** ** Facts about the text operations *)

Section StringFacts.

Import PyStr.

Lemma append_nil_r (s : string) : s +:+ "" = s.
Proof. induction s as [|c s IH]; simpl; [reflexivity | now rewrite IH]. Qed.

Lemma append_assoc (a b c : string) : (a +:+ b) +:+ c = a +:+ (b +:+ c).
Proof. induction a as [|x a IH]; simpl; [reflexivity | now rewrite IH]. Qed.

Lemma length_append (a b : string) :
  String.length (a +:+ b) = String.length a + String.length b.
Proof. induction a as [|x a IH]; simpl; [reflexivity | now rewrite IH]. Qed.

Lemma starts_with_app (p r : string) : starts_with p (p +:+ r) = true.
Proof.
  induction p as [|c p IH]; simpl; [reflexivity|].
  now rewrite Ascii.eqb_refl, IH.
Qed.

Lemma starts_with_split (p s : string) :
  starts_with p s = true -> exists r, s = p +:+ r.
Proof.
  revert s; induction p as [|c p IH]; intros s H.
  - now exists s.
  - destruct s as [|d s]; simpl in H; [discriminate|].
    apply andb_true_iff in H as [Hc Hp].
    apply Ascii.eqb_eq in Hc; subst d.
    destruct (IH _ Hp) as [r ->]. now exists r.
Qed.

Lemma starts_with_extend (p s r : string) :
  starts_with p s = true -> starts_with p (s +:+ r) = true.
Proof.
  intros H. destruct (starts_with_split _ _ H) as [q ->].
  rewrite append_assoc. apply starts_with_app.
Qed.

(** A prefix of [s +:+ x] either fits in [s] or is [s] followed by a
    non-empty prefix of [x]. *)
Lemma starts_with_app_cases (p s x : string) :
  starts_with p (s +:+ x) = true ->
  starts_with p s = true \/
  exists p2, p = s +:+ p2 /\ p2 <> "" /\ starts_with p2 x = true.
Proof.
  revert p; induction s as [|c s IH]; intros p H; simpl in H.
  - destruct p as [|a p]; [now left|].
    right. exists (String a p). repeat split; [discriminate | exact H].
  - destruct p as [|a p]; [now left|]. simpl in H.
    apply andb_true_iff in H as [Hc Hp].
    destruct (IH _ Hp) as [Hs | (p2 & -> & Hne & Hx)].
    + left. simpl. now rewrite Hc, Hs.
    + right. exists p2. apply Ascii.eqb_eq in Hc. subst a. now repeat split.
Qed.

(** A prefix of [a +:+ r] no longer than [a] is a prefix of [a]. *)
Lemma starts_with_shorter (p a r : string) :
  starts_with p (a +:+ r) = true ->
  String.length p <= String.length a ->
  starts_with p a = true.
Proof.
  revert a; induction p as [|c p IH]; intros a H Hlen; [reflexivity|].
  destruct a as [|d a]; simpl in Hlen; [lia|].
  simpl in H |- *. apply andb_true_iff in H as [Hc Hp].
  rewrite Hc. simpl. apply IH; [exact Hp | lia].
Qed.

Lemma tails_suffix (u v : string) : u <> "" -> In v (tails (u +:+ v)).
Proof.
  induction u as [|c u IH]; intros Hu; [congruence|].
  simpl. destruct u as [|d u]; [now left|].
  right. apply IH. discriminate.
Qed.

(** With an unbordered token, no match starts inside a token-free text that
    is followed by the token. *)
Lemma no_early_match (tok s r : string) :
  unbordered tok = true ->
  s <> "" ->
  starts_with tok s = false ->
  starts_with tok (s +:+ tok +:+ r) = false.
Proof.
  intros Hub Hs Hfree.
  destruct (starts_with tok (s +:+ tok +:+ r)) eqn:E; [|reflexivity].
  exfalso.
  destruct (starts_with_app_cases _ _ _ E) as [H | (p2 & Heq & Hne & Hx)].
  - congruence.
  - assert (Hlen : String.length p2 <= String.length tok).
    { apply (f_equal String.length) in Heq. rewrite length_append in Heq. lia. }
    pose proof (starts_with_shorter _ _ _ Hx Hlen) as Hpre.
    pose proof (tails_suffix s p2 Hs) as Hin. rewrite <- Heq in Hin.
    unfold unbordered in Hub. rewrite forallb_forall in Hub.
    specialize (Hub _ Hin). destruct p2; [congruence|].
    rewrite Hpre in Hub. discriminate.
Qed.

Lemma contains_tail (p : string) (c : ascii) (s : string) :
  contains p (String c s) = false ->
  starts_with p (String c s) = false /\ contains p s = false.
Proof.
  intros H. change (contains p (String c s))
    with (starts_with p (String c s) || contains p s) in H.
  now apply orb_false_iff in H.
Qed.

(** Dropping the rest of a match: after [skip] characters the scan resumes. *)
Lemma replace_from_skip (old new u r : string) :
  replace_from old new (String.length u) (u +:+ r) = replace_from old new 0 r.
Proof.
  induction u as [|c u IH]; simpl; [|exact IH].
  destruct r; reflexivity.
Qed.

Lemma replace_from_token (old new r : string) :
  old <> "" ->
  replace_from old new 0 (old +:+ r) = new +:+ replace_from old new 0 r.
Proof.
  intros Hne. destruct old as [|c old]; [congruence|].
  change (String c old +:+ r) with (String c (old +:+ r)).
  cbn [replace_from].
  change (String c (old +:+ r)) with (String c old +:+ r).
  rewrite starts_with_app.
  replace (String.length (String c old) - 1) with (String.length old)
    by (simpl; lia).
  now rewrite replace_from_skip.
Qed.

Lemma replace_from_free (old new s : string) :
  contains old s = false -> replace_from old new 0 s = s.
Proof.
  induction s as [|c s IH]; intros H; [reflexivity|].
  apply contains_tail in H as [Hhd Htl].
  cbn [replace_from]. rewrite Hhd. now rewrite IH.
Qed.

Lemma replace_from_segment (old new s r : string) :
  unbordered old = true -> old <> "" ->
  contains old s = false ->
  replace_from old new 0 (s +:+ old +:+ r)
  = s +:+ new +:+ replace_from old new 0 r.
Proof.
  intros Hub Hne. induction s as [|c s IH]; intros Hfree.
  - simpl. now apply replace_from_token.
  - apply contains_tail in Hfree as [Hhd Htl].
    pose proof (no_early_match old (String c s) r Hub ltac:(discriminate) Hhd) as E.
    change (String c s +:+ old +:+ r) with (String c (s +:+ old +:+ r)) in *.
    cbn [replace_from]. rewrite E. now rewrite IH.
Qed.

(** Replacement over a text cut at the token: the segments stay, every token
    between them becomes [new]. *)
Lemma replace_from_concat (old new : string) (segs : list string) :
  unbordered old = true -> old <> "" ->
  Forall (fun s => contains old s = false) segs ->
  replace_from old new 0 (String.concat old segs) = String.concat new segs.
Proof.
  intros Hub Hne. induction segs as [|s segs IH]; intros Hall; [reflexivity|].
  inversion Hall as [|? ? Hs Hrest]; subst.
  destruct segs as [|s' segs].
  - simpl. now apply replace_from_free.
  - change (String.concat old (s :: s' :: segs))
      with (s +:+ old +:+ String.concat old (s' :: segs)).
    change (String.concat new (s :: s' :: segs))
      with (s +:+ new +:+ String.concat new (s' :: segs)).
    rewrite replace_from_segment by assumption.
    now rewrite IH.
Qed.

(** The text before the first occurrence of the token. *)
Lemma first_occurrence (tok t : string) :
  tok <> "" -> contains tok t = true ->
  exists s r, t = s +:+ tok +:+ r /\ contains tok s = false.
Proof.
  intros Hne. induction t as [|c t IH]; intros H.
  - destruct tok; [congruence | discriminate].
  - destruct (starts_with tok (String c t)) eqn:E.
    + destruct (starts_with_split _ _ E) as [r Hr].
      exists "", r. split; [exact Hr|]. destruct tok; [congruence | reflexivity].
    + change (contains tok (String c t))
        with (starts_with tok (String c t) || contains tok t) in H.
      rewrite E in H. simpl in H.
      destruct (IH H) as (s & r & -> & Hfree).
      exists (String c s), r. split; [reflexivity|].
      change (contains tok (String c s))
        with (starts_with tok (String c s) || contains tok s).
      rewrite Hfree, orb_false_r.
      destruct (starts_with tok (String c s)) eqn:E'; [|reflexivity].
      apply (starts_with_extend _ _ (tok +:+ r)) in E'.
      simpl in E'. simpl in E. congruence.
Qed.

(** Every text is a list of token-free segments joined by the token. *)
Lemma token_segments (tok t : string) :
  tok <> "" ->
  exists segs, t = String.concat tok segs /\
               Forall (fun s => contains tok s = false) segs.
Proof.
  intros Hne.
  remember (String.length t) as n eqn:Hn.
  revert t Hn. induction n as [n IH] using lt_wf_ind. intros t Hn.
  destruct (contains tok t) eqn:E.
  - destruct (first_occurrence tok t Hne E) as (s & r & -> & Hfree).
    assert (Hlt : String.length r < n).
    { subst n. rewrite !length_append.
      destruct tok; [congruence | simpl; lia]. }
    destruct (IH _ Hlt r eq_refl) as (segs & -> & Hall).
    destruct segs as [|s' segs].
    + exists [s; ""]. split; [reflexivity|].
      repeat constructor; [exact Hfree|]. destruct tok; [congruence | reflexivity].
    + exists (s :: s' :: segs). split; [reflexivity | now constructor].
  - exists [t]. split; [reflexivity | now repeat constructor].
Qed.

End StringFacts.

(** C4. Rendering replaces every literal occurrence of [{transcription}] by
    the transcript, as a plain substring replacement: a template is a list of
    placeholder-free segments joined by the placeholder (every template is),
    and its rendering is the same segments joined by the transcript (which is
    not scanned again, whatever it contains); the placeholder twice, rendered
    with ["Y"], is ["YY"]. *)
Theorem render_prompt_replaces_every_placeholder :
  (forall (segs : list string) (transcription : string),
      Forall (fun s => PyStr.contains placeholder s = false) segs ->
      render_prompt (String.concat placeholder segs) transcription
      = String.concat transcription segs)
  /\ (forall template : string,
         exists segs, template = String.concat placeholder segs /\
                      Forall (fun s => PyStr.contains placeholder s = false) segs)
  /\ render_prompt (placeholder +:+ placeholder) "Y" = "YY".
Proof.
  split; [|split].
  - intros segs t Hall. unfold render_prompt.
    change (PyStr.replace placeholder t (String.concat placeholder segs))
      with (PyStr.replace_from placeholder t 0 (String.concat placeholder segs)).
    apply replace_from_concat; [reflexivity | discriminate | exact Hall].
  - intros template. apply token_segments. discriminate.
  - reflexivity.
Qed.

Lemma render_prompt_replaces_every_placeholder_witness :
  render_prompt
    (String.concat placeholder ["Summarize: "; " and again: "; "."]) "hi"
  = "Summarize: hi and again: hi.".
Proof.
  apply (proj1 render_prompt_replaces_every_placeholder
               ["Summarize: "; " and again: "; "."] "hi").
  repeat constructor.
Defined.

(** ** Facts about computations *)

Section MonadFacts.

Context {A B : Type}.

Lemma run_bind (m : M A) (f : A -> M B) (w : world) :
  (m ≫= f) w =
  match m w with
  | (Ret a, w') => f a w'
  | (Raise e, w') => (Raise e, w')
  end.
Proof. reflexivity. Qed.

Lemma run_lift_bind (o : outcome A) (f : A -> M B) (w : world) :
  (lift o ≫= f) w =
  match o with
  | Ret a => f a w
  | Raise e => (Raise e, w)
  end.
Proof. unfold mbind, M_bind, lift. now destruct o. Qed.

Lemma run_emit_bind (ev : event) (f : unit -> M B) (w : world) :
  (emit ev ≫= f) w = f tt (logged w [ev]).
Proof. reflexivity. Qed.

Lemma run_ret_bind (a : A) (f : A -> M B) (w : world) :
  (mret a ≫= f) w = f a w.
Proof. reflexivity. Qed.

Lemma run_log_bind (lv : level) (m : message) (f : unit -> M B) (w : world) :
  (log lv m ≫= f) w = f tt (logged w [Log lv m]).
Proof. reflexivity. Qed.

Lemma quiet_ret (a : A) : quiet (mret a : M A).
Proof. now intros w. Qed.

Lemma quiet_lift (o : outcome A) : quiet (lift o).
Proof. now intros w. Qed.

Lemma quiet_bind (m : M A) (f : A -> M B) :
  quiet m -> (forall a, quiet (f a)) -> quiet (m ≫= f).
Proof.
  intros Hm Hf w. rewrite run_bind. specialize (Hm w).
  destruct (m w) as [[a|e] w1]; simpl in Hm; [|exact Hm].
  destruct (Hf a w1) as (G1 & G2 & G3), Hm as (H1 & H2 & H3).
  repeat split; congruence.
Qed.

Lemma quiet_try (body : M A) (handler : exn -> option (M A)) :
  quiet body -> (forall e h, handler e = Some h -> quiet h) ->
  quiet (try_except body handler).
Proof.
  intros Hb Hh w. unfold try_except. specialize (Hb w).
  destruct (body w) as [[a|e] w1]; simpl in Hb; [exact Hb|].
  destruct (handler e) as [h|] eqn:E; [|exact Hb].
  destruct (Hh e h E w1) as (G1 & G2 & G3), Hb as (H1 & H2 & H3).
  repeat split; congruence.
Qed.

End MonadFacts.

Lemma run_bind_assoc {A B C} (m : M A) (f : A -> M B) (g : B -> M C) (w : world) :
  ((m ≫= f) ≫= g) w = (m ≫= (fun a => f a ≫= g)) w.
Proof.
  rewrite !run_bind. destruct (m w) as [[a|e] w']; [|reflexivity].
  now rewrite run_bind.
Qed.

Lemma writes_app (t1 t2 : list event) : writes (t1 ++ t2) = writes t1 ++ writes t2.
Proof. unfold writes. now rewrite flat_map_app. Qed.

Lemma posts_app (t1 t2 : list event) : posts (t1 ++ t2) = posts t1 ++ posts t2.
Proof. unfold posts. now rewrite flat_map_app. Qed.

Lemma quiet_log (lv : level) (m : message) : quiet (log lv m).
Proof.
  intros w. simpl. repeat split. rewrite writes_app. simpl. apply app_nil_r.
Qed.

Lemma quiet_post (u : string) (h : list (string * pyval)) (d : pyval) :
  quiet (post u h d).
Proof.
  intros w. simpl. repeat split. rewrite writes_app. simpl. apply app_nil_r.
Qed.

Lemma quiet_response_json (L : pylib) (r : response) : quiet (response_json L r).
Proof. unfold response_json. destruct (json_loads L (text r)); now intros w. Qed.

Create HintDb quiet.
#[local] Hint Resolve quiet_ret quiet_lift quiet_log quiet_post
  quiet_response_json : quiet.

(** One step of a quietness proof: through a bind, a [try], a branch. *)
Ltac quiet_step :=
  match goal with
  | |- quiet (try_except _ _) => apply quiet_try; [| intros ? ? [= <-]]
  | |- quiet (_ ≫= _) => apply quiet_bind; [| intros ?]
  | |- quiet (if ?b then _ else _) => destruct b
  | |- quiet (match ?x with _ => _ end) => destruct x
  | |- quiet _ => solve [auto with quiet]
  end.

Section Quiet.

Variable L : pylib.
Import MemoGenerator.

Lemma quiet_call_openai (self : t) (prompt : string) :
  quiet (_call_openai_api L self prompt).
Proof. unfold _call_openai_api. repeat quiet_step. Qed.

Lemma quiet_call_anthropic (self : t) (prompt : string) :
  quiet (_call_anthropic_api L self prompt).
Proof. unfold _call_anthropic_api. repeat quiet_step. Qed.

Lemma quiet_call_google (self : t) (prompt : string) :
  quiet (_call_google_api L self prompt).
Proof. unfold _call_google_api. repeat quiet_step. Qed.

(** Generation touches no file: it only logs and talks to the network. *)
Lemma quiet_generate_memo (self : t) (transcription : string) :
  quiet (generate_memo L self transcription).
Proof.
  unfold generate_memo.
  repeat first [ apply quiet_call_openai | apply quiet_call_anthropic
               | apply quiet_call_google | quiet_step ].
Qed.

End Quiet.

(** ** The configuration store *)

Section ConfigurationStore.

Variable L : pylib.
Import MemoGenerator.

(** C5. When the configuration file is missing ([open] raises
    [FileNotFoundError]), or is read as UTF-8 text that the parser rejects
    as no JSON document (it raises [JSONDecodeError]), [_load_config]
    returns the built-in default configuration (and logs the error) instead
    of raising; that default selects the first provider ([openai]), holds an
    empty credential for every adapter and a template with the
    placeholder. *)
Theorem load_config_falls_back_to_default (config_path : string) (w : world) :
  read_file config_path w = (Raise (OSError ENOENT), w) \/
  (exists t, read_file config_path w = (Ret t, w) /\ json_loads L t = None
             /\ json_error L t = JSONDecodeError) ->
  (exists e, _load_config L config_path w
             = (Ret default_config, logged w [Log ERROR (ConfigLoadError e)]))
  /\ credential OpenAI {| config := default_config; config_path := config_path |}
     = Ret (PStr "")
  /\ credential Anthropic {| config := default_config; config_path := config_path |}
     = Ret (PStr "")
  /\ credential Google {| config := default_config; config_path := config_path |}
     = Ret (PStr "")
  /\ llm {| config := default_config; config_path := config_path |} "provider"
     = Ret (PStr (provider_name OpenAI))
  /\ Py.getitem default_config "templates" ≫= (fun d => Py.getitem d "default")
     = Ret (PStr default_template)
  /\ PyStr.contains placeholder default_template = true.
Proof.
  intros Hfile. split; [|repeat split; reflexivity].
  unfold _load_config, try_except. rewrite run_bind.
  destruct Hfile as [-> | (t & -> & Hbad & Herr)].
  - now exists (OSError ENOENT).
  - unfold json_load. rewrite Hbad, Herr. now exists JSONDecodeError.
Qed.

End ConfigurationStore.

Lemma load_config_falls_back_to_default_witness :
  (exists e, MemoGenerator._load_config Examples.codec "config.json"
               (Examples.answering Examples.disk 200 "summary")
             = (Ret MemoGenerator.default_config,
                logged (Examples.answering Examples.disk 200 "summary")
                       [Log ERROR (ConfigLoadError e)]))
  /\ (exists e, MemoGenerator._load_config Examples.codec "meeting.txt"
                  (Examples.answering Examples.disk 200 "summary")
                = (Ret MemoGenerator.default_config,
                   logged (Examples.answering Examples.disk 200 "summary")
                          [Log ERROR (ConfigLoadError e)])).
Proof.
  split.
  - apply (load_config_falls_back_to_default Examples.codec "config.json"
             (Examples.answering Examples.disk 200 "summary")).
    left. reflexivity.
  - apply (load_config_falls_back_to_default Examples.codec "meeting.txt"
             (Examples.answering Examples.disk 200 "summary")).
    right. eexists. repeat split; reflexivity.
Defined.

(** A configuration file saved as Latin-1, with an accented letter in it:
    its bytes are not UTF-8, it holds no JSON document a program reading
    UTF-8 can parse, and loading raises [UnicodeDecodeError] out of
    [_load_config] and of the constructor instead of returning the
    default. *)
Lemma latin1_config_is_not_replaced_by_the_default :
  files MoreExamples.latin1_disk !! "config.json"
  = Some MoreExamples.latin1_document
  /\ TextIO.well_formed MoreExamples.latin1_document = false
  /\ MemoGenerator._load_config Examples.codec "config.json"
       (Examples.answering MoreExamples.latin1_disk 200 "")
     = (Raise UnicodeDecodeError,
        Examples.answering MoreExamples.latin1_disk 200 "")
  /\ fst (MemoGenerator.__init__ Examples.codec "config.json"
            (Examples.answering MoreExamples.latin1_disk 200 ""))
     = Raise UnicodeDecodeError
  /\ fst (MemoGenerator._load_config Examples.codec "config.json"
            (Examples.answering MoreExamples.latin1_disk 200 ""))
     <> Ret MemoGenerator.default_config.
Proof. vm_compute. repeat split. discriminate. Qed.

(** ** Dictionaries *)

Section DictFacts.

Import Py.

Lemma dict_lookup_store_eq (k : string) (v : pyval) (d : list (string * pyval)) :
  dict_lookup k (dict_store k v d) = Some v.
Proof.
  induction d as [|[k' v'] d IH]; cbn [dict_store dict_lookup].
  - now rewrite String.eqb_refl.
  - destruct (String.eqb k k') eqn:E; cbn [dict_lookup]; rewrite E; auto.
Qed.

Lemma dict_lookup_store_ne (k k' : string) (v : pyval) (d : list (string * pyval)) :
  k <> k' -> dict_lookup k' (dict_store k v d) = dict_lookup k' d.
Proof.
  intros Hne. induction d as [|[k0 v0] d IH]; cbn [dict_store dict_lookup].
  - destruct (String.eqb k' k) eqn:E; [|reflexivity].
    apply String.eqb_eq in E. congruence.
  - destruct (String.eqb k k0) eqn:E; cbn [dict_lookup].
    + apply String.eqb_eq in E. subst k0.
      destruct (String.eqb k' k) eqn:E'; [|reflexivity].
      apply String.eqb_eq in E'. congruence.
    + now rewrite IH.
Qed.

Lemma getitem_dict (o : pyval) (k : string) (x : pyval) :
  getitem o k = Ret x ->
  exists entries, o = PDict entries /\ dict_lookup k entries = Some x.
Proof.
  destruct o; try discriminate. cbn [getitem].
  destruct (dict_lookup k entries) eqn:E; [|discriminate].
  intros [= ->]. now exists entries.
Qed.

(** [o[k1][k2] = x] on a dictionary of dictionaries: afterwards [o[k1][k2]]
    is [x], and every other [o[k1][k]] and every other [o[k]] is as before. *)
Lemma setitem2_spec (o : pyval) (k1 k2 : string) (x : pyval) (d : list (string * pyval)) :
  getitem o k1 = Ret (PDict d) ->
  exists o',
    setitem2 o k1 k2 x = Ret o' /\
    getitem o' k1 = Ret (PDict (dict_store k2 x d)) /\
    (forall k, k <> k1 -> getitem o' k = getitem o k).
Proof.
  intros H. destruct (getitem_dict _ _ _ H) as (entries & -> & Hk1).
  exists (PDict (dict_store k1 (PDict (dict_store k2 x d)) entries)).
  split; [|split].
  - unfold setitem2. cbn [getitem]. now rewrite Hk1.
  - cbn [getitem]. now rewrite dict_lookup_store_eq.
  - intros k Hne. cbn [getitem]. rewrite dict_lookup_store_ne; congruence.
Qed.

End DictFacts.

(** ** Floating-point comparisons with [0.0] and [1.0] *)

Section FloatFacts.

Lemma Prim2SF_zero : Prim2SF 0%float = S754_zero false.
Proof. reflexivity. Qed.

Lemma Prim2SF_one :
  Prim2SF 1%float = S754_finite false 4503599627370496%positive (-52)%Z.
Proof. reflexivity. Qed.

Lemma Prim2SF_inj (x y : float) : Prim2SF x = Prim2SF y -> x = y.
Proof.
  intros H. rewrite <- (SF2Prim_Prim2SF x), <- (SF2Prim_Prim2SF y).
  now rewrite H.
Qed.

Lemma SFcompare_one_r (m : positive) (e : Z) :
  SFcompare (S754_finite false m e)
            (S754_finite false 4503599627370496%positive (-52)%Z)
  = Some (compare_one m e).
Proof. reflexivity. Qed.

Lemma compare_cont_antisym (p q : positive) :
  Pos.compare_cont Eq p q = CompOpp (Pos.compare_cont Eq q p).
Proof. exact (Pos.compare_antisym q p). Qed.

Lemma SFcompare_one_l (m : positive) (e : Z) :
  SFcompare (S754_finite false 4503599627370496%positive (-52)%Z)
            (S754_finite false m e)
  = Some (CompOpp (compare_one m e)).
Proof.
  unfold compare_one. cbn [SFcompare]. f_equal.
  rewrite (Z.compare_antisym e (-52)).
  destruct (e ?= -52)%Z; cbn [CompOpp]; try reflexivity.
  apply compare_cont_antisym.
Qed.

Lemma compare_one_eq (m : positive) (e : Z) :
  compare_one m e = Eq -> m = 4503599627370496%positive /\ e = (-52)%Z.
Proof.
  unfold compare_one. destruct (e ?= -52)%Z eqn:Ce; try discriminate.
  intros H. apply Z.compare_eq in Ce. split; [|exact Ce].
  exact (Pos.compare_eq _ _ H).
Qed.

Lemma SFcompare_refl (m : positive) (e : Z) :
  SFcompare (S754_finite false m e) (S754_finite false m e) = Some Eq.
Proof. cbn [SFcompare]. now rewrite Z.compare_refl, Pos.compare_cont_refl. Qed.

(** Comparisons become comparisons of the specification floats [E] names. *)
Ltac float_spec E :=
  rewrite ?FloatAxioms.ltb_spec, ?FloatAxioms.leb_spec, ?FloatAxioms.eqb_spec,
    ?Prim2SF_zero, ?Prim2SF_one, ?E;
  unfold SFltb, SFleb, SFeqb;
  rewrite ?SFcompare_one_r, ?SFcompare_one_l, ?SFcompare_refl;
  cbn [SFcompare CompOpp].

Lemma ltb_leb (a b : float) :
  PrimFloat.ltb a b = true -> PrimFloat.leb a b = true.
Proof.
  rewrite FloatAxioms.ltb_spec, FloatAxioms.leb_spec. unfold SFltb, SFleb.
  now destruct (SFcompare (Prim2SF a) (Prim2SF b)) as [[]|].
Qed.

Lemma clamp_below (x : float) :
  PrimFloat.ltb x 0 = true -> Py.max 0 (Py.min 1 x) = 0%float.
Proof.
  unfold Py.max, Py.min.
  destruct (Prim2SF x) as [s|s| |s m e] eqn:E; try destruct s;
    float_spec E; try discriminate; intros _; float_spec E; reflexivity.
Qed.

Lemma clamp_above (x : float) :
  PrimFloat.ltb 1 x = true -> Py.max 0 (Py.min 1 x) = 1%float.
Proof.
  unfold Py.max, Py.min.
  destruct (Prim2SF x) as [s|s| |s m e] eqn:E; try destruct s;
    float_spec E; try discriminate.
  - intros _. float_spec E. reflexivity.
  - destruct (compare_one m e); cbn [CompOpp]; try discriminate.
    intros _. float_spec E. reflexivity.
Qed.

Lemma clamp_inside (x : float) :
  PrimFloat.leb 0 x = true -> PrimFloat.leb x 1 = true ->
  PrimFloat.eqb (Py.max 0 (Py.min 1 x)) x = true /\
  (PrimFloat.ltb 0 x = true -> Py.max 0 (Py.min 1 x) = x).
Proof.
  unfold Py.max, Py.min.
  destruct (Prim2SF x) as [s|s| |s m e] eqn:E; try destruct s;
    float_spec E; try discriminate.
  - intros _ _. float_spec E. split; [reflexivity | discriminate].
  - intros _ _. float_spec E. split; [reflexivity | discriminate].
  - intros _. destruct (compare_one m e) eqn:C; try discriminate; intros _.
    + destruct (compare_one_eq _ _ C) as [-> ->].
      assert (x = 1%float) as -> by (apply Prim2SF_inj; now rewrite E, Prim2SF_one).
      split; reflexivity.
    + float_spec E. split; reflexivity.
Qed.

Lemma clamp_cases (x : float) :
  Py.max 0 (Py.min 1 x) = 0%float \/ Py.max 0 (Py.min 1 x) = 1%float \/
  (Py.max 0 (Py.min 1 x) = x /\
   PrimFloat.ltb 0 x = true /\ PrimFloat.ltb x 1 = true).
Proof.
  unfold Py.max, Py.min.
  destruct (PrimFloat.ltb x 1) eqn:H1.
  - destruct (PrimFloat.ltb 0 x) eqn:H0; [right; right | left]; auto.
  - right; left. reflexivity.
Qed.

Lemma clamp_range (x : float) :
  PrimFloat.leb 0 (Py.max 0 (Py.min 1 x)) = true /\
  PrimFloat.leb (Py.max 0 (Py.min 1 x)) 1 = true.
Proof.
  destruct (clamp_cases x) as [-> | [-> | (-> & H0 & H1)]].
  - split; reflexivity.
  - split; reflexivity.
  - split; now apply ltb_leb.
Qed.

End FloatFacts.

(** ** The setters *)

Section Setters.

Import MemoGenerator.

(** C9. [set_temperature x] never rejects [x]: on a configuration with an
    ["llm"] dictionary it stores under ["temperature"] the clamp of [x] to
    [0.0, 1.0] and nothing else changes.  The stored [c] is [0.0] for
    [x < 0], [1.0] for [x > 1], equal to [x] for [0 <= x <= 1] (the very
    float [x] when [x > 0]; a zero of either sign is stored as [0.0]), and
    [0 <= c <= 1] whatever [x] is. *)
Theorem set_temperature_clamps
  (self : t) (d : list (string * pyval)) (x : float) :
  Py.getitem (config self) "llm" = Ret (PDict d) ->
  exists self' c,
    set_temperature self x = Ret self' /\
    llm self' "temperature" = Ret (PFloat c) /\
    config_path self' = config_path self /\
    (forall k, k <> "temperature" ->
               Py.dict_lookup k d = None \/ llm self' k = llm self k) /\
    (forall k, k <> "llm" ->
               Py.getitem (config self') k = Py.getitem (config self) k) /\
    (PrimFloat.ltb x 0 = true -> c = 0%float) /\
    (PrimFloat.ltb 1 x = true -> c = 1%float) /\
    (PrimFloat.leb 0 x = true -> PrimFloat.leb x 1 = true ->
     PrimFloat.eqb c x = true /\ (PrimFloat.ltb 0 x = true -> c = x)) /\
    PrimFloat.leb 0 c = true /\ PrimFloat.leb c 1 = true.
Proof.
  intros Hllm.
  destruct (setitem2_spec (config self) "llm" "temperature"
              (PFloat (Py.max 0 (Py.min 1 x))) d Hllm)
    as (o' & Hset & Hget & Hframe).
  exists (with_config self o'), (Py.max 0 (Py.min 1 x)).
  split; [|split; [|split; [|split; [|split]]]].
  - unfold set_temperature. now rewrite Hset.
  - unfold llm. cbn [config with_config]. rewrite Hget.
    change (Py.getitem (PDict (Py.dict_store "temperature"
                                 (PFloat (Py.max 0 (Py.min 1 x))) d))
              "temperature" = Ret (PFloat (Py.max 0 (Py.min 1 x)))).
    cbn [Py.getitem]. now rewrite dict_lookup_store_eq.
  - reflexivity.
  - intros k Hk. unfold llm. cbn [config with_config]. rewrite Hget, Hllm.
    destruct (Py.dict_lookup k d) eqn:E; [right | now left].
    change (Py.getitem (PDict (Py.dict_store "temperature"
                                 (PFloat (Py.max 0 (Py.min 1 x))) d)) k
            = Py.getitem (PDict d) k).
    cbn [Py.getitem]. rewrite dict_lookup_store_ne by congruence. reflexivity.
  - intros k Hk. cbn [config with_config]. now apply Hframe.
  - split; [apply clamp_below|]. split; [apply clamp_above|].
    split; [apply clamp_inside | apply clamp_range].
Qed.

End Setters.

Lemma set_temperature_clamps_witness :
  (exists self',
      MemoGenerator.set_temperature (Examples.generator "openai" []) (-5)%float
      = Ret self' /\
      MemoGenerator.llm self' "temperature" = Ret (PFloat 0%float))
  /\ (exists self',
         MemoGenerator.set_temperature (Examples.generator "openai" []) 1.7%float
         = Ret self' /\
         MemoGenerator.llm self' "temperature" = Ret (PFloat 1%float))
  /\ (exists self',
         MemoGenerator.set_temperature (Examples.generator "openai" []) 0.4%float
         = Ret self' /\
         MemoGenerator.llm self' "temperature" = Ret (PFloat 0.4%float)).
Proof.
  split; [|split].
  - destruct (set_temperature_clamps (Examples.generator "openai" []) _
                (-5)%float eq_refl)
      as (self' & c & Hset & Hget & _ & _ & _ & Hlo & _).
    exists self'. split; [exact Hset|]. rewrite Hget. f_equal. f_equal.
    now apply Hlo.
  - destruct (set_temperature_clamps (Examples.generator "openai" []) _
                1.7%float eq_refl)
      as (self' & c & Hset & Hget & _ & _ & _ & _ & Hhi & _).
    exists self'. split; [exact Hset|]. rewrite Hget. f_equal. f_equal.
    now apply Hhi.
  - destruct (set_temperature_clamps (Examples.generator "openai" []) _
                0.4%float eq_refl)
      as (self' & c & Hset & Hget & _ & _ & _ & _ & _ & Hin & _).
    exists self'. split; [exact Hset|]. rewrite Hget. f_equal. f_equal.
    now apply Hin.
Defined.

(** ** [os.path.splitext] *)

Section SplitextFacts.
Import Path.

Lemma rfind_from_app (c : ascii) (a b : string) (i found : Z) :
  rfind_from c i (a +:+ b) found
  = rfind_from c (i + Z.of_nat (String.length a)) b (rfind_from c i a found).
Proof.
  revert i found. induction a as [|x a IH]; intros i found.
  - simpl. now rewrite Z.add_0_r.
  - cbn [String.append rfind_from String.length]. rewrite IH. f_equal. lia.
Qed.

Lemma rfind_from_absent (c : ascii) (s : string) (i found : Z) :
  has_char c s = false -> rfind_from c i s found = found.
Proof.
  revert i found. induction s as [|x s IH]; intros i found H; [reflexivity|].
  cbn [has_char] in H. apply orb_false_iff in H as [Hx Hs].
  cbn [rfind_from]. rewrite Hx. now apply IH.
Qed.

Lemma substring_prefix (a b : string) :
  substring 0 (String.length a) (a +:+ b) = a.
Proof.
  induction a as [|x a IH]; [destruct b; reflexivity|].
  cbn [String.append String.length substring]. now rewrite IH.
Qed.

Lemma substring_skip (a s : string) (m : nat) :
  substring (String.length a) m (a +:+ s) = substring 0 m s.
Proof. induction a as [|x a IH]; [reflexivity | exact IH]. Qed.

Lemma substring_all (s : string) : substring 0 (String.length s) s = s.
Proof. rewrite <- (append_nil_r s) at 2. apply substring_prefix. Qed.

(** The extension of [dir/name.ext] is [.ext], when [name] is not made of
    dots only. *)
Lemma splitext_extension (dir name ext : string) :
  dir = "" \/ (exists dir', dir = dir' +:+ "/") ->
  has_char "/" name = false ->
  all_dots name = false ->
  has_char "/" ext = false ->
  has_char "." ext = false ->
  splitext (dir +:+ name +:+ "." +:+ ext) = (dir +:+ name, "." +:+ ext).
Proof.
  intros Hdir Hname Hdots Hext1 Hext2.
  assert (Hsep_dir : rfind "/" dir = (Z.of_nat (String.length dir) - 1)%Z).
  { destruct Hdir as [-> | [dir' ->]]; [reflexivity|].
    unfold rfind. rewrite rfind_from_app, length_append.
    cbn [rfind_from String.length]. rewrite Ascii.eqb_refl. lia. }
  assert (Hsep : rfind "/" (dir +:+ name +:+ "." +:+ ext)
                 = (Z.of_nat (String.length dir) - 1)%Z).
  { unfold rfind in *. rewrite rfind_from_app, Hsep_dir, rfind_from_app.
    rewrite (rfind_from_absent "/" name) by assumption.
    cbn [String.append rfind_from]. 
    replace (Ascii.eqb "." "/") with false by reflexivity.
    now apply rfind_from_absent. }
  assert (Hdot : rfind "." (dir +:+ name +:+ "." +:+ ext)
                 = Z.of_nat (String.length (dir +:+ name))).
  { unfold rfind. rewrite <- append_assoc, rfind_from_app.
    cbn [String.append rfind_from]. rewrite Ascii.eqb_refl.
    rewrite rfind_from_absent by assumption. lia. }
  unfold splitext. rewrite Hsep, Hdot, length_append.
  destruct (Z.of_nat (String.length dir) - 1 <?
            Z.of_nat (String.length dir + String.length name))%Z eqn:E;
    [|apply Z.ltb_ge in E; lia].
  replace (Z.to_nat (Z.of_nat (String.length dir) - 1 + 1)) with (String.length dir) by lia.
  replace (Z.to_nat (Z.of_nat (String.length dir + String.length name)
                     - (Z.of_nat (String.length dir) - 1) - 1))
    with (String.length name) by lia.
  rewrite substring_skip, substring_prefix, Hdots.
  rewrite Nat2Z.id, <- length_append.
  rewrite <- (append_assoc dir name), substring_prefix, substring_skip.
  f_equal.
  match goal with
  | |- substring 0 ?n ?s = _ =>
      replace n with (String.length s) by (rewrite ?length_append; lia)
  end.
  apply substring_all.
Qed.
End SplitextFacts.

(** ** The file pipeline *)

Section FilePipeline.

Variable L : pylib.
Import MemoGenerator.

Lemma run_write_file_ok (path s : string) (w : world) :
  write_faults (fs w) !! path = None ->
  write_file path (PStr s) w = (Ret tt, written w path s).
Proof.
  intros H. unfold write_file. rewrite run_emit_bind.
  unfold get_fs. rewrite run_bind. cbn [logged fs].
  rewrite H. rewrite run_bind. unfold set_files, written.
  cbn [fs net trace files read_faults write_faults logged].
  now rewrite insert_insert_eq.
Qed.

Lemma run_write_file_fault (path s : string) (w : world) (f : write_fault) :
  write_faults (fs w) !! path = Some f ->
  exists e w', write_file path (PStr s) w = (Raise (OSError e), w') /\
               trace w' = trace w ++ [OpenForWriting path].
Proof.
  intros H. unfold write_file. rewrite run_emit_bind.
  unfold get_fs. rewrite run_bind. cbn [logged fs].
  rewrite H. destruct f as [e|e].
  - exists e. eexists. split; reflexivity.
  - rewrite run_bind. exists e. eexists. split; reflexivity.
Qed.

Lemma writes_log (tr : list event) (lv : level) (m : message) :
  writes (tr ++ [Log lv m]) = writes tr.
Proof. rewrite writes_app. apply app_nil_r. Qed.

(** C2. When the generation step fails, [generate_memo_from_file] returns
    [None] and does not write: the files are as before and no path was
    opened for writing.  (A failure is [None] from the provider call; an
    empty text or an exception end the same way.) *)
Theorem failed_generation_writes_nothing
  (self : t) (input_file : string) (output_file : option string)
  (w w1 : world) (transcription : string) (o : outcome pyval) :
  read_file input_file w = (Ret transcription, w) ->
  generate_memo L self transcription w = (o, w1) ->
  failed o ->
  exists w2,
    generate_memo_from_file L self input_file output_file w = (Ret PNone, w2)
    /\ fs w2 = fs w
    /\ writes (trace w2) = writes (trace w).
Proof.
  intros Hread Hgen Hfail.
  pose proof (quiet_generate_memo L self transcription w) as Q.
  rewrite Hgen in Q. cbn [snd] in Q. destruct Q as (Qfs & _ & Qw).
  unfold generate_memo_from_file, try_except.
  rewrite run_bind, Hread, run_bind, Hgen.
  destruct o as [v|e]; cbn [failed] in Hfail.
  - rewrite Hfail. exists w1. now repeat split.
  - destruct (is_FileNotFoundError e).
    + exists (logged w1 [Log ERROR (InputNotFound input_file)]).
      repeat split; [exact Qfs|]. cbn [logged trace]. now rewrite writes_log.
    + exists (logged w1 [Log ERROR (MemoGenerationError e)]).
      repeat split; [exact Qfs|]. cbn [logged trace]. now rewrite writes_log.
Qed.

(** C1, as the code has it.  When the input file is read and the generation
    returns a text that is not empty, [generate_memo_from_file] writes exactly
    that text to the output path, the given one or else the input path without
    its extension (for [dir/name.ext], [dir/name]) followed by [_memo.txt],
    and returns the text; when the output path cannot be opened or written,
    it returns [None]. *)
Theorem nonempty_memo_is_written
  (self : t) (input_file : string) (output_file : option string)
  (w w1 : world) (transcription memo : string) :
  read_file input_file w = (Ret transcription, w) ->
  generate_memo L self transcription w = (Ret (PStr memo), w1) ->
  memo <> "" ->
  (output_file = None ->
   output_path input_file output_file
   = fst (Path.splitext input_file) +:+ "_memo.txt")
  /\ (forall dir name ext,
         output_file = None ->
         input_file = dir +:+ name +:+ "." +:+ ext ->
         dir = "" \/ (exists dir', dir = dir' +:+ "/") ->
         has_char "/" name = false -> Path.all_dots name = false ->
         has_char "/" ext = false -> has_char "." ext = false ->
         output_path input_file output_file = dir +:+ name +:+ "_memo.txt")
  /\ match write_faults (fs w) !! output_path input_file output_file with
     | None =>
         generate_memo_from_file L self input_file output_file w
         = (Ret (PStr memo),
            logged (written w1 (output_path input_file output_file) memo)
                   [Log INFO (MemoSaved (output_path input_file output_file))])
         /\ files (fs (written w1 (output_path input_file output_file) memo))
            = <[output_path input_file output_file := memo]> (files (fs w))
     | Some _ =>
         exists w2,
           generate_memo_from_file L self input_file output_file w
           = (Ret PNone, w2)
     end.
Proof.
  intros Hread Hgen Hne.
  split; [now intros ->|].
  split.
  { intros dir name ext -> -> Hdir Hn1 Hn2 He1 He2.
    cbn [output_path]. unfold default_output_file.
    rewrite splitext_extension by assumption.
    cbn [fst]. apply append_assoc. }
  pose proof (quiet_generate_memo L self transcription w) as Q.
  rewrite Hgen in Q. cbn [snd] in Q. destruct Q as (Qfs & _ & _).
  assert (Htruthy : Py.truthy (PStr memo) = true).
  { cbn [Py.truthy]. destruct (String.eqb memo "") eqn:E; [|reflexivity].
    apply String.eqb_eq in E. congruence. }
  unfold generate_memo_from_file, try_except.
  rewrite run_bind, Hread, run_bind, Hgen, Htruthy.
  fold (output_path input_file output_file).
  set (out := output_path input_file output_file).
  rewrite run_bind.
  destruct (write_faults (fs w) !! out) as [f|] eqn:Hf; rewrite <- Qfs in Hf.
  - destruct (run_write_file_fault out memo w1 f Hf) as (e & w' & -> & _).
    destruct (is_FileNotFoundError (OSError e)); eexists; reflexivity.
  - rewrite (run_write_file_ok out memo w1 Hf).
    split; [reflexivity|]. cbn [written fs files]. now rewrite Qfs.
Qed.

End FilePipeline.

Section EmptySummary.

Variable L : pylib.
Import MemoGenerator.

Lemma quiet_call_adapter (p : provider_id) (self : t) (prompt : string) :
  quiet (call_adapter L p self prompt).
Proof.
  destruct p; [apply quiet_call_openai | apply quiet_call_anthropic
              | apply quiet_call_google].
Qed.

(** [generate_memo] around an adapter that returned a value false for
    [if result:]: the call is logged as failed and the value handed on. *)
Lemma run_generate_memo_falsy
  (p : provider_id) (self : t) (transcription template : string)
  (templates v : pyval) (w w1 : world) :
  Py.getitem (config self) "templates" = Ret templates ->
  Py.getitem templates "default" = Ret (PStr template) ->
  llm self "provider" = Ret (PStr (provider_name p)) ->
  call_adapter L p self (render_prompt template transcription)
    (logged w [Log INFO (ApiCallStart (PStr (provider_name p)))]) = (Ret v, w1) ->
  Py.truthy v = false ->
  generate_memo L self transcription w
  = (Ret v, logged w1 [Log ERROR (ApiCallFailed (PStr (provider_name p)))]).
Proof.
  intros Ht Hd Hp Hcall Hv. unfold generate_memo.
  rewrite run_lift_bind, Ht, run_lift_bind, Hd, run_lift_bind.
  rewrite run_lift_bind, Hp.
  rewrite run_log_bind.
  destruct p; cbn [provider_name call_adapter] in *;
    cbn [Py.eq_str String.eqb Ascii.eqb Bool.eqb]; cbv iota;
    rewrite run_bind, Hcall, Hv; reflexivity.
Qed.

(** C10, as the code has it.  When the selected adapter returns the empty
    string, or [None] as it does on a provider error, [generate_memo] logs the
    call as failed and returns that same value (so the empty string itself,
    not [None]), and [generate_memo_from_file] returns [None] and writes
    nothing: through [generate_memo_from_file], result and files, an empty
    summary and a provider error end alike. *)
Theorem empty_summary_ends_as_a_failure
  (p : provider_id) (self : t) (input_file : string)
  (output_file : option string) (transcription template : string)
  (templates v : pyval) (w w1 : world) :
  read_file input_file w = (Ret transcription, w) ->
  Py.getitem (config self) "templates" = Ret templates ->
  Py.getitem templates "default" = Ret (PStr template) ->
  llm self "provider" = Ret (PStr (provider_name p)) ->
  call_adapter L p self (render_prompt template transcription)
    (logged w [Log INFO (ApiCallStart (PStr (provider_name p)))]) = (Ret v, w1) ->
  v = PStr "" \/ v = PNone ->
  generate_memo L self transcription w
  = (Ret v, logged w1 [Log ERROR (ApiCallFailed (PStr (provider_name p)))])
  /\ generate_memo_from_file L self input_file output_file w
     = (Ret PNone, logged w1 [Log ERROR (ApiCallFailed (PStr (provider_name p)))])
  /\ fs w1 = fs w
  /\ writes (trace w1) = writes (trace w).
Proof.
  intros Hread Ht Hd Hp Hcall Hv.
  assert (Hfalsy : Py.truthy v = false) by (destruct Hv as [-> | ->]; reflexivity).
  pose proof (run_generate_memo_falsy p self transcription template templates
                v w w1 Ht Hd Hp Hcall Hfalsy) as Hgen.
  pose proof (quiet_call_adapter p self (render_prompt template transcription)
                (logged w [Log INFO (ApiCallStart (PStr (provider_name p)))])) as Q.
  rewrite Hcall in Q. cbn [snd logged fs trace] in Q. destruct Q as (Qfs & _ & Qw).
  rewrite writes_log in Qw.
  split; [exact Hgen|]. split; [|now split].
  unfold generate_memo_from_file, try_except.
  now rewrite run_bind, Hread, run_bind, Hgen, Hfalsy.
Qed.

End EmptySummary.

(** ** The pipeline on the example worlds *)

Section PipelineExamples.

Import MemoGenerator Examples.

Lemma failed_generation_writes_nothing_witness :
  exists w2,
    generate_memo_from_file codec openai "meeting.txt" None
      (answering disk 401 "unauthorized") = (Ret PNone, w2)
    /\ fs w2 = fs (answering disk 401 "unauthorized")
    /\ writes (trace w2) = writes (trace (answering disk 401 "unauthorized")).
Proof.
  apply (failed_generation_writes_nothing codec openai "meeting.txt" None
           (answering disk 401 "unauthorized")
           (snd (generate_memo codec openai transcript
                   (answering disk 401 "unauthorized")))
           transcript (Ret PNone)).
  - vm_compute. reflexivity.
  - vm_compute. reflexivity.
  - reflexivity.
Defined.

Lemma nonempty_memo_is_written_witness :
  generate_memo_from_file codec openai "meeting.txt" None
    (answering disk 200 "summary")
  = (Ret (PStr "Meeting summary."),
     logged (written (snd (generate_memo codec openai transcript
                             (answering disk 200 "summary")))
               "meeting_memo.txt" "Meeting summary.")
            [Log INFO (MemoSaved "meeting_memo.txt")])
  /\ exists w2,
       generate_memo_from_file codec openai "meeting.txt" None
         (answering locked_disk 200 "summary") = (Ret PNone, w2).
Proof.
  split.
  - apply (nonempty_memo_is_written codec openai "meeting.txt" None
             (answering disk 200 "summary")
             (snd (generate_memo codec openai transcript
                     (answering disk 200 "summary")))
             transcript "Meeting summary.").
    + vm_compute. reflexivity.
    + vm_compute. reflexivity.
    + discriminate.
  - apply (nonempty_memo_is_written codec openai "meeting.txt" None
             (answering locked_disk 200 "summary")
             (snd (generate_memo codec openai transcript
                     (answering locked_disk 200 "summary")))
             transcript "Meeting summary.").
    + vm_compute. reflexivity.
    + vm_compute. reflexivity.
    + discriminate.
Defined.

(** The generation call returns a text, the empty one; nothing is written
    and the pipeline returns [None]. *)
Lemma empty_memo_is_not_written :
  read_file "meeting.txt" (answering disk 200 "empty")
  = (Ret transcript, answering disk 200 "empty")
  /\ fst (generate_memo codec openai transcript (answering disk 200 "empty"))
     = Ret (PStr "")
  /\ fst (generate_memo_from_file codec openai "meeting.txt" None
            (answering disk 200 "empty")) = Ret PNone
  /\ files (fs (snd (generate_memo_from_file codec openai "meeting.txt" None
                       (answering disk 200 "empty"))))
     !! "meeting_memo.txt" = None.
Proof. vm_compute. repeat split. Qed.

Lemma empty_summary_ends_as_a_failure_witness :
  generate_memo_from_file codec openai "meeting.txt" None
    (answering disk 200 "empty")
  = (Ret PNone,
     logged (snd (_call_openai_api codec openai
                    (render_prompt ("Summarize:" +:+ nl +:+ "{transcription}")
                                   transcript)
                    (logged (answering disk 200 "empty")
                            [Log INFO (ApiCallStart (PStr "openai"))])))
            [Log ERROR (ApiCallFailed (PStr "openai"))]).
Proof.
  apply (empty_summary_ends_as_a_failure codec OpenAI openai "meeting.txt" None
           transcript ("Summarize:" +:+ nl +:+ "{transcription}")
           (PDict [("default",
                    PStr ("Summarize:" +:+ nl +:+ "{transcription}"))])
           (PStr "") (answering disk 200 "empty")).
  - vm_compute. reflexivity.
  - reflexivity.
  - reflexivity.
  - reflexivity.
  - vm_compute. reflexivity.
  - now left.
Defined.

(** Through [generate_memo] itself the two cases differ: an empty summary
    comes back as the empty string, a provider error as [None]. *)
Lemma empty_summary_differs_from_provider_error :
  fst (_call_openai_api codec openai "prompt" (answering disk 200 "empty"))
  = Ret (PStr "")
  /\ fst (generate_memo codec openai transcript (answering disk 200 "empty"))
     = Ret (PStr "")
  /\ fst (generate_memo codec openai transcript
            (answering disk 401 "unauthorized")) = Ret PNone
  /\ fst (generate_memo codec openai transcript (answering disk 200 "empty"))
     <> fst (generate_memo codec openai transcript
               (answering disk 401 "unauthorized")).
Proof. vm_compute. repeat split. discriminate. Qed.

End PipelineExamples.

(** ** Credentials *)

Section Credentials.

Variable L : pylib.
Import MemoGenerator.

(** An adapter whose credential is [None], empty or otherwise false logs
    that the key is not set and returns [None]; it sends nothing. *)
Lemma run_adapter_without_credential
  (p : provider_id) (self : t) (prompt : string) (key : pyval) (w : world) :
  credential p self = Ret key ->
  Py.truthy key = false ->
  call_adapter L p self prompt w
  = (Ret PNone, logged w [Log ERROR (ApiKeyMissing p)])
  /\ posts (trace (logged w [Log ERROR (ApiKeyMissing p)])) = posts (trace w).
Proof.
  intros Hc Hk. split.
  - destruct p; cbn [call_adapter credential] in *.
    + unfold _call_openai_api. now rewrite run_lift_bind, Hc, Hk.
    + unfold _call_anthropic_api. now rewrite run_lift_bind, Hc, Hk.
    + unfold _call_google_api.
      destruct (Py.getitem (config self) "llm") as [d|e] eqn:Hd;
        [|discriminate].
      rewrite run_lift_bind. change (Ret d ≫= (fun d => Py.get d "google_api_key" (PStr "")))
        with (Py.get d "google_api_key" (PStr "")) in Hc.
      now rewrite run_lift_bind, Hc, Hk.
  - cbn [logged trace]. rewrite posts_app. apply app_nil_r.
Qed.

(** An adapter whose credential lookup raises lets the exception through:
    the lookup stands before the [try]. *)
Lemma run_adapter_credential_raises
  (p : provider_id) (self : t) (prompt : string) (e : exn) (w : world) :
  credential p self = Raise e ->
  call_adapter L p self prompt w = (Raise e, w).
Proof.
  intros Hc. destruct p; cbn [call_adapter credential] in *.
  - unfold _call_openai_api. now rewrite run_lift_bind, Hc.
  - unfold _call_anthropic_api. now rewrite run_lift_bind, Hc.
  - unfold _call_google_api.
    destruct (Py.getitem (config self) "llm") as [d|e'] eqn:Hd.
    + rewrite run_lift_bind.
      change (Ret d ≫= (fun d => Py.get d "google_api_key" (PStr "")))
        with (Py.get d "google_api_key" (PStr "")) in Hc.
      now rewrite run_lift_bind, Hc.
    + rewrite run_lift_bind. now injection Hc as ->.
Qed.

(** [set_api_key] sets the one credential the OpenAI and the Anthropic
    adapter both consult, and leaves the Google one as it is;
    [set_google_api_key] does the converse. *)
Lemma set_api_key_credentials (self : t) (d : list (string * pyval)) (key : string) :
  Py.getitem (config self) "llm" = Ret (PDict d) ->
  exists self',
    set_api_key self key = Ret self' /\
    credential OpenAI self' = Ret (PStr key) /\
    credential Anthropic self' = Ret (PStr key) /\
    credential Google self' = credential Google self.
Proof.
  intros Hllm.
  destruct (setitem2_spec (config self) "llm" "api_key" (PStr key) d Hllm)
    as (o' & Hset & Hget & _).
  exists (with_config self o'). split; [|split; [|split]].
  - unfold set_api_key. now rewrite Hset.
  - cbn [credential]. unfold llm. cbn [config with_config]. rewrite Hget.
    change (Py.getitem (PDict (Py.dict_store "api_key" (PStr key) d)) "api_key"
            = Ret (PStr key)).
    cbn [Py.getitem]. now rewrite dict_lookup_store_eq.
  - cbn [credential]. unfold llm. cbn [config with_config]. rewrite Hget.
    change (Py.getitem (PDict (Py.dict_store "api_key" (PStr key) d)) "api_key"
            = Ret (PStr key)).
    cbn [Py.getitem]. now rewrite dict_lookup_store_eq.
  - cbn [credential config with_config]. rewrite Hget, Hllm.
    change (Py.get (PDict (Py.dict_store "api_key" (PStr key) d))
              "google_api_key" (PStr "")
            = Py.get (PDict d) "google_api_key" (PStr "")).
    cbn [Py.get]. now rewrite dict_lookup_store_ne.
Qed.

Lemma set_google_api_key_credentials
  (self : t) (d : list (string * pyval)) (key : string) :
  Py.getitem (config self) "llm" = Ret (PDict d) ->
  exists self',
    set_google_api_key self key = Ret self' /\
    credential Google self' = Ret (PStr key) /\
    credential OpenAI self' = credential OpenAI self /\
    credential Anthropic self' = credential Anthropic self.
Proof.
  intros Hllm.
  destruct (setitem2_spec (config self) "llm" "google_api_key" (PStr key) d Hllm)
    as (o' & Hset & Hget & _).
  assert (Hother : llm (with_config self o') "api_key" = llm self "api_key").
  { unfold llm. cbn [config with_config]. rewrite Hget, Hllm.
    change (Py.getitem (PDict (Py.dict_store "google_api_key" (PStr key) d))
              "api_key" = Py.getitem (PDict d) "api_key").
    cbn [Py.getitem]. now rewrite dict_lookup_store_ne. }
  exists (with_config self o'). split; [|split; [|split]].
  - unfold set_google_api_key. now rewrite Hset.
  - cbn [credential config with_config]. rewrite Hget.
    change (Py.get (PDict (Py.dict_store "google_api_key" (PStr key) d))
              "google_api_key" (PStr "") = Ret (PStr key)).
    cbn [Py.get]. now rewrite dict_lookup_store_eq.
  - exact Hother.
  - exact Hother.
Qed.

End Credentials.

(** ** Saving the configuration *)

Section SaveConfig.

Variable L : pylib.

(** [MemoGenerator.save_config] returns [None] whether the write succeeded
    or not. *)
Lemma save_config_returns_none (self : MemoGenerator.t) (w : world) :
  fst (MemoGenerator.save_config L self w) = Ret PNone.
Proof.
  unfold MemoGenerator.save_config, try_except. rewrite run_bind.
  destruct (write_faults (fs w) !! MemoGenerator.config_path self)
    as [f|] eqn:Hf.
  - destruct (run_write_file_fault _ (json_dumps L (MemoGenerator.config self))
                w f Hf) as (e & w' & -> & _).
    reflexivity.
  - rewrite (run_write_file_ok _ _ w Hf). reflexivity.
Qed.

(** [MemoGeneratorGUI.save_config] returns [True] exactly when the write
    went through. *)
Lemma gui_save_config_reports (self : Gui.t) (w : world) :
  fst (Gui.save_config L self w)
  = Ret (PBool (match write_faults (fs w) !! Gui.config_path self with
                | None => true
                | Some _ => false
                end)).
Proof.
  unfold Gui.save_config, try_except. rewrite run_bind.
  destruct (write_faults (fs w) !! Gui.config_path self) as [f|] eqn:Hf.
  - destruct (run_write_file_fault _ (json_dumps L (Gui.config self))
                w f Hf) as (e & w' & -> & _).
    reflexivity.
  - rewrite (run_write_file_ok _ _ w Hf). reflexivity.
Qed.

End SaveConfig.

(** ** The adapters and the setters on the example worlds *)

Section AdapterExamples.

Import MemoGenerator Examples.

(** C3, where the code departs from it.  On a configuration without an
    ["api_key"] entry (the file [gui.py] writes has none) the OpenAI and the
    Anthropic adapter raise [KeyError] instead of returning the
    missing-credential failure, and [generate_memo] with them; the Google
    adapter, on a configuration without its key, returns [None].  No request
    is sent in any of these calls. *)
Theorem absent_api_key_raises_in_adapter :
  _call_openai_api codec (from_gui_file "openai") "prompt"
    (answering disk 200 "summary")
  = (Raise (KeyError (PStr "api_key")), answering disk 200 "summary")
  /\ _call_anthropic_api codec (from_gui_file "anthropic") "prompt"
       (answering disk 200 "summary")
     = (Raise (KeyError (PStr "api_key")), answering disk 200 "summary")
  /\ fst (generate_memo codec (from_gui_file "openai") transcript
            (answering disk 200 "summary"))
     = Raise (KeyError (PStr "api_key"))
  /\ _call_google_api codec (generator "google" []) "prompt"
       (answering disk 200 "parts")
     = (Ret PNone,
        logged (answering disk 200 "parts") [Log ERROR (ApiKeyMissing Google)]).
Proof. vm_compute. repeat split. Qed.

(** C6, where the code departs from it.  [MemoGenerator.save_config]
    returns [None] in every world; on a disk where [config.json] cannot be
    opened the failure is logged and the caller still gets [None], as after
    a write that went through, while the [save_config] of [gui.py] returns
    [False] there and [True] on the writable disk. *)
Theorem save_config_returns_none_either_way :
  (forall (L : pylib) (self : t) (w : world),
      fst (save_config L self w) = Ret PNone)
  /\ save_config codec openai (answering locked_disk 200 "summary")
     = (Ret PNone,
        logged (answering locked_disk 200 "summary")
               [OpenForWriting "config.json";
                Log ERROR (ConfigSaveFailed (OSError EACCES))])
  /\ fst (save_config codec openai (answering disk 200 "summary")) = Ret PNone
  /\ files (fs (snd (save_config codec openai (answering disk 200 "summary"))))
     !! "config.json" = Some "{}"
  /\ fst (Gui.save_config codec
            {| Gui.config := config openai; Gui.config_path := "config.json" |}
            (answering locked_disk 200 "summary")) = Ret (PBool false)
  /\ fst (Gui.save_config codec
            {| Gui.config := config openai; Gui.config_path := "config.json" |}
            (answering disk 200 "summary")) = Ret (PBool true).
Proof.
  split; [exact save_config_returns_none|].
  vm_compute. repeat split.
Qed.

(** C7, where the code departs from it.  The Anthropic adapter holds the
    credential [sk-ant]; setting the credential [sk-openai] for the OpenAI
    adapter with [set_api_key] replaces it, and the next Anthropic request
    carries [sk-openai] in its [x-api-key] header. *)
Theorem set_api_key_is_shared_by_openai_and_anthropic :
  credential Anthropic (generator "anthropic" [("api_key", PStr "sk-ant")])
  = Ret (PStr "sk-ant")
  /\ set_api_key (generator "anthropic" [("api_key", PStr "sk-ant")]) "sk-openai"
       ≫= (fun self' => credential OpenAI self')
     = Ret (PStr "sk-openai")
  /\ set_api_key (generator "anthropic" [("api_key", PStr "sk-ant")]) "sk-openai"
       ≫= (fun self' => credential Anthropic self')
     = Ret (PStr "sk-openai")
  /\ set_api_key (generator "anthropic" [("api_key", PStr "sk-ant")]) "sk-openai"
       ≫= (fun self' =>
              Ret (map headers
                     (posts (trace (snd (_call_anthropic_api codec self' "prompt"
                                           (answering disk 200 "summary")))))))
     = Ret [[("Content-Type", PStr "application/json");
             ("x-api-key", PStr "sk-openai");
             ("anthropic-version", PStr "2023-06-01")]].
Proof. vm_compute. repeat split. Qed.

Lemma run_adapter_without_credential_witness :
  call_adapter codec OpenAI (generator "openai" [("api_key", PStr "")]) "prompt"
    (answering disk 200 "summary")
  = (Ret PNone,
     logged (answering disk 200 "summary") [Log ERROR (ApiKeyMissing OpenAI)])
  /\ posts (trace (logged (answering disk 200 "summary")
                          [Log ERROR (ApiKeyMissing OpenAI)]))
     = posts (trace (answering disk 200 "summary")).
Proof.
  apply (run_adapter_without_credential codec OpenAI
           (generator "openai" [("api_key", PStr "")]) "prompt" (PStr "")).
  - reflexivity.
  - reflexivity.
Defined.

Lemma set_google_api_key_credentials_witness :
  exists self',
    set_google_api_key openai "g-key" = Ret self' /\
    credential Google self' = Ret (PStr "g-key") /\
    credential OpenAI self' = credential OpenAI openai /\
    credential Anthropic self' = credential Anthropic openai.
Proof.
  apply (set_google_api_key_credentials openai
           [("provider", PStr "openai"); ("model", PStr "gpt-4o-mini");
            ("temperature", PFloat 0.3); ("max_tokens", PInt 1500);
            ("api_key", PStr "sk-test")] "g-key").
  reflexivity.
Defined.

End AdapterExamples.

(** ** The reply of the Google adapter *)

Section GoogleReply.

Variable L : pylib.
Import MemoGenerator.







Section Configured.

Variables (self : t) (prompt : string) (w : world) (resp : response).
Variables (d : list (string * pyval)) (key temperature max_tokens : pyval).
Variable model : string.

Hypothesis Hllm : Py.getitem (config self) "llm" = Ret (PDict d).
Hypothesis Hkey : Py.dict_lookup "google_api_key" d = Some key.
Hypothesis Htruthy : Py.truthy key = true.
Hypothesis Hmodel : Py.dict_lookup "model" d = Some (PStr model).
Hypothesis Htemp : Py.dict_lookup "temperature" d = Some temperature.
Hypothesis Hmax : Py.dict_lookup "max_tokens" d = Some max_tokens.
Hypothesis Hnet : forall r, net w r = Ret resp.




End Configured.


End GoogleReply.

Section GoogleExamples.

Import MemoGenerator Examples.



End GoogleExamples.

Section CredentialExamples.

Import MemoGenerator Examples.

Lemma set_api_key_credentials_witness :
  exists self',
    set_api_key google "sk-new" = Ret self' /\
    credential OpenAI self' = Ret (PStr "sk-new") /\
    credential Anthropic self' = Ret (PStr "sk-new") /\
    credential Google self' = credential Google google.
Proof.
  apply (set_api_key_credentials google
           [("provider", PStr "google"); ("model", PStr "gpt-4o-mini");
            ("temperature", PFloat 0.3); ("max_tokens", PInt 1500);
            ("google_api_key", PStr "g-key")] "sk-new").
  reflexivity.
Defined.

End CredentialExamples.

(** ** Requests are counted: no call retries *)

Section Sending.

Context {A B : Type}.

Lemma sends_ret (k : nat) (a : A) : sends_at_most k (mret a : M A).
Proof. intros w. exists []. split; [now rewrite app_nil_r | cbn; lia]. Qed.

Lemma sends_lift (k : nat) (o : outcome A) : sends_at_most k (lift o).
Proof. intros w. exists []. split; [now rewrite app_nil_r | cbn; lia]. Qed.

Lemma sends_bind (k1 k2 : nat) (m : M A) (f : A -> M B) :
  sends_at_most k1 m -> (forall a, sends_at_most k2 (f a)) ->
  sends_at_most (k1 + k2) (m ≫= f).
Proof.
  intros Hm Hf w. rewrite run_bind. destruct (Hm w) as (evs1 & H1 & L1).
  destruct (m w) as [[a|e] w1]; cbn [snd] in *.
  - destruct (Hf a w1) as (evs2 & H2 & L2).
    exists (evs1 ++ evs2). split.
    + now rewrite H2, H1, app_assoc.
    + rewrite posts_app, length_app. lia.
  - exists evs1. split; [exact H1 | lia].
Qed.

Lemma sends_try (k : nat) (body : M A) (handler : exn -> option (M A)) :
  sends_at_most k body ->
  (forall e h, handler e = Some h -> sends_at_most 0 h) ->
  sends_at_most k (try_except body handler).
Proof.
  intros Hb Hh w. unfold try_except. destruct (Hb w) as (evs1 & H1 & L1).
  destruct (body w) as [[a|e] w1]; cbn [snd] in *.
  - now exists evs1.
  - destruct (handler e) as [h|] eqn:E; [|now exists evs1].
    destruct (Hh e h E w1) as (evs2 & H2 & L2).
    exists (evs1 ++ evs2). split.
    + now rewrite H2, H1, app_assoc.
    + rewrite posts_app, length_app. lia.
Qed.

End Sending.

Lemma sends_weaken {A} (k k' : nat) (m : M A) :
  k <= k' -> sends_at_most k m -> sends_at_most k' m.
Proof.
  intros Hk Hm w. destruct (Hm w) as (evs & H & Hl). exists evs. split; [exact H | lia].
Qed.

Lemma sends_bind_silent {A B} (k : nat) (m : M A) (f : A -> M B) :
  sends_at_most 0 m -> (forall a, sends_at_most k (f a)) ->
  sends_at_most k (m ≫= f).
Proof. intros Hm Hf. exact (sends_bind 0 k m f Hm Hf). Qed.

Lemma sends_bind_then_silent {A B} (k : nat) (m : M A) (f : A -> M B) :
  sends_at_most k m -> (forall a, sends_at_most 0 (f a)) ->
  sends_at_most k (m ≫= f).
Proof.
  intros Hm Hf. apply (sends_weaken (k + 0)); [lia|]. now apply sends_bind.
Qed.

Lemma sends_emit (k : nat) (ev : event) :
  (forall r, ev <> HttpPost r) -> sends_at_most k (emit ev).
Proof.
  intros Hev w. exists [ev]. split; [reflexivity|].
  destruct ev; cbn; try lia. now destruct (Hev r).
Qed.

Lemma sends_log (k : nat) (lv : level) (m : message) : sends_at_most k (log lv m).
Proof. apply sends_emit. discriminate. Qed.

Lemma sends_post (k : nat) (u : string) (h : list (string * pyval)) (d : pyval) :
  sends_at_most (S k) (post u h d).
Proof.
  intros w. eexists [_]. split; [reflexivity|]. cbn. lia.
Qed.

Lemma sends_response_json (k : nat) (L : pylib) (r : response) :
  sends_at_most k (response_json L r).
Proof.
  unfold response_json. destruct (json_loads L (text r));
    [apply sends_ret | apply sends_lift].
Qed.

Lemma sends_read_file (k : nat) (path : string) : sends_at_most k (read_file path).
Proof.
  intros w. exists []. split; [|cbn; lia]. rewrite app_nil_r. unfold read_file.
  destruct (read_faults (fs w) !! path); [reflexivity|].
  now destruct (files (fs w) !! path).
Qed.

Lemma sends_write_file (k : nat) (path : string) (content : pyval) :
  sends_at_most k (write_file path content).
Proof.
  intros w. exists [OpenForWriting path]. split; [|cbn; lia].
  unfold write_file. rewrite run_emit_bind. unfold get_fs. rewrite run_bind.
  cbn [logged fs].
  destruct (write_faults (fs w) !! path) as [[e|e]|]; [reflexivity| |];
    rewrite run_bind; destruct content; reflexivity.
Qed.

Create HintDb sends.
#[local] Hint Resolve sends_ret sends_lift sends_log sends_response_json
  sends_read_file sends_write_file : sends.

(** A computation that sends nothing, piece by piece. *)
Ltac silent :=
  lazymatch goal with
  | |- sends_at_most _ (try_except _ _) =>
      apply sends_try; [silent | intros ? ? [= <-]; silent]
  | |- sends_at_most _ (_ ≫= _) =>
      apply sends_bind_silent; [silent | intros ?; silent]
  | |- sends_at_most _ (if ?b then _ else _) => destruct b; silent
  | |- sends_at_most _ (match ?x with _ => _ end) => destruct x; silent
  | |- sends_at_most _ (emit _) => apply sends_emit; discriminate
  | |- sends_at_most _ _ => solve [auto with sends]
  end.

(** A computation that sends at most the one request of a [post]. *)
Ltac single :=
  lazymatch goal with
  | |- sends_at_most _ (try_except _ _) =>
      apply sends_try; [single | intros ? ? [= <-]; silent]
  | |- sends_at_most _ (post _ _ _ ≫= _) =>
      apply sends_bind_then_silent; [apply sends_post | intros ?; silent]
  | |- sends_at_most _ (_ ≫= _) =>
      apply sends_bind_silent; [silent | intros ?; single]
  | |- sends_at_most _ (if ?b then _ else _) => destruct b; single
  | |- sends_at_most _ (match ?x with _ => _ end) => destruct x; single
  | |- sends_at_most _ _ => silent
  end.

Section OneRequest.

Variable L : pylib.
Import MemoGenerator.

Lemma sends_call_adapter (p : provider_id) (self : t) (prompt : string) :
  sends_at_most 1 (call_adapter L p self prompt).
Proof.
  destruct p; cbn [call_adapter].
  - unfold _call_openai_api. single.
  - unfold _call_anthropic_api. single.
  - unfold _call_google_api. single.
Qed.

Lemma sends_generate_memo (self : t) (transcription : string) :
  sends_at_most 1 (generate_memo L self transcription).
Proof.
  unfold generate_memo.
  do 5 (apply sends_bind_silent; [silent | intros ?]).
  repeat match goal with
         | |- sends_at_most _ (if ?b then _ else _) => destruct b
         end.
  - apply sends_bind_then_silent;
      [exact (sends_call_adapter OpenAI self _) | intros ?; silent].
  - apply sends_bind_then_silent;
      [exact (sends_call_adapter Anthropic self _) | intros ?; silent].
  - apply sends_bind_then_silent;
      [exact (sends_call_adapter Google self _) | intros ?; silent].
  - silent.
Qed.

Lemma sends_generate_memo_from_file
  (self : t) (input_file : string) (output_file : option string) :
  sends_at_most 1 (generate_memo_from_file L self input_file output_file).
Proof.
  unfold generate_memo_from_file.
  apply sends_try.
  - apply sends_bind_silent; [silent | intros ?].
    apply sends_bind_then_silent; [apply sends_generate_memo | intros ?; silent].
  - intros e h. destruct (is_FileNotFoundError e); intros [= <-]; silent.
Qed.

(** No call retries: an adapter, [generate_memo] and
    [generate_memo_from_file] each leave the trace they found followed by
    new events, of which at most one is a request. *)
Theorem at_most_one_request_per_call :
  (forall p self prompt, sends_at_most 1 (call_adapter L p self prompt))
  /\ (forall self transcription,
         sends_at_most 1 (generate_memo L self transcription))
  /\ (forall self input_file output_file,
         sends_at_most 1 (generate_memo_from_file L self input_file output_file)).
Proof.
  split; [exact sends_call_adapter|].
  split; [exact sends_generate_memo | exact sends_generate_memo_from_file].
Qed.

End OneRequest.

(** ** Exceptions that do not escape *)

Section ExceptionSafety.

Variable L : pylib.
Import MemoGenerator.

Lemma never_raises_try_catch_all {A} (body : M A) (handler : exn -> option (M A)) :
  (forall e, exists h, handler e = Some h /\ never_raises h) ->
  never_raises (try_except body handler).
Proof.
  intros Hh w. unfold try_except.
  destruct (body w) as [[a|e] w1]; [now exists a|].
  destruct (Hh e) as (h & -> & Hn). apply Hn.
Qed.

Lemma never_raises_log_then_ret {A} (lv : level) (m : message) (a : A) :
  never_raises (log lv m ;; mret a).
Proof. intros w. now exists a. Qed.

Lemma generate_memo_from_file_returns
  (self : t) (input_file : string) (output_file : option string) :
  never_raises (generate_memo_from_file L self input_file output_file).
Proof.
  unfold generate_memo_from_file. apply never_raises_try_catch_all.
  intros e. destruct (is_FileNotFoundError e); eexists;
    (split; [reflexivity | apply never_raises_log_then_ret]).
Qed.

(** [generate_memo_from_file] never raises: whatever the files, the
    configuration, the network and the reply are, it returns a value. *)
Theorem generate_memo_from_file_never_raises
  (self : t) (input_file : string) (output_file : option string) :
  never_raises (generate_memo_from_file L self input_file output_file).
Proof. apply generate_memo_from_file_returns. Qed.

(** An adapter whose credential is set never raises: a configuration entry
    it misses, an error of the transport, a reply that is not JSON or not of
    the expected shape all end in a returned value. *)
Theorem adapter_with_credential_never_raises
  (p : provider_id) (self : t) (prompt : string) (key : pyval) :
  credential p self = Ret key ->
  Py.truthy key = true ->
  never_raises (call_adapter L p self prompt).
Proof.
  intros Hc Hk w. destruct p; cbn [call_adapter credential] in *.
  - unfold _call_openai_api. rewrite run_lift_bind, Hc, Hk. cbn [negb].
    apply never_raises_try_catch_all. intros e. eexists.
    split; [reflexivity | apply never_raises_log_then_ret].
  - unfold _call_anthropic_api. rewrite run_lift_bind, Hc, Hk. cbn [negb].
    apply never_raises_try_catch_all. intros e. eexists.
    split; [reflexivity | apply never_raises_log_then_ret].
  - unfold _call_google_api.
    destruct (Py.getitem (config self) "llm") as [d|e] eqn:Hd; [|discriminate].
    change (Ret d ≫= (fun d => Py.get d "google_api_key" (PStr "")))
      with (Py.get d "google_api_key" (PStr "")) in Hc.
    rewrite run_lift_bind, run_lift_bind, Hc, Hk. cbn [negb].
    apply never_raises_try_catch_all. intros e. eexists.
    split; [reflexivity | apply never_raises_log_then_ret].
Qed.

Lemma read_file_world (path : string) (w : world) : snd (read_file path w) = w.
Proof.
  unfold read_file. destruct (read_faults (fs w) !! path); [reflexivity|].
  now destruct (files (fs w) !! path).
Qed.

(** What a result other than [None] of [generate_memo_from_file] tells. *)
Lemma generate_memo_from_file_result
  (self : t) (input_file : string) (output_file : option string)
  (w w' : world) (v : pyval) :
  generate_memo_from_file L self input_file output_file w = (Ret v, w') ->
  v <> PNone ->
  exists transcription memo w1,
    read_file input_file w = (Ret transcription, w)
    /\ generate_memo L self transcription w = (Ret (PStr memo), w1)
    /\ v = PStr memo /\ memo <> ""
    /\ write_faults (fs w) !! output_path input_file output_file = None
    /\ files (fs w')
       = <[output_path input_file output_file := memo]> (files (fs w)).
Proof.
  unfold generate_memo_from_file, try_except. rewrite run_bind.
  pose proof (read_file_world input_file w) as Hw.
  destruct (read_file input_file w) as [[transcription|e] w0]; cbn [snd] in Hw;
    subst w0.
  2:{ destruct (is_FileNotFoundError e); intros [= <- _]; congruence. }
  fold (output_path input_file output_file).
  set (out := output_path input_file output_file).
  rewrite run_bind.
  pose proof (quiet_generate_memo L self transcription w) as Q.
  destruct (generate_memo L self transcription w) as [[m|e] w1] eqn:Hgen;
    cbn [snd] in Q.
  2:{ destruct (is_FileNotFoundError e); intros [= <- _]; congruence. }
  destruct Q as (Qfs & _ & _).
  destruct (Py.truthy m) eqn:Hm; [|intros [= <- _]; congruence].
  rewrite run_bind.
  destruct m as [| | | |memo| |];
    try (unfold write_file; rewrite run_emit_bind; unfold get_fs;
         rewrite run_bind; cbn [logged fs];
         destruct (write_faults (fs w1) !! out) as [[e|e]|];
         [|rewrite run_bind|rewrite run_bind]; cbn [set_files lift];
         match goal with
         | |- context [is_FileNotFoundError ?x] =>
             destruct (is_FileNotFoundError x)
         end; intros [= <- _]; congruence).
  destruct (write_faults (fs w1) !! out) as [f|] eqn:Hf.
  - destruct (run_write_file_fault out memo w1 f Hf) as (e & w2 & -> & _).
    destruct (is_FileNotFoundError (OSError e)); intros [= <- _]; congruence.
  - rewrite (run_write_file_ok out memo w1 Hf). intros [= <- <-] _.
    exists transcription, memo, w1. repeat split.
    + exact Hgen.
    + intros ->. discriminate.
    + now rewrite <- Qfs.
    + cbn [logged written fs files]. now rewrite Qfs.
Qed.

(** A result other than [None] of [generate_memo_from_file] is the text,
    not empty, that [generate_memo] returned for the content of the input
    file, and the output file then holds exactly that text, the other files
    being as before. *)
Theorem returned_memo_is_on_disk
  (self : t) (input_file : string) (output_file : option string)
  (w w' : world) (v : pyval) :
  generate_memo_from_file L self input_file output_file w = (Ret v, w') ->
  v <> PNone ->
  exists transcription memo w1,
    read_file input_file w = (Ret transcription, w)
    /\ generate_memo L self transcription w = (Ret (PStr memo), w1)
    /\ v = PStr memo /\ memo <> ""
    /\ write_faults (fs w) !! output_path input_file output_file = None
    /\ files (fs w')
       = <[output_path input_file output_file := memo]> (files (fs w)).
Proof. apply generate_memo_from_file_result. Qed.

End ExceptionSafety.

(** ** Edges of the generation and of the pipeline *)

Section Edges.

Variable L : pylib.
Import MemoGenerator.

(** A provider name other than ["openai"], ["anthropic"] and ["google"]
    (the comparison is exact, so ["OpenAI"] is one): [generate_memo] logs the
    start of the call and that the provider is not supported, returns [None]
    and does nothing else; no request goes out. *)
Theorem unsupported_provider_returns_none
  (self : t) (transcription template : string) (templates provider : pyval)
  (w : world) :
  Py.getitem (config self) "templates" = Ret templates ->
  Py.getitem templates "default" = Ret (PStr template) ->
  llm self "provider" = Ret provider ->
  Py.eq_str provider "openai" = false ->
  Py.eq_str provider "anthropic" = false ->
  Py.eq_str provider "google" = false ->
  generate_memo L self transcription w
  = (Ret PNone,
     logged w [Log INFO (ApiCallStart provider);
               Log ERROR (UnsupportedProvider provider)]).
Proof.
  intros Ht Hd Hp H1 H2 H3. unfold generate_memo.
  rewrite run_lift_bind, Ht, run_lift_bind, Hd, run_lift_bind.
  rewrite run_lift_bind, Hp, run_log_bind, H1, H2, H3, run_log_bind.
  unfold logged. cbn [fs net trace]. now rewrite <- app_assoc.
Qed.

(** An input file that cannot be read: [generate_memo_from_file] returns
    [None] after one error line, "not found" for [FileNotFoundError] and
    the general one otherwise; nothing is sent and nothing is written. *)
Theorem unreadable_input_returns_none
  (self : t) (input_file : string) (output_file : option string)
  (e : exn) (w : world) :
  read_file input_file w = (Raise e, w) ->
  generate_memo_from_file L self input_file output_file w
  = (Ret PNone,
     logged w [Log ERROR (if is_FileNotFoundError e
                          then InputNotFound input_file
                          else MemoGenerationError e)]).
Proof.
  intros Hread. unfold generate_memo_from_file, try_except.
  rewrite run_bind, Hread. now destruct (is_FileNotFoundError e).
Qed.

(** A memo was generated and the output path cannot be created because its
    directory does not exist ([open] raises [FileNotFoundError]): the clause
    meant for the input file catches it, so the call returns [None] and the
    log names the input file as not found. *)
Theorem missing_output_directory_blames_input
  (self : t) (input_file : string) (output_file : option string)
  (w w1 : world) (transcription memo : string) :
  read_file input_file w = (Ret transcription, w) ->
  generate_memo L self transcription w = (Ret (PStr memo), w1) ->
  memo <> "" ->
  write_faults (fs w) !! output_path input_file output_file
  = Some (OpenFails ENOENT) ->
  generate_memo_from_file L self input_file output_file w
  = (Ret PNone,
     logged w1 [OpenForWriting (output_path input_file output_file);
                Log ERROR (InputNotFound input_file)]).
Proof.
  intros Hread Hgen Hne Hf.
  pose proof (quiet_generate_memo L self transcription w) as Q.
  rewrite Hgen in Q. cbn [snd] in Q. destruct Q as (Qfs & _ & _).
  assert (Htruthy : Py.truthy (PStr memo) = true).
  { cbn [Py.truthy]. destruct (String.eqb memo "") eqn:E; [|reflexivity].
    apply String.eqb_eq in E. congruence. }
  unfold generate_memo_from_file, try_except.
  rewrite run_bind, Hread, run_bind, Hgen, Htruthy.
  fold (output_path input_file output_file).
  rewrite run_bind. unfold write_file. rewrite run_emit_bind.
  unfold get_fs. rewrite run_bind. cbn [logged fs]. rewrite Qfs, Hf.
  cbn [lift is_FileNotFoundError]. rewrite run_log_bind.
  unfold logged. cbn [fs net trace]. now rewrite <- app_assoc.
Qed.

(** A template without the placeholder is the prompt, whatever the
    transcript: the transcript is left out without a word. *)
Theorem template_without_placeholder_drops_transcript
  (template transcription : string) :
  PyStr.contains placeholder template = false ->
  render_prompt template transcription = template.
Proof. intros H. now apply replace_from_free. Qed.

(** What [_load_config] does besides falling back: a file that is read and
    holds JSON is returned as parsed, whatever its shape, and an error of
    [open] other than [FileNotFoundError] is raised to the caller, so that
    [MemoGenerator(config_path)] raises. *)
Theorem load_config_returns_or_raises (config_path : string) (w : world) :
  (forall t v, read_file config_path w = (Ret t, w) ->
               json_loads L t = Some v ->
               _load_config L config_path w = (Ret v, w)
               /\ __init__ L config_path w
                  = (Ret {| config := v; config_path := config_path |}, w))
  /\ (forall e, read_file config_path w = (Raise (OSError e), w) ->
                e <> ENOENT ->
                _load_config L config_path w = (Raise (OSError e), w)
                /\ __init__ L config_path w = (Raise (OSError e), w)).
Proof.
  split.
  - intros t v Hread Hv.
    assert (H : _load_config L config_path w = (Ret v, w)).
    { unfold _load_config, try_except. rewrite run_bind, Hread.
      unfold json_load. now rewrite Hv. }
    split; [exact H|]. unfold __init__. now rewrite run_bind, H.
  - intros e Hread He.
    assert (H : _load_config L config_path w = (Raise (OSError e), w)).
    { unfold _load_config, try_except. rewrite run_bind, Hread.
      destruct e; try reflexivity. congruence. }
    split; [exact H|]. unfold __init__. now rewrite run_bind, H.
Qed.

(** [_load_config] catches the two exceptions it names and no other: a file
    whose bytes are not UTF-8 ([UnicodeDecodeError]), a document nested too
    deep for the parser ([RecursionError]), any other exception of reading
    or parsing is raised by [_load_config] and by the constructor. *)
Theorem load_config_raises_what_it_does_not_name
  (config_path : string) (e : exn) (w : world) :
  is_FileNotFoundError e = false ->
  is_JSONDecodeError e = false ->
  read_file config_path w = (Raise e, w)
  \/ (exists t, read_file config_path w = (Ret t, w)
                /\ json_loads L t = None /\ json_error L t = e) ->
  _load_config L config_path w = (Raise e, w)
  /\ __init__ L config_path w = (Raise e, w).
Proof.
  intros Hfile Hjson Hrun.
  assert (H : _load_config L config_path w = (Raise e, w)).
  { unfold _load_config, try_except. rewrite run_bind.
    destruct Hrun as [-> | (t & -> & Hnone & Herr)].
    - now rewrite Hfile, Hjson.
    - unfold json_load. rewrite Hnone, Herr. cbn [lift].
      now rewrite Hfile, Hjson. }
  split; [exact H|]. unfold __init__. now rewrite run_bind, H.
Qed.

End Edges.

(** ** More of the setters *)

Section MoreSetters.

Import MemoGenerator.

(** [set_max_tokens n] never rejects [n]: on a configuration with an
    ["llm"] dictionary it stores [max(1, n)] under ["max_tokens"], that is
    [n] from 1 on and 1 below, and leaves every other entry as it is. *)
Theorem set_max_tokens_clamps (self : t) (d : list (string * pyval)) (n : Z) :
  Py.getitem (config self) "llm" = Ret (PDict d) ->
  exists self' c,
    set_max_tokens self n = Ret self' /\
    llm self' "max_tokens" = Ret (PInt c) /\
    (1 <= c)%Z /\ ((1 <= n)%Z -> c = n) /\ ((n < 1)%Z -> c = 1%Z) /\
    config_path self' = config_path self /\
    (forall k, k <> "max_tokens" ->
               Py.dict_lookup k d = None \/ llm self' k = llm self k) /\
    (forall k, k <> "llm" ->
               Py.getitem (config self') k = Py.getitem (config self) k).
Proof.
  intros Hllm.
  destruct (setitem2_spec (config self) "llm" "max_tokens"
              (PInt (Z.max 1 n)) d Hllm) as (o' & Hset & Hget & Hframe).
  exists (with_config self o'), (Z.max 1 n).
  split; [|split; [|split; [|split; [|split; [|split; [|split]]]]]].
  - unfold set_max_tokens. now rewrite Hset.
  - unfold llm. cbn [config with_config]. rewrite Hget.
    change (Py.getitem (PDict (Py.dict_store "max_tokens" (PInt (Z.max 1 n)) d))
              "max_tokens" = Ret (PInt (Z.max 1 n))).
    cbn [Py.getitem]. now rewrite dict_lookup_store_eq.
  - lia.
  - lia.
  - lia.
  - reflexivity.
  - intros k Hk. unfold llm. cbn [config with_config]. rewrite Hget, Hllm.
    destruct (Py.dict_lookup k d) eqn:E; [right | now left].
    change (Py.getitem (PDict (Py.dict_store "max_tokens" (PInt (Z.max 1 n)) d)) k
            = Py.getitem (PDict d) k).
    cbn [Py.getitem]. rewrite dict_lookup_store_ne by congruence. reflexivity.
  - intros k Hk. cbn [config with_config]. now apply Hframe.
Qed.

(** On a configuration that is an object without ["llm"] (the document
    [{}] is one) every setter of an ["llm"] entry raises
    [KeyError('llm')]; none of them creates the entry. *)
Theorem setters_need_the_llm_entry
  (self : t) (entries : list (string * pyval)) :
  config self = PDict entries ->
  Py.dict_lookup "llm" entries = None ->
  (forall key, set_api_key self key = Raise (KeyError (PStr "llm")))
  /\ (forall key, set_google_api_key self key = Raise (KeyError (PStr "llm")))
  /\ (forall x, set_temperature self x = Raise (KeyError (PStr "llm")))
  /\ (forall n, set_max_tokens self n = Raise (KeyError (PStr "llm"))).
Proof.
  intros Hc Hl.
  repeat split; intros;
    unfold set_api_key, set_google_api_key, set_temperature, set_max_tokens,
      Py.setitem2; rewrite Hc; cbn [Py.getitem]; now rewrite Hl.
Qed.

End MoreSetters.

(** ** The advisory catalogue *)

Section Catalogue.

Import MemoGenerator.

(** [set_provider] never rejects a name: it stores it, and warns exactly
    when the name is not in the catalogue under ["providers"], an absent
    catalogue being an empty one (so that every name is then warned
    about). *)
Theorem set_provider_stores_any_name
  (self : t) (d : list (string * pyval)) (provider : string)
  (catalog : pyval) (known : bool) (w : world) :
  Py.getitem (config self) "llm" = Ret (PDict d) ->
  Py.get (config self) "providers" (PDict []) = Ret catalog ->
  Py.contains provider catalog = Ret known ->
  exists self',
    set_provider self provider w
    = (Ret self',
       if known then w else logged w [Log WARNING (UnknownProvider provider)])
    /\ llm self' "provider" = Ret (PStr provider)
    /\ (forall k, k <> "provider" ->
                  Py.dict_lookup k d = None \/ llm self' k = llm self k).
Proof.
  intros Hllm Hcat Hknown.
  destruct (setitem2_spec (config self) "llm" "provider" (PStr provider) d Hllm)
    as (o' & Hset & Hget & _).
  exists (with_config self o'). split; [|split].
  - unfold set_provider.
    rewrite run_lift_bind, Hcat, run_lift_bind, Hknown.
    destruct known.
    + now rewrite run_ret_bind, run_lift_bind, Hset.
    + now rewrite run_log_bind, run_lift_bind, Hset.
  - unfold llm. cbn [config with_config]. rewrite Hget.
    change (Py.getitem (PDict (Py.dict_store "provider" (PStr provider) d))
              "provider" = Ret (PStr provider)).
    cbn [Py.getitem]. now rewrite dict_lookup_store_eq.
  - intros k Hk. unfold llm. cbn [config with_config]. rewrite Hget, Hllm.
    destruct (Py.dict_lookup k d) eqn:E; [right | now left].
    change (Py.getitem (PDict (Py.dict_store "provider" (PStr provider) d)) k
            = Py.getitem (PDict d) k).
    cbn [Py.getitem]. rewrite dict_lookup_store_ne by congruence. reflexivity.
Qed.

(** [set_model] never rejects a model: it stores it, and warns exactly when
    the catalogue lists models for the current provider and the model is
    not among them. *)
Theorem set_model_stores_any_model
  (self : t) (d : list (string * pyval)) (model : string)
  (provider catalog : pyval) (models : list pyval) (w : world) :
  Py.getitem (config self) "llm" = Ret (PDict d) ->
  Py.dict_lookup "provider" d = Some provider ->
  Py.get (config self) "providers" (PDict []) = Ret catalog ->
  Py.get_any catalog provider (PList []) = Ret (PList models) ->
  exists self',
    set_model self model w
    = (Ret self',
       match models with
       | [] => w
       | _ => if existsb (fun x => Py.eq_str x model) models
              then w
              else logged w [Log WARNING (UnknownModel provider model)]
       end)
    /\ llm self' "model" = Ret (PStr model)
    /\ (forall k, k <> "model" ->
                  Py.dict_lookup k d = None \/ llm self' k = llm self k).
Proof.
  intros Hllm Hprov Hcat Hmodels.
  destruct (setitem2_spec (config self) "llm" "model" (PStr model) d Hllm)
    as (o' & Hset & Hget & _).
  assert (Hp : llm self "provider" = Ret provider).
  { unfold llm. rewrite Hllm.
    change (Py.getitem (PDict d) "provider" = Ret provider).
    cbn [Py.getitem]. now rewrite Hprov. }
  exists (with_config self o'). split; [|split].
  - unfold set_model.
    rewrite run_lift_bind, Hp, run_lift_bind, Hcat, run_lift_bind, Hmodels.
    destruct models as [|m models].
    + cbn [Py.truthy]. now rewrite !run_ret_bind, run_lift_bind, Hset.
    + cbn [Py.truthy]. rewrite ?run_bind_assoc, run_lift_bind.
      cbn [Py.contains]. rewrite !run_ret_bind.
      destruct (existsb (fun x => Py.eq_str x model) (m :: models)); cbn [negb].
      * now rewrite run_ret_bind, run_lift_bind, Hset.
      * now rewrite run_log_bind, run_lift_bind, Hset.
  - unfold llm. cbn [config with_config]. rewrite Hget.
    change (Py.getitem (PDict (Py.dict_store "model" (PStr model) d))
              "model" = Ret (PStr model)).
    cbn [Py.getitem]. now rewrite dict_lookup_store_eq.
  - intros k Hk. unfold llm. cbn [config with_config]. rewrite Hget, Hllm.
    destruct (Py.dict_lookup k d) eqn:E; [right | now left].
    change (Py.getitem (PDict (Py.dict_store "model" (PStr model) d)) k
            = Py.getitem (PDict d) k).
    cbn [Py.getitem]. rewrite dict_lookup_store_ne by congruence. reflexivity.
Qed.

End Catalogue.

(** ** The replies of the OpenAI and the Anthropic adapter *)

Section ChatReplies.

Variable L : pylib.
Import MemoGenerator.

Ltac reply_step :=
  first
    [ rewrite run_bind_assoc | rewrite run_ret_bind | rewrite run_lift_bind
    | rewrite run_log_bind
    | progress cbn [openai_content anthropic_text Py.getitem Py.getitem0 fst snd]
    | match goal with
      | |- context [Py.getitem ?v _] => is_var v; destruct v
      | |- context [Py.getitem0 ?v] => is_var v; destruct v
      end
    | match goal with
      | |- context [match ?x with _ => _ end] =>
          let T := type of x in
          lazymatch T with
          | option _ => idtac | pyval => idtac | list _ => idtac | string => idtac
          end;
          destruct x eqn:?
      end ].

(** Through the statements of an adapter before the reply is read. *)
Ltac chat_request Hllm Hkey Htruthy Hmodel Htemp Hmax :=
  rewrite run_lift_bind; unfold llm; rewrite Hllm;
  change (Ret (PDict ?d) ≫= (fun d0 => Py.getitem d0 ?k))
    with (Py.getitem (PDict d) k);
  cbn [Py.getitem]; rewrite Hkey, Htruthy; cbn [negb]; unfold try_except;
  rewrite Hmodel, Htemp, Hmax; rewrite !run_lift_bind;
  unfold post; rewrite run_bind, run_emit_bind; unfold send; cbn [logged net].

Section Configured.

Variables (self : t) (prompt : string) (w : world).
Variables (d : list (string * pyval)) (key model temperature max_tokens : pyval).

Hypothesis Hllm : Py.getitem (config self) "llm" = Ret (PDict d).
Hypothesis Hkey : Py.dict_lookup "api_key" d = Some key.
Hypothesis Htruthy : Py.truthy key = true.
Hypothesis Hmodel : Py.dict_lookup "model" d = Some model.
Hypothesis Htemp : Py.dict_lookup "temperature" d = Some temperature.
Hypothesis Hmax : Py.dict_lookup "max_tokens" d = Some max_tokens.

Lemma openai_transport_error (e : exn) :
  (forall r, net w r = Raise e) ->
  fst (_call_openai_api L self prompt w) = Ret PNone.
Proof.
  intros Hnet. unfold _call_openai_api.
  chat_request Hllm Hkey Htruthy Hmodel Htemp Hmax. now rewrite Hnet.
Qed.

Lemma anthropic_transport_error (e : exn) :
  (forall r, net w r = Raise e) ->
  fst (_call_anthropic_api L self prompt w) = Ret PNone.
Proof.
  intros Hnet. unfold _call_anthropic_api.
  chat_request Hllm Hkey Htruthy Hmodel Htemp Hmax. now rewrite Hnet.
Qed.

Variable resp : response.
Hypothesis Hnet : forall r, net w r = Ret resp.

Lemma openai_other_status :
  status_code resp <> 200%Z ->
  fst (_call_openai_api L self prompt w) = Ret PNone.
Proof.
  intros Hstatus. unfold _call_openai_api.
  chat_request Hllm Hkey Htruthy Hmodel Htemp Hmax. rewrite Hnet.
  destruct (status_code resp =? 200)%Z eqn:E; [|reflexivity].
  apply Z.eqb_eq in E. congruence.
Qed.

Lemma openai_not_json :
  status_code resp = 200%Z -> json_loads L (text resp) = None ->
  fst (_call_openai_api L self prompt w) = Ret PNone.
Proof.
  intros Hstatus Hbody. unfold _call_openai_api.
  chat_request Hllm Hkey Htruthy Hmodel Htemp Hmax. rewrite Hnet, Hstatus.
  cbn [Z.eqb Pos.eqb]. unfold response_json. now rewrite Hbody.
Qed.

Lemma openai_reply (body : pyval) :
  status_code resp = 200%Z -> json_loads L (text resp) = Some body ->
  fst (_call_openai_api L self prompt w)
  = Ret (match openai_content body with Some v => v | None => PNone end).
Proof.
  intros Hstatus Hbody. unfold _call_openai_api.
  chat_request Hllm Hkey Htruthy Hmodel Htemp Hmax. rewrite Hnet, Hstatus.
  cbn [Z.eqb Pos.eqb]. unfold response_json. rewrite Hbody.
  repeat reply_step; reflexivity.
Qed.

Lemma anthropic_other_status :
  status_code resp <> 200%Z ->
  fst (_call_anthropic_api L self prompt w) = Ret PNone.
Proof.
  intros Hstatus. unfold _call_anthropic_api.
  chat_request Hllm Hkey Htruthy Hmodel Htemp Hmax. rewrite Hnet.
  destruct (status_code resp =? 200)%Z eqn:E; [|reflexivity].
  apply Z.eqb_eq in E. congruence.
Qed.

Lemma anthropic_not_json :
  status_code resp = 200%Z -> json_loads L (text resp) = None ->
  fst (_call_anthropic_api L self prompt w) = Ret PNone.
Proof.
  intros Hstatus Hbody. unfold _call_anthropic_api.
  chat_request Hllm Hkey Htruthy Hmodel Htemp Hmax. rewrite Hnet, Hstatus.
  cbn [Z.eqb Pos.eqb]. unfold response_json. now rewrite Hbody.
Qed.

Lemma anthropic_reply (body : pyval) :
  status_code resp = 200%Z -> json_loads L (text resp) = Some body ->
  fst (_call_anthropic_api L self prompt w)
  = Ret (match anthropic_text body with Some v => v | None => PNone end).
Proof.
  intros Hstatus Hbody. unfold _call_anthropic_api.
  chat_request Hllm Hkey Htruthy Hmodel Htemp Hmax. rewrite Hnet, Hstatus.
  cbn [Z.eqb Pos.eqb]. unfold response_json. rewrite Hbody.
  repeat reply_step; reflexivity.
Qed.

End Configured.

(** The OpenAI adapter, on a configuration that lets the request go out:
    it returns [choices[0].message.content] of a reply with status 200,
    whatever JSON value that is, and [None] when the reply has no such
    path, is not JSON, has another status, or when the transport raises. *)
Theorem openai_reply_is_the_content
  (self : t) (prompt : string) (w : world)
  (d : list (string * pyval)) (key model temperature max_tokens : pyval) :
  Py.getitem (config self) "llm" = Ret (PDict d) ->
  Py.dict_lookup "api_key" d = Some key ->
  Py.truthy key = true ->
  Py.dict_lookup "model" d = Some model ->
  Py.dict_lookup "temperature" d = Some temperature ->
  Py.dict_lookup "max_tokens" d = Some max_tokens ->
  (forall e, (forall r, net w r = Raise e) ->
             fst (_call_openai_api L self prompt w) = Ret PNone)
  /\ (forall resp, (forall r, net w r = Ret resp) ->
        (status_code resp <> 200%Z ->
         fst (_call_openai_api L self prompt w) = Ret PNone)
        /\ (status_code resp = 200%Z ->
            (json_loads L (text resp) = None ->
             fst (_call_openai_api L self prompt w) = Ret PNone)
            /\ (forall body, json_loads L (text resp) = Some body ->
                  (forall v, openai_content body = Some v ->
                             fst (_call_openai_api L self prompt w) = Ret v)
                  /\ (openai_content body = None ->
                      fst (_call_openai_api L self prompt w) = Ret PNone)))).
Proof.
  intros Hllm Hkey Htruthy Hmodel Htemp Hmax. split.
  - intros e Hnet. now apply (openai_transport_error self prompt w d key model
                                temperature max_tokens Hllm Hkey Htruthy Hmodel
                                Htemp Hmax e).
  - intros resp Hnet. split.
    + now apply (openai_other_status self prompt w d key model temperature
                   max_tokens Hllm Hkey Htruthy Hmodel Htemp Hmax resp).
    + intros Hstatus. split.
      * now apply (openai_not_json self prompt w d key model temperature
                     max_tokens Hllm Hkey Htruthy Hmodel Htemp Hmax resp).
      * intros body Hbody.
        pose proof (openai_reply self prompt w d key model temperature
                      max_tokens Hllm Hkey Htruthy Hmodel Htemp Hmax resp Hnet
                      body Hstatus Hbody) as H.
        split; [intros v Hv | intros Hv]; now rewrite Hv in H.
Qed.

(** The Anthropic adapter, likewise, with [content[0].text]. *)
Theorem anthropic_reply_is_the_text
  (self : t) (prompt : string) (w : world)
  (d : list (string * pyval)) (key model temperature max_tokens : pyval) :
  Py.getitem (config self) "llm" = Ret (PDict d) ->
  Py.dict_lookup "api_key" d = Some key ->
  Py.truthy key = true ->
  Py.dict_lookup "model" d = Some model ->
  Py.dict_lookup "temperature" d = Some temperature ->
  Py.dict_lookup "max_tokens" d = Some max_tokens ->
  (forall e, (forall r, net w r = Raise e) ->
             fst (_call_anthropic_api L self prompt w) = Ret PNone)
  /\ (forall resp, (forall r, net w r = Ret resp) ->
        (status_code resp <> 200%Z ->
         fst (_call_anthropic_api L self prompt w) = Ret PNone)
        /\ (status_code resp = 200%Z ->
            (json_loads L (text resp) = None ->
             fst (_call_anthropic_api L self prompt w) = Ret PNone)
            /\ (forall body, json_loads L (text resp) = Some body ->
                  (forall v, anthropic_text body = Some v ->
                             fst (_call_anthropic_api L self prompt w) = Ret v)
                  /\ (anthropic_text body = None ->
                      fst (_call_anthropic_api L self prompt w) = Ret PNone)))).
Proof.
  intros Hllm Hkey Htruthy Hmodel Htemp Hmax. split.
  - intros e Hnet. now apply (anthropic_transport_error self prompt w d key
                                model temperature max_tokens Hllm Hkey Htruthy
                                Hmodel Htemp Hmax e).
  - intros resp Hnet. split.
    + now apply (anthropic_other_status self prompt w d key model temperature
                   max_tokens Hllm Hkey Htruthy Hmodel Htemp Hmax resp).
    + intros Hstatus. split.
      * now apply (anthropic_not_json self prompt w d key model temperature
                     max_tokens Hllm Hkey Htruthy Hmodel Htemp Hmax resp).
      * intros body Hbody.
        pose proof (anthropic_reply self prompt w d key model temperature
                      max_tokens Hllm Hkey Htruthy Hmodel Htemp Hmax resp Hnet
                      body Hstatus Hbody) as H.
        split; [intros v Hv | intros Hv]; now rewrite Hv in H.
Qed.

End ChatReplies.

(** ** From the setters to the request *)

Section SettingsReachRequest.

Variable L : pylib.
Import MemoGenerator.

(** A [try] that starts with a [post], and what follows it, when nothing
    else sends: the trace grows by the request and by events that are no
    requests. *)
Lemma trace_after_post {A B}
  (u : string) (h : list (string * pyval)) (data : pyval)
  (K : response -> M A) (handler : exn -> option (M A)) (F : A -> M B)
  (w : world) :
  (forall r, sends_at_most 0 (K r)) ->
  (forall e h', handler e = Some h' -> sends_at_most 0 h') ->
  (forall a, sends_at_most 0 (F a)) ->
  exists evs,
    trace (snd ((try_except (post u h data ≫= K) handler ≫= F) w))
    = trace w ++ HttpPost {| url := u; headers := h; json := data |} :: evs
    /\ posts evs = [].
Proof.
  intros HK Hh HF.
  set (r := {| url := u; headers := h; json := data |}).
  assert (Hm : sends_at_most 0 (try_except (send r ≫= K) handler ≫= F)).
  { apply sends_bind_silent; [|exact HF].
    apply sends_try; [|exact Hh].
    apply sends_bind_silent; [|exact HK].
    intros w0. exists []. split; [now rewrite app_nil_r | cbn; lia]. }
  destruct (Hm (logged w [HttpPost r])) as (evs & Htr & Hlen).
  exists evs. split.
  - replace ((try_except (post u h data ≫= K) handler ≫= F) w)
      with ((try_except (send r ≫= K) handler ≫= F) (logged w [HttpPost r])).
    + rewrite Htr. cbn [logged trace]. now rewrite <- app_assoc.
    + rewrite !run_bind. unfold try_except, post. fold r.
      now rewrite run_bind_assoc, run_emit_bind.
  - destruct (posts evs); [reflexivity | cbn in Hlen; lia].
Qed.

Lemma try_lift_ret {A B} (a : A) (f : A -> M B) (handler : exn -> option (M B)) :
  try_except (lift (Ret a) ≫= f) handler = try_except (f a) handler.
Proof. reflexivity. Qed.

(** The settings reach the provider: after the credential, the temperature,
    the token limit and the template were set on a configuration that selects
    ["openai"], [generate_memo] sends one request, the chat-completions one
    carrying that credential as bearer token, the model of the configuration
    as it is, the clamped temperature and token limit, and as user message the
    transcript rendered in that template; whatever the reply, nothing else is
    sent. *)
Theorem settings_reach_the_openai_request
  (self : t) (d templates : list (string * pyval)) (model : pyval)
  (key template transcription : string) (x : float) (n : Z) (w : world) :
  Py.getitem (config self) "llm" = Ret (PDict d) ->
  Py.dict_lookup "provider" d = Some (PStr "openai") ->
  Py.dict_lookup "model" d = Some model ->
  Py.getitem (config self) "templates" = Ret (PDict templates) ->
  key <> "" ->
  exists self',
    apply_settings self key x n template = Ret self'
    /\ exists evs,
         trace (snd (generate_memo L self' transcription w))
         = trace w
           ++ Log INFO (ApiCallStart (PStr "openai"))
           :: HttpPost (openai_request L (PStr key) model
                          (PFloat (Py.max 0 (Py.min 1 x))) (PInt (Z.max 1 n))
                          (render_prompt template transcription))
           :: evs
         /\ posts evs = [].
Proof.
  intros Hllm Hprov Hmodel Htpl Hkey.
  destruct (setitem2_spec (config self) "llm" "api_key" (PStr key) d Hllm)
    as (o1 & Hset1 & Hget1 & Hfr1).
  destruct (setitem2_spec o1 "llm" "temperature"
              (PFloat (Py.max 0 (Py.min 1 x))) _ Hget1)
    as (o2 & Hset2 & Hget2 & Hfr2).
  destruct (setitem2_spec o2 "llm" "max_tokens" (PInt (Z.max 1 n)) _ Hget2)
    as (o3 & Hset3 & Hget3 & Hfr3).
  assert (Htpl3 : Py.getitem o3 "templates" = Ret (PDict templates)).
  { rewrite Hfr3, Hfr2, Hfr1 by discriminate. exact Htpl. }
  destruct (setitem2_spec o3 "templates" "default" (PStr template) _ Htpl3)
    as (o4 & Hset4 & Hget4 & Hfr4).
  exists (with_config (with_config (with_config (with_config self o1) o2) o3) o4).
  split.
  { unfold apply_settings, set_api_key. rewrite Hset1. cbn [mbind outcome_bind].
    unfold set_temperature. cbn [config with_config]. rewrite Hset2.
    cbn [mbind outcome_bind]. unfold set_max_tokens. cbn [config with_config].
    rewrite Hset3. cbn [mbind outcome_bind]. unfold set_template.
    cbn [config with_config]. now rewrite Hset4. }
  set (d3 := Py.dict_store "max_tokens" (PInt (Z.max 1 n))
               (Py.dict_store "temperature" (PFloat (Py.max 0 (Py.min 1 x)))
                  (Py.dict_store "api_key" (PStr key) d))) in *.
  assert (Hllm4 : Py.getitem o4 "llm" = Ret (PDict d3)).
  { rewrite Hfr4 by discriminate. exact Hget3. }
  assert (Hk : Py.dict_lookup "api_key" d3 = Some (PStr key)).
  { unfold d3. rewrite !dict_lookup_store_ne by discriminate.
    apply dict_lookup_store_eq. }
  assert (Hp : Py.dict_lookup "provider" d3 = Some (PStr "openai")).
  { unfold d3. now rewrite !dict_lookup_store_ne by discriminate. }
  assert (Hm : Py.dict_lookup "model" d3 = Some model).
  { unfold d3. now rewrite !dict_lookup_store_ne by discriminate. }
  assert (Ht : Py.dict_lookup "temperature" d3
               = Some (PFloat (Py.max 0 (Py.min 1 x)))).
  { unfold d3. rewrite dict_lookup_store_ne by discriminate.
    apply dict_lookup_store_eq. }
  assert (Hn : Py.dict_lookup "max_tokens" d3 = Some (PInt (Z.max 1 n))).
  { unfold d3. apply dict_lookup_store_eq. }
  assert (Htruthy : Py.truthy (PStr key) = true).
  { cbn [Py.truthy]. destruct (String.eqb key "") eqn:E; [|reflexivity].
    apply String.eqb_eq in E. congruence. }
  unfold generate_memo. cbn [config with_config].
  rewrite run_lift_bind, Hget4, run_lift_bind.
  cbn [Py.getitem]. rewrite dict_lookup_store_eq.
  rewrite run_lift_bind. unfold llm at 1. cbn [config with_config].
  rewrite Hllm4.
  change (Ret (PDict d3) ≫= (fun d0 => Py.getitem d0 "provider"))
    with (Py.getitem (PDict d3) "provider").
  cbn [Py.getitem]. rewrite Hp, run_lift_bind, run_log_bind.
  cbn [Py.eq_str String.eqb Ascii.eqb Bool.eqb]. cbv iota.
  unfold _call_openai_api, llm. cbn [config with_config]. rewrite Hllm4.
  change (Ret (PDict d3) ≫= (fun d0 => Py.getitem d0 ?k))
    with (Py.getitem (PDict d3) k).
  cbn [Py.getitem]. rewrite Hk, Hm, Ht, Hn.
  rewrite run_bind_assoc, run_lift_bind, Htruthy. cbn [negb].
  rewrite !try_lift_ret. cbv beta.
  match goal with
  | |- context [(try_except (post ?u ?h ?data ≫= ?K) ?handler ≫= ?F) ?w0] =>
      destruct (trace_after_post u h data K handler F w0) as (evs & Htr & Hposts)
  end.
  - intros r. silent.
  - intros e h' [= <-]. silent.
  - intros a. silent.
  - exists evs. split; [|exact Hposts].
    rewrite Htr. cbn [logged trace]. now rewrite <- app_assoc.
Qed.
End SettingsReachRequest.

(** ** Output paths *)

Section OutputPaths.

Import Path.

Lemma rfind_from_upper (c : ascii) (s : string) (i found : Z) :
  (found < i)%Z ->
  (rfind_from c i s found < i + Z.of_nat (String.length s))%Z.
Proof.
  revert i found. induction s as [|x s IH]; intros i found H.
  - cbn [rfind_from String.length]. lia.
  - cbn [rfind_from String.length].
    specialize (IH (i + 1)%Z (if Ascii.eqb x c then i else found)).
    destruct (Ascii.eqb x c); lia.
Qed.

Lemma rfind_directory (dir : string) :
  dir = "" \/ (exists dir', dir = dir' +:+ "/") ->
  rfind "/" dir = (Z.of_nat (String.length dir) - 1)%Z.
Proof.
  intros [-> | [dir' ->]]; [reflexivity|].
  unfold rfind. rewrite rfind_from_app, length_append.
  cbn [rfind_from String.length]. rewrite Ascii.eqb_refl. lia.
Qed.

(** A last component without a dot, or with its only dot in front (a
    "dotfile"), has no extension. *)
Lemma splitext_no_extension (dir name : string) :
  dir = "" \/ (exists dir', dir = dir' +:+ "/") ->
  has_char "/" name = false ->
  has_char "." name = false \/
  (exists rest, name = "." +:+ rest /\ has_char "." rest = false) ->
  splitext (dir +:+ name) = (dir +:+ name, "").
Proof.
  intros Hdir Hslash Hdot.
  assert (Hsep : rfind "/" (dir +:+ name) = (Z.of_nat (String.length dir) - 1)%Z).
  { unfold rfind. rewrite rfind_from_app.
    rewrite (rfind_from_absent "/" name) by assumption.
    now apply rfind_directory. }
  unfold splitext. rewrite Hsep.
  destruct Hdot as [Hnone | (rest & -> & Hrest)].
  - assert (Hd : (rfind "." (dir +:+ name) < Z.of_nat (String.length dir))%Z).
    { unfold rfind. rewrite rfind_from_app.
      rewrite (rfind_from_absent "." name) by assumption.
      apply (rfind_from_upper "." dir 0 (-1)). lia. }
    destruct (Z.of_nat (String.length dir) - 1 <? rfind "." (dir +:+ name))%Z
      eqn:E; [|reflexivity].
    apply Z.ltb_lt in E. lia.
  - assert (Hd : rfind "." (dir +:+ "." +:+ rest) = Z.of_nat (String.length dir)).
    { unfold rfind. rewrite rfind_from_app.
      cbn [String.append rfind_from]. rewrite Ascii.eqb_refl.
      rewrite rfind_from_absent by assumption. lia. }
    rewrite Hd.
    destruct (Z.of_nat (String.length dir) - 1 <? Z.of_nat (String.length dir))%Z
      eqn:E; [|reflexivity].
    replace (Z.to_nat (Z.of_nat (String.length dir)
                       - (Z.of_nat (String.length dir) - 1) - 1)) with 0 by lia.
    replace (Z.to_nat (Z.of_nat (String.length dir) - 1 + 1))
      with (String.length dir) by lia.
    rewrite substring_skip. reflexivity.
Qed.

Lemma basename_of_path (dir name : string) :
  dir = "" \/ (exists dir', dir = dir' +:+ "/") ->
  has_char "/" name = false ->
  basename (dir +:+ name) = name.
Proof.
  intros Hdir Hslash. unfold basename.
  assert (Hsep : rfind "/" (dir +:+ name) = (Z.of_nat (String.length dir) - 1)%Z).
  { unfold rfind. rewrite rfind_from_app.
    rewrite (rfind_from_absent "/" name) by assumption.
    now apply rfind_directory. }
  rewrite Hsep.
  replace (Z.to_nat (Z.of_nat (String.length dir) - 1 + 1))
    with (String.length dir) by lia.
  rewrite length_append, substring_skip.
  replace (String.length dir + String.length name - String.length dir)
    with (String.length name) by lia.
  apply substring_all.
Qed.

(** The default output path of [generate_memo_from_file] for an input
    without extension: a name without a dot, also below a directory whose
    name has dots, and a dotfile such as [.bashrc], get [_memo.txt]
    appended to the whole path. *)
Theorem default_output_file_without_extension (dir name : string) :
  dir = "" \/ (exists dir', dir = dir' +:+ "/") ->
  has_char "/" name = false ->
  has_char "." name = false \/
  (exists rest, name = "." +:+ rest /\ has_char "." rest = false) ->
  MemoGenerator.default_output_file (dir +:+ name)
  = dir +:+ name +:+ "_memo.txt".
Proof.
  intros Hdir Hslash Hdot. unfold MemoGenerator.default_output_file.
  rewrite splitext_no_extension by assumption. cbn [fst]. apply append_assoc.
Qed.

(** In a batch with an output directory the memo of [dir/name.ext] goes to
    [output_dir/name_memo.txt]: the directory of the input plays no part, so
    two inputs of the same name in different directories share one output
    file. *)
Theorem batch_output_file_forgets_the_directory
  (output_dir dir1 dir2 name ext : string) :
  output_dir <> "" ->
  Path.ends_with_slash output_dir = false ->
  dir1 = "" \/ (exists dir', dir1 = dir' +:+ "/") ->
  dir2 = "" \/ (exists dir', dir2 = dir' +:+ "/") ->
  has_char "/" name = false -> Path.all_dots name = false ->
  has_char "/" ext = false -> has_char "." ext = false ->
  Gui.batch_output_file output_dir (dir1 +:+ name +:+ "." +:+ ext)
  = output_dir +:+ "/" +:+ name +:+ "_memo.txt"
  /\ Gui.batch_output_file output_dir (dir2 +:+ name +:+ "." +:+ ext)
     = Gui.batch_output_file output_dir (dir1 +:+ name +:+ "." +:+ ext).
Proof.
  intros Hout Hslash Hd1 Hd2 Hn1 Hn2 He1 He2.
  assert (Hname : has_char "/" (name +:+ "." +:+ ext) = false).
  { clear - Hn1 He1. induction name as [|c name IH].
    - cbn [String.append has_char]. now rewrite He1.
    - cbn [String.append has_char] in *. apply orb_false_iff in Hn1 as [-> Hn].
      now apply IH. }
  assert (H : forall dir, dir = "" \/ (exists dir', dir = dir' +:+ "/") ->
                Gui.batch_output_file output_dir (dir +:+ name +:+ "." +:+ ext)
                = output_dir +:+ "/" +:+ name +:+ "_memo.txt").
  { intros dir Hdir. unfold Gui.batch_output_file.
    destruct output_dir as [|c out]; [congruence|].
    rewrite basename_of_path by assumption.
    pose proof (splitext_extension "" name ext (or_introl eq_refl)
                  Hn1 Hn2 He1 He2) as Hs.
    change (Path.splitext (name +:+ "." +:+ ext) = (name, "." +:+ ext)) in Hs.
    rewrite Hs. cbn [fst].
    unfold Path.join.
    destruct (name +:+ "_memo.txt") as [|a rest] eqn:E.
    { destruct name; discriminate. }
    assert (Ha : a <> "/"%char).
    { destruct name as [|b name]; cbn [String.append] in E.
      - injection E as <- _. discriminate.
      - injection E as <- _. cbn [has_char] in Hn1.
        apply orb_false_iff in Hn1 as [Hb _].
        intros ->. now rewrite Ascii.eqb_refl in Hb. }
    rewrite Hslash.
    destruct a as [[] [] [] [] [] [] [] []]; try reflexivity. congruence. }
  split; [now apply H|]. now rewrite !H.
Qed.

End OutputPaths.

(** ** The batch of the window *)

Lemma quiet_emit (ev : event) :
  (forall p, ev <> OpenForWriting p) -> quiet (emit ev).
Proof.
  intros H w. cbn. repeat split. rewrite writes_app.
  destruct ev; cbn; rewrite ?app_nil_r; try reflexivity.
  exfalso. eapply H. reflexivity.
Qed.

Lemma quiet_read_file (path : string) : quiet (read_file path).
Proof.
  intros w. unfold read_file.
  destruct (read_faults (fs w) !! path); [now cbn|].
  now destruct (files (fs w) !! path).
Qed.

Section Frame.

Context {A B : Type}.
Variable paths : list string.

Lemma changes_quiet (m : M A) : quiet m -> changes_only paths m.
Proof. intros Q w. destruct (Q w) as (-> & -> & _). auto. Qed.

Lemma changes_bind (m : M A) (f : A -> M B) :
  changes_only paths m -> (forall a, changes_only paths (f a)) ->
  changes_only paths (m ≫= f).
Proof.
  intros Hm Hf w. rewrite run_bind. specialize (Hm w).
  destruct (m w) as [[a|e] w1]; cbn [snd] in Hm; [|exact Hm].
  destruct (Hf a w1) as (G1 & G2 & G3 & G4), Hm as (H1 & H2 & H3 & H4).
  repeat split; try congruence. intros p Hp. rewrite G4, H4; auto.
Qed.

Lemma changes_try (body : M A) (handler : exn -> option (M A)) :
  changes_only paths body ->
  (forall e h, handler e = Some h -> changes_only paths h) ->
  changes_only paths (try_except body handler).
Proof.
  intros Hb Hh w. unfold try_except. specialize (Hb w).
  destruct (body w) as [[a|e] w1]; cbn [snd] in Hb; [exact Hb|].
  destruct (handler e) as [h|] eqn:E; [|exact Hb].
  destruct (Hh e h E w1) as (G1 & G2 & G3 & G4), Hb as (H1 & H2 & H3 & H4).
  repeat split; try congruence. intros p Hp. rewrite G4, H4; auto.
Qed.

End Frame.

Lemma changes_weaken {A} (paths paths' : list string) (m : M A) :
  (forall p, p ∈ paths -> p ∈ paths') ->
  changes_only paths m -> changes_only paths' m.
Proof.
  intros Hsub Hm w. destruct (Hm w) as (H1 & H2 & H3 & H4).
  repeat split; auto.
Qed.

Lemma changes_write_file (path : string) (content : pyval) :
  changes_only [path] (write_file path content).
Proof.
  intros w. unfold write_file. rewrite run_emit_bind. unfold get_fs.
  rewrite run_bind. cbn [logged fs].
  assert (Hne : forall p, p ∉ [path] -> path <> p).
  { intros p Hp ->. apply Hp. now left. }
  destruct (write_faults (fs w) !! path) as [[e|e]|]; [now cbn| |];
    rewrite run_bind; destruct content; cbn; repeat split;
    intros p Hp; rewrite ?lookup_insert_ne by auto; reflexivity.
Qed.

Section Batch.

Variable L : pylib.
Import MemoGenerator.

Lemma changes_generate_memo_from_file
  (self : t) (input_file : string) (output_file : option string) :
  changes_only [output_path input_file output_file]
    (generate_memo_from_file L self input_file output_file).
Proof.
  unfold generate_memo_from_file. fold (output_path input_file output_file).
  apply changes_try.
  - apply changes_bind; [apply changes_quiet, quiet_read_file | intros t].
    apply changes_bind; [apply changes_quiet, quiet_generate_memo | intros memo].
    destruct (Py.truthy memo); [|apply changes_quiet, quiet_ret].
    apply changes_bind; [apply changes_write_file | intros _].
    apply changes_quiet. repeat quiet_step.
  - intros e h. destruct (is_FileNotFoundError e); intros [= <-];
      apply changes_quiet; repeat quiet_step.
Qed.

Lemma changes_generate_one
  (generator : t) (output_dir : string) (total i : nat) (input_file : string) :
  changes_only [Gui.batch_output_file output_dir input_file]
    (Gui.generate_one L generator output_dir total i input_file).
Proof.
  unfold Gui.generate_one. apply changes_try.
  - apply changes_bind;
      [apply changes_quiet, quiet_emit; discriminate | intros _].
    apply changes_bind; [|intros r; apply changes_quiet, quiet_ret].
    exact (changes_generate_memo_from_file generator input_file (Some _)).
  - intros e h [= <-]. apply changes_quiet.
    apply quiet_bind; [apply quiet_emit; discriminate | intros _; apply quiet_ret].
Qed.

Lemma changes_generate_from
  (generator : t) (output_dir : string) (total : nat) (input_files : list string) :
  forall i,
    changes_only (map (Gui.batch_output_file output_dir) input_files)
      (Gui.generate_from L generator output_dir total i input_files).
Proof.
  induction input_files as [|f rest IH]; intros i; cbn [Gui.generate_from map].
  - apply changes_quiet, quiet_ret.
  - apply changes_bind.
    + apply (changes_weaken [Gui.batch_output_file output_dir f]);
        [|apply changes_generate_one].
      intros p Hp. apply list_elem_of_singleton in Hp as ->. now left.
    + intros r. apply changes_bind; [|intros rs; apply changes_quiet, quiet_ret].
      apply (changes_weaken (map (Gui.batch_output_file output_dir) rest));
        [|apply IH].
      intros p Hp. now right.
Qed.

(** One round of the loop: the entry it adds, and the memo behind an entry
    marked as a success. *)
Lemma generate_one_result
  (generator : t) (output_dir : string) (total i : nat) (input_file : string)
  (w : world) :
  exists flag,
    fst (Gui.generate_one L generator output_dir total i input_file w)
    = Ret (input_file, Some (Gui.batch_output_file output_dir input_file), flag)
    /\ (flag = true ->
        exists memo,
          memo <> ""
          /\ files (fs (snd (Gui.generate_one L generator output_dir total i
                               input_file w)))
             !! Gui.batch_output_file output_dir input_file = Some memo).
Proof.
  unfold Gui.generate_one, try_except. rewrite run_emit_bind, run_bind.
  set (w0 := logged w _). set (out := Gui.batch_output_file output_dir input_file).
  destruct (generate_memo_from_file_returns L generator input_file (Some out) w0)
    as (v & Hv).
  destruct (generate_memo_from_file L generator input_file (Some out) w0)
    as [o w1] eqn:Hrun.
  cbn [fst] in Hv. subst o. cbn. eexists. split; [reflexivity|]. intros Hflag.
  destruct (generate_memo_from_file_result L generator input_file (Some out)
              w0 w1 v Hrun) as (t & memo & w' & _ & _ & _ & Hne & _ & Hfiles).
  { intros ->. discriminate. }
  exists memo. split; [exact Hne|]. rewrite Hfiles. apply lookup_insert_eq.
Qed.

Lemma generate_from_results
  (generator : t) (output_dir : string) (total : nat) (input_files : list string) :
  forall (i : nat) (w : world),
  exists results,
    fst (Gui.generate_from L generator output_dir total i input_files w)
    = Ret results
    /\ map (fun r : Gui.result => (fst (fst r), snd (fst r))) results
       = map (fun f => (f, Some (Gui.batch_output_file output_dir f))) input_files
    /\ (NoDup (map (Gui.batch_output_file output_dir) input_files) ->
        forall f o, (f, Some o, true) ∈ results ->
        exists memo,
          memo <> ""
          /\ files (fs (snd (Gui.generate_from L generator output_dir total i
                               input_files w))) !! o = Some memo).
Proof.
  induction input_files as [|f rest IH]; intros i w; cbn [Gui.generate_from map].
  - exists []. split; [reflexivity|]. split; [reflexivity|].
    intros _ f o Hin. now apply elem_of_nil in Hin.
  - rewrite run_bind.
    destruct (generate_one_result generator output_dir total i f w)
      as (flag & Hr & Hdisk).
    destruct (Gui.generate_one L generator output_dir total i f w) as [o1 w1].
    cbn [fst snd] in Hr, Hdisk. subst o1. rewrite run_bind.
    destruct (IH (S i) w1) as (rs & Hrs & Hshape & Hrest).
    pose proof (changes_generate_from generator output_dir total rest (S i) w1)
      as (_ & _ & _ & Hframe).
    destruct (Gui.generate_from L generator output_dir total (S i) rest w1)
      as [o2 w2].
    cbn [fst snd] in Hrs, Hrest, Hframe. subst o2. cbn.
    eexists. split; [reflexivity|]. split.
    + cbn [map fst snd]. now rewrite Hshape.
    + intros Hnd f' o' Hin. apply NoDup_cons in Hnd as [Hfresh Hnd].
      apply elem_of_cons in Hin as [[= -> -> Hflag]|Hin].
      * destruct (Hdisk (eq_sym Hflag)) as (memo & Hne & Hmemo).
        exists memo. split; [exact Hne|]. now rewrite Hframe.
      * now apply (Hrest Hnd f').
Qed.

Lemma sends_generate_one
  (generator : t) (output_dir : string) (total i : nat) (input_file : string) :
  sends_at_most 1 (Gui.generate_one L generator output_dir total i input_file).
Proof.
  unfold Gui.generate_one. apply sends_try.
  - apply sends_bind_silent; [silent | intros _].
    apply sends_bind_then_silent;
      [apply sends_generate_memo_from_file | intros r; apply sends_ret].
  - intros e h [= <-]. silent.
Qed.

Lemma sends_generate_from
  (generator : t) (output_dir : string) (total : nat) (input_files : list string) :
  forall i,
    sends_at_most (length input_files)
      (Gui.generate_from L generator output_dir total i input_files).
Proof.
  induction input_files as [|f rest IH]; intros i;
    cbn [Gui.generate_from length]; [apply sends_ret|].
  change (S (length rest)) with (1 + length rest).
  apply sends_bind; [apply sends_generate_one | intros r].
  apply sends_bind_then_silent; [apply IH | intros rs; apply sends_ret].
Qed.

(** A batch never raises and reports every input file once, in the order
    of the list, each with the output path derived for it; it sends at most
    one request per input file. *)
Theorem batch_reports_every_file
  (generator : t) (input_files : list string) (output_dir : string) :
  (forall w, exists results,
      fst (Gui._generate_all_in_thread L generator input_files output_dir w)
      = Ret results
      /\ map (fun r : Gui.result => (fst (fst r), snd (fst r))) results
         = map (fun f => (f, Some (Gui.batch_output_file output_dir f)))
             input_files)
  /\ sends_at_most (length input_files)
       (Gui._generate_all_in_thread L generator input_files output_dir).
Proof.
  split.
  - intros w. unfold Gui._generate_all_in_thread. rewrite run_bind.
    destruct (generate_from_results generator output_dir (length input_files)
                input_files 0 w) as (results & Hr & Hshape & _).
    destruct (Gui.generate_from L generator output_dir (length input_files) 0
                input_files w) as [o w1].
    cbn [fst] in Hr. subst o. exists results. split; [reflexivity | exact Hshape].
  - unfold Gui._generate_all_in_thread.
    apply sends_bind_then_silent; [apply sends_generate_from | intros rs; silent].
Qed.

(** When the output paths of a batch are pairwise distinct, every entry the
    batch marks as a success has its memo on disk when the batch ends: the
    output file holds a text that is not empty. *)
Theorem batch_successes_are_on_disk
  (generator : t) (input_files : list string) (output_dir : string)
  (w : world) (results : list Gui.result) :
  NoDup (map (Gui.batch_output_file output_dir) input_files) ->
  fst (Gui._generate_all_in_thread L generator input_files output_dir w)
  = Ret results ->
  forall f o, (f, Some o, true) ∈ results ->
  exists memo,
    memo <> ""
    /\ files (fs (snd (Gui._generate_all_in_thread L generator input_files
                         output_dir w))) !! o = Some memo.
Proof.
  intros Hnd. unfold Gui._generate_all_in_thread. rewrite run_bind.
  destruct (generate_from_results generator output_dir (length input_files)
              input_files 0 w) as (rs & Hr & _ & Hdisk).
  destruct (Gui.generate_from L generator output_dir (length input_files) 0
              input_files w) as [o1 w1].
  cbn [fst snd] in Hr, Hdisk. subst o1. cbn. intros [= <-]. now apply Hdisk.
Qed.

End Batch.

(** ** The command line *)

Section CommandLine.

Variable L : pylib.
Import MemoGenerator.

Lemma quiet_init (config_path : string) : quiet (__init__ L config_path).
Proof.
  unfold __init__, _load_config. apply quiet_bind; [|intros c; apply quiet_ret].
  apply quiet_try.
  - apply quiet_bind; [apply quiet_read_file | intros t].
    unfold json_load. destruct (json_loads L t); auto with quiet.
  - intros e h. destruct (is_FileNotFoundError e || is_JSONDecodeError e);
      intros [= <-]. repeat quiet_step.
Qed.

Lemma quiet_set_provider (self : t) (provider : string) :
  quiet (set_provider self provider).
Proof. unfold set_provider. repeat quiet_step. Qed.

Lemma quiet_set_model (self : t) (model : string) : quiet (set_model self model).
Proof. unfold set_model. repeat quiet_step. Qed.

Lemma quiet_isfile (path : string) : quiet (Cli.isfile path).
Proof. now intros w. Qed.

Lemma sends_init (k : nat) (config_path : string) :
  sends_at_most k (__init__ L config_path).
Proof.
  apply (sends_weaken 0); [lia|].
  unfold __init__, _load_config. apply sends_bind_silent; [|intros c; silent].
  apply sends_try.
  - apply sends_bind_silent; [silent | intros t].
    unfold json_load. destruct (json_loads L t); silent.
  - intros e h. destruct (is_FileNotFoundError e || is_JSONDecodeError e);
      intros [= <-]. silent.
Qed.

Lemma sends_set_provider (k : nat) (self : t) (provider : string) :
  sends_at_most k (set_provider self provider).
Proof. unfold set_provider. silent. Qed.

Lemma sends_set_model (k : nat) (self : t) (model : string) :
  sends_at_most k (set_model self model).
Proof. unfold set_model. silent. Qed.

Lemma sends_isfile (k : nat) (path : string) : sends_at_most k (Cli.isfile path).
Proof. intros w. exists []. split; [now rewrite app_nil_r | cbn; lia]. Qed.

#[local] Hint Resolve quiet_init quiet_set_provider quiet_set_model
  quiet_isfile : quiet.
#[local] Hint Resolve sends_init sends_set_provider sends_set_model
  sends_isfile : sends.

Lemma same_io_refl (w : world) : same_io w w.
Proof. now repeat split. Qed.

Lemma same_io_logged (w0 w : world) (lv : level) (m : message) :
  same_io w0 w -> same_io w0 (logged w [Log lv m]).
Proof.
  intros (H1 & H2 & H3). repeat split; cbn [logged fs trace]; [exact H1| |].
  - rewrite writes_app. cbn. now rewrite app_nil_r.
  - rewrite posts_app. cbn. now rewrite app_nil_r.
Qed.

(** Through a step that touches neither the disk nor the network. *)
Lemma run_quiet_bind {A B} (w0 : world) (m : M A) (f : A -> M B)
  (P : outcome B * world -> Prop) (w : world) :
  quiet m -> sends_at_most 0 m -> same_io w0 w ->
  (forall e w1, same_io w0 w1 -> P (Raise e, w1)) ->
  (forall a w1, same_io w0 w1 -> P (f a w1)) ->
  P ((m ≫= f) w).
Proof.
  intros Q S (I1 & I2 & I3) Hr Hk. rewrite run_bind.
  destruct (Q w) as (Q1 & _ & Q3). destruct (S w) as (evs & T & Len).
  assert (Hevs : posts evs = [])
    by (destruct (posts evs); [reflexivity | cbn in Len; lia]).
  assert (I : same_io w0 (snd (m w))).
  { repeat split; try congruence.
    rewrite T, posts_app, Hevs, app_nil_r. exact I3. }
  destruct (m w) as [[a|e] w1]; cbn [snd] in I; auto.
Qed.

(** The configuration part of [main]: one step of it. *)
Ltac configure w0 P on_raise :=
  lazymatch goal with
  | I : same_io w0 _ |- _ =>
      apply (run_quiet_bind w0 _ _ P);
      [ solve [repeat quiet_step]
      | solve [silent]
      | exact I
      | intros ? ? ?; on_raise
      | clear I; intros ? ? I ]
  end.

(** [main] sends at most one request, whatever the arguments are. *)
Theorem main_sends_at_most_one_request (a : Cli.args) :
  sends_at_most 1 (Cli.main L a).
Proof.
  unfold Cli.main.
  do 8 (apply sends_bind_silent; [silent | intros ?]).
  match goal with |- sends_at_most _ (if ?b then _ else _) => destruct b end;
    [|silent].
  apply sends_bind_then_silent;
    [apply sends_generate_memo_from_file | intros r; silent].
Qed.

(** When the input path is no file, [main] sends no request and opens no
    file for writing, leaves the disk as it is and, unless loading or
    overriding the configuration raised, returns the exit status 1. *)
Theorem main_without_input_file (a : Cli.args) (w : world) :
  files (fs w) !! Cli.input a = None ->
  (fst (Cli.main L a w) = Ret 1%Z \/ exists e, fst (Cli.main L a w) = Raise e)
  /\ same_io w (snd (Cli.main L a w)).
Proof.
  intros Hmissing.
  set (P := fun r : outcome Z * world =>
              (fst r = Ret 1%Z \/ exists e, fst r = Raise e)
              /\ same_io w (snd r)).
  change (P (Cli.main L a w)). unfold Cli.main.
  pose proof (same_io_refl w) as I.
  do 7 (configure w P ltac:(split; [right; eexists; reflexivity | assumption])).
  rewrite run_bind. unfold Cli.isfile at 1.
  destruct I as (I1 & I2 & I3). rewrite I1, Hmissing. rewrite run_log_bind.
  split; [now left|]. apply same_io_logged. now repeat split.
Qed.

(** The exit status 0 of [main] means that the input was a file and that
    the output file, the one given or the one derived from the input path,
    holds a memo that is not empty. *)
Theorem main_success_leaves_the_memo (a : Cli.args) (w : world) :
  fst (Cli.main L a w) = Ret 0%Z ->
  files (fs w) !! Cli.input a <> None
  /\ exists memo,
       memo <> ""
       /\ files (fs (snd (Cli.main L a w)))
          !! output_path (Cli.input a) (Cli.output a) = Some memo.
Proof.
  set (P := fun r : outcome Z * world =>
              fst r = Ret 0%Z ->
              files (fs w) !! Cli.input a <> None
              /\ exists memo,
                   memo <> ""
                   /\ files (fs (snd r))
                      !! output_path (Cli.input a) (Cli.output a) = Some memo).
  change (P (Cli.main L a w)). unfold Cli.main.
  pose proof (same_io_refl w) as I.
  do 7 (configure w P ltac:(intros [=])).
  match goal with
  | I : same_io w ?w1 |- P ((_ ≫= _) ?w1) =>
      rewrite run_bind; unfold Cli.isfile at 1; destruct I as (I1 & _ & _);
      destruct (files (fs w1) !! Cli.input a) as [content|] eqn:Hfile;
      [|rewrite run_log_bind; intros [=]]
  end.
  rewrite run_bind.
  match goal with
  | |- context [generate_memo_from_file L ?g ?i ?o ?w1] =>
      destruct (generate_memo_from_file_returns L g i o w1) as (v & Hv);
      destruct (generate_memo_from_file L g i o w1) as [r wend] eqn:Hrun;
      cbn [fst] in Hv; subst r;
      pose proof (generate_memo_from_file_result L g i o w1 wend v Hrun) as Hres
  end.
  destruct (Py.truthy v) eqn:Htruthy; [|intros [=]].
  intros _. split; [rewrite <- I1, Hfile; discriminate|].
  destruct Hres as (t & memo & w' & _ & _ & _ & Hne & _ & Hfiles).
  { intros ->. discriminate. }
  exists memo. split; [exact Hne|].
  change (files (fs wend) !! output_path (Cli.input a) (Cli.output a)
          = Some memo).
  rewrite Hfiles. apply lookup_insert_eq.
Qed.

End CommandLine.

(** ** Saving and loading again *)

Section RoundTrip.

Variable L : pylib.
Import MemoGenerator.

(** What [save_config] wrote is what a new generator on the same path
    starts from, when the document [json.dump] writes is one [json.load]
    reads back as the configuration and the file can be written and read. *)
Theorem saved_config_loads_back (self : t) (w : world) :
  json_loads L (json_dumps L (config self)) = Some (config self) ->
  write_faults (fs w) !! config_path self = None ->
  read_faults (fs w) !! config_path self = None ->
  fst (__init__ L (config_path self) (snd (save_config L self w))) = Ret self.
Proof.
  intros Hcodec Hw Hr. unfold save_config, try_except. rewrite run_bind.
  rewrite (run_write_file_ok _ _ w Hw). rewrite run_log_bind. cbn [snd mret M_ret].
  unfold __init__, _load_config, try_except. rewrite !run_bind. unfold read_file.
  cbn [logged written fs read_faults files]. rewrite Hr, lookup_insert_eq.
  rewrite json_dumps_text. unfold json_load. rewrite Hcodec. now destruct self.
Qed.

(** A memo that is true for [if memo:] and is no text (a list of blocks, an
    object) costs the output file its content: the file is opened, which
    empties it, writing the memo raises, and [generate_memo_from_file]
    returns [None]. *)
Theorem non_text_memo_empties_the_output_file
  (self : t) (input_file : string) (output_file : option string)
  (transcription : string) (memo : pyval) (w w1 : world) :
  read_file input_file w = (Ret transcription, w) ->
  generate_memo L self transcription w = (Ret memo, w1) ->
  Py.truthy memo = true ->
  (forall s, memo <> PStr s) ->
  (forall e, write_faults (fs w) !! output_path input_file output_file
             <> Some (OpenFails e)) ->
  fst (generate_memo_from_file L self input_file output_file w) = Ret PNone
  /\ files (fs (snd (generate_memo_from_file L self input_file output_file w)))
     !! output_path input_file output_file = Some "".
Proof.
  intros Hread Hgen Htruthy Hshape Hopen.
  pose proof (quiet_generate_memo L self transcription w) as Q.
  rewrite Hgen in Q. cbn [snd] in Q. destruct Q as (Qfs & _ & _).
  unfold generate_memo_from_file, try_except. rewrite run_bind, Hread.
  fold (output_path input_file output_file).
  set (out := output_path input_file output_file) in *.
  rewrite run_bind, Hgen, Htruthy, run_bind.
  unfold write_file. rewrite run_emit_bind. unfold get_fs. rewrite run_bind.
  cbn [logged fs]. rewrite Qfs.
  destruct (write_faults (fs w) !! out) as [[e|e]|] eqn:Hf;
    [now destruct (Hopen e) | |];
    rewrite run_bind;
    (destruct memo as [| | | |s| |]; try (now destruct (Hshape s)));
    cbn [set_files lift];
    match goal with
    | |- context [is_FileNotFoundError ?x] => destruct (is_FileNotFoundError x)
    end; (split; [reflexivity|]); cbn; apply lookup_insert_eq.
Qed.

End RoundTrip.

(** ** The properties on example worlds *)

Section MoreWitnesses.

Import MemoGenerator Examples.

Lemma adapter_with_credential_never_raises_witness :
  never_raises (call_adapter Examples.codec Google google "prompt").
Proof.
  apply (adapter_with_credential_never_raises Examples.codec Google google
           "prompt" (PStr "g-key")); reflexivity.
Defined.

Lemma returned_memo_is_on_disk_witness :
  exists transcription memo w1,
    read_file "meeting.txt" (answering disk 200 "summary")
    = (Ret transcription, answering disk 200 "summary")
    /\ generate_memo Examples.codec openai transcription
         (answering disk 200 "summary") = (Ret (PStr memo), w1)
    /\ PStr "Meeting summary." = PStr memo /\ memo <> ""
    /\ write_faults (fs (answering disk 200 "summary"))
       !! output_path "meeting.txt" None = None
    /\ files (fs (snd (generate_memo_from_file Examples.codec openai
                         "meeting.txt" None (answering disk 200 "summary"))))
       = <[output_path "meeting.txt" None := memo]>
           (files (fs (answering disk 200 "summary"))).
Proof.
  apply (returned_memo_is_on_disk Examples.codec openai "meeting.txt" None
           (answering disk 200 "summary")
           (snd (generate_memo_from_file Examples.codec openai "meeting.txt" None
                   (answering disk 200 "summary")))
           (PStr "Meeting summary.")).
  - vm_compute. reflexivity.
  - discriminate.
Defined.

Lemma unsupported_provider_returns_none_witness :
  generate_memo Examples.codec MoreExamples.capitalised transcript
    (answering disk 200 "summary")
  = (Ret PNone,
     logged (answering disk 200 "summary")
       [Log INFO (ApiCallStart (PStr "OpenAI"));
        Log ERROR (UnsupportedProvider (PStr "OpenAI"))]).
Proof.
  apply (unsupported_provider_returns_none Examples.codec
           MoreExamples.capitalised transcript
           ("Summarize:" +:+ nl +:+ "{transcription}")
           (PDict [("default",
                    PStr ("Summarize:" +:+ nl +:+ "{transcription}"))])
           (PStr "OpenAI")); reflexivity.
Defined.

Lemma unreadable_input_returns_none_witness :
  generate_memo_from_file Examples.codec openai "meeting.txt" None
    (answering MoreExamples.protected_disk 200 "summary")
  = (Ret PNone,
     logged (answering MoreExamples.protected_disk 200 "summary")
       [Log ERROR (MemoGenerationError (OSError EACCES))])
  /\ generate_memo_from_file Examples.codec openai "minutes.txt" None
       (answering disk 200 "summary")
     = (Ret PNone,
        logged (answering disk 200 "summary")
          [Log ERROR (InputNotFound "minutes.txt")]).
Proof.
  split.
  - apply (unreadable_input_returns_none Examples.codec openai "meeting.txt"
             None (OSError EACCES)
             (answering MoreExamples.protected_disk 200 "summary")).
    vm_compute. reflexivity.
  - apply (unreadable_input_returns_none Examples.codec openai "minutes.txt"
             None (OSError ENOENT) (answering disk 200 "summary")).
    vm_compute. reflexivity.
Defined.

Lemma missing_output_directory_blames_input_witness :
  generate_memo_from_file Examples.codec openai "meeting.txt"
    (Some "out/memo.txt") (answering MoreExamples.no_directory 200 "summary")
  = (Ret PNone,
     logged (snd (generate_memo Examples.codec openai transcript
                    (answering MoreExamples.no_directory 200 "summary")))
       [OpenForWriting "out/memo.txt"; Log ERROR (InputNotFound "meeting.txt")]).
Proof.
  apply (missing_output_directory_blames_input Examples.codec openai
           "meeting.txt" (Some "out/memo.txt")
           (answering MoreExamples.no_directory 200 "summary")
           (snd (generate_memo Examples.codec openai transcript
                   (answering MoreExamples.no_directory 200 "summary")))
           transcript "Meeting summary.").
  - vm_compute. reflexivity.
  - vm_compute. reflexivity.
  - discriminate.
  - vm_compute. reflexivity.
Defined.

Lemma template_without_placeholder_drops_transcript_witness :
  render_prompt "Summarize the meeting." transcript = "Summarize the meeting.".
Proof.
  apply (template_without_placeholder_drops_transcript
           "Summarize the meeting." transcript).
  reflexivity.
Defined.

Lemma load_config_returns_or_raises_witness :
  __init__ Examples.codec "config.json"
    (answering MoreExamples.configured_disk 200 "")
  = (Ret MoreExamples.blank, answering MoreExamples.configured_disk 200 "")
  /\ __init__ Examples.codec "locked.json"
       (answering MoreExamples.configured_disk 200 "")
     = (Raise (OSError EACCES), answering MoreExamples.configured_disk 200 "").
Proof.
  destruct (load_config_returns_or_raises Examples.codec "config.json"
              (answering MoreExamples.configured_disk 200 "")) as [Hok _].
  destruct (load_config_returns_or_raises Examples.codec "locked.json"
              (answering MoreExamples.configured_disk 200 "")) as [_ Hfail].
  split.
  - apply (Hok "{}" (PDict [])); vm_compute; reflexivity.
  - apply (Hfail EACCES); [vm_compute; reflexivity | discriminate].
Defined.

Lemma load_config_raises_what_it_does_not_name_witness :
  __init__ Examples.codec "config.json"
    (answering MoreExamples.latin1_disk 200 "")
  = (Raise UnicodeDecodeError, answering MoreExamples.latin1_disk 200 "")
  /\ __init__ Examples.codec "deep.json"
       (answering MoreExamples.latin1_disk 200 "")
     = (Raise RecursionError, answering MoreExamples.latin1_disk 200 "").
Proof.
  split.
  - apply (load_config_raises_what_it_does_not_name Examples.codec
             "config.json" UnicodeDecodeError
             (answering MoreExamples.latin1_disk 200 "")).
    + reflexivity.
    + reflexivity.
    + left. vm_compute. reflexivity.
  - apply (load_config_raises_what_it_does_not_name Examples.codec
             "deep.json" RecursionError
             (answering MoreExamples.latin1_disk 200 "")).
    + reflexivity.
    + reflexivity.
    + right. exists "deep". repeat split; vm_compute; reflexivity.
Defined.

Lemma set_max_tokens_clamps_witness :
  exists self',
    set_max_tokens openai 0 = Ret self'
    /\ llm self' "max_tokens" = Ret (PInt 1).
Proof.
  destruct (set_max_tokens_clamps openai
              [("provider", PStr "openai"); ("model", PStr "gpt-4o-mini");
               ("temperature", PFloat 0.3); ("max_tokens", PInt 1500);
               ("api_key", PStr "sk-test")] 0 eq_refl)
    as (self' & c & Hset & Hget & _ & _ & Hlow & _).
  exists self'. split; [exact Hset|].
  rewrite Hget, (Hlow ltac:(lia)). reflexivity.
Defined.

Lemma setters_need_the_llm_entry_witness :
  set_temperature MoreExamples.blank 0.5 = Raise (KeyError (PStr "llm")).
Proof.
  exact (proj1 (proj2 (proj2 (setters_need_the_llm_entry MoreExamples.blank []
                                eq_refl eq_refl))) 0.5%float).
Defined.

Lemma set_provider_stores_any_name_witness :
  exists self',
    set_provider MoreExamples.catalogued "mistral" (answering disk 200 "")
    = (Ret self',
       logged (answering disk 200 "")
         [Log WARNING (UnknownProvider "mistral")])
    /\ llm self' "provider" = Ret (PStr "mistral").
Proof.
  destruct (set_provider_stores_any_name MoreExamples.catalogued
              (MoreExamples.llm_entries "openai") "mistral"
              MoreExamples.catalog false (answering disk 200 "")
              eq_refl eq_refl eq_refl) as (self' & Hrun & Hget & _).
  exists self'. split; [exact Hrun | exact Hget].
Defined.

Lemma set_model_stores_any_model_witness :
  exists self',
    set_model MoreExamples.catalogued "gpt-5" (answering disk 200 "")
    = (Ret self',
       logged (answering disk 200 "")
         [Log WARNING (UnknownModel (PStr "openai") "gpt-5")])
    /\ llm self' "model" = Ret (PStr "gpt-5").
Proof.
  destruct (set_model_stores_any_model MoreExamples.catalogued
              (MoreExamples.llm_entries "openai") "gpt-5"
              (PStr "openai") MoreExamples.catalog
              [PStr "gpt-3.5-turbo"; PStr "gpt-4o-mini"] (answering disk 200 "")
              eq_refl eq_refl eq_refl eq_refl) as (self' & Hrun & Hget & _).
  exists self'. split; [exact Hrun | exact Hget].
Defined.

Lemma openai_reply_is_the_content_witness :
  fst (_call_openai_api Examples.codec openai "prompt"
         (answering disk 200 "summary")) = Ret (PStr "Meeting summary.")
  /\ fst (_call_openai_api MoreExamples.codec openai "prompt"
            (answering disk 200 "blocks")) = Ret (PList [PStr "Meeting "; PStr "summary."]).
Proof.
  split.
  - destruct (openai_reply_is_the_content Examples.codec openai "prompt"
                (answering disk 200 "summary")
                (MoreExamples.llm_entries "openai")
                (PStr "sk-test") (PStr "gpt-4o-mini") (PFloat 0.3) (PInt 1500)
                eq_refl eq_refl eq_refl eq_refl eq_refl eq_refl) as [_ Hreply].
    destruct (Hreply {| status_code := 200; text := "summary" |}
                (fun _ => eq_refl)) as [_ Hok].
    destruct (Hok eq_refl) as [_ Hbody].
    destruct (Hbody (openai_reply (PStr "Meeting summary.")) eq_refl)
      as [Hcontent _].
    exact (Hcontent (PStr "Meeting summary.") eq_refl).
  - destruct (openai_reply_is_the_content MoreExamples.codec openai "prompt"
                (answering disk 200 "blocks")
                (MoreExamples.llm_entries "openai")
                (PStr "sk-test") (PStr "gpt-4o-mini") (PFloat 0.3) (PInt 1500)
                eq_refl eq_refl eq_refl eq_refl eq_refl eq_refl) as [_ Hreply].
    destruct (Hreply {| status_code := 200; text := "blocks" |}
                (fun _ => eq_refl)) as [_ Hok].
    destruct (Hok eq_refl) as [_ Hbody].
    destruct (Hbody (openai_reply (PList [PStr "Meeting "; PStr "summary."]))
                eq_refl) as [Hcontent _].
    exact (Hcontent (PList [PStr "Meeting "; PStr "summary."]) eq_refl).
Defined.

Lemma anthropic_reply_is_the_text_witness :
  fst (_call_anthropic_api MoreExamples.codec MoreExamples.anthropic "prompt"
         (answering disk 200 "claude")) = Ret (PStr "Meeting summary.").
Proof.
  destruct (anthropic_reply_is_the_text MoreExamples.codec
              MoreExamples.anthropic "prompt" (answering disk 200 "claude")
              (MoreExamples.llm_entries "anthropic")
              (PStr "sk-test") (PStr "gpt-4o-mini") (PFloat 0.3) (PInt 1500)
              eq_refl eq_refl eq_refl eq_refl eq_refl eq_refl) as [_ Hreply].
  destruct (Hreply {| status_code := 200; text := "claude" |}
              (fun _ => eq_refl)) as [_ Hok].
  destruct (Hok eq_refl) as [_ Hbody].
  destruct (Hbody (MoreExamples.anthropic_reply (PStr "Meeting summary."))
              eq_refl) as [Htext _].
  exact (Htext (PStr "Meeting summary.") eq_refl).
Defined.

Lemma settings_reach_the_openai_request_witness :
  exists self',
    apply_settings openai "sk-new" 1.7 0 "Minutes of: {transcription}" = Ret self'
    /\ exists evs,
         trace (snd (generate_memo Examples.codec self' transcript
                       (answering disk 200 "summary")))
         = trace (answering disk 200 "summary")
           ++ Log INFO (ApiCallStart (PStr "openai"))
           :: HttpPost (openai_request Examples.codec (PStr "sk-new")
                          (PStr "gpt-4o-mini")
                          (PFloat (Py.max 0 (Py.min 1 1.7))) (PInt (Z.max 1 0))
                          (render_prompt "Minutes of: {transcription}" transcript))
           :: evs
         /\ posts evs = [].
Proof.
  apply (settings_reach_the_openai_request Examples.codec openai
           (MoreExamples.llm_entries "openai")
           [("default", PStr ("Summarize:" +:+ nl +:+ "{transcription}"))]
           (PStr "gpt-4o-mini") "sk-new" "Minutes of: {transcription}"
           transcript 1.7 0 (answering disk 200 "summary")
           eq_refl eq_refl eq_refl eq_refl).
  discriminate.
Defined.

Lemma default_output_file_without_extension_witness :
  default_output_file "notes.d/README" = "notes.d/README_memo.txt"
  /\ default_output_file ".bashrc" = ".bashrc_memo.txt".
Proof.
  split.
  - apply (default_output_file_without_extension "notes.d/" "README").
    + right. now exists "notes.d".
    + reflexivity.
    + left. reflexivity.
  - apply (default_output_file_without_extension "" ".bashrc").
    + now left.
    + reflexivity.
    + right. now exists "bashrc".
Defined.

Lemma batch_output_file_forgets_the_directory_witness :
  Gui.batch_output_file "out" "a/meeting.txt" = "out/meeting_memo.txt"
  /\ Gui.batch_output_file "out" "b/meeting.txt"
     = Gui.batch_output_file "out" "a/meeting.txt".
Proof.
  apply (batch_output_file_forgets_the_directory "out" "a/" "b/" "meeting" "txt").
  - discriminate.
  - reflexivity.
  - right. now exists "a".
  - right. now exists "b".
  - reflexivity.
  - reflexivity.
  - reflexivity.
  - reflexivity.
Defined.

Lemma batch_successes_are_on_disk_witness :
  exists memo,
    memo <> ""
    /\ files (fs (snd (Gui._generate_all_in_thread Examples.codec openai
                         ["a/meeting.txt"; "b/notes.txt"] "out"
                         (answering MoreExamples.batch_disk 200 "summary"))))
       !! "out/meeting_memo.txt" = Some memo.
Proof.
  apply (batch_successes_are_on_disk Examples.codec openai
           ["a/meeting.txt"; "b/notes.txt"] "out"
           (answering MoreExamples.batch_disk 200 "summary")
           [("a/meeting.txt", Some "out/meeting_memo.txt", true);
            ("b/notes.txt", Some "out/notes_memo.txt", true)])
    with (f := "a/meeting.txt").
  - change (NoDup ["out/meeting_memo.txt"; "out/notes_memo.txt"]).
    apply NoDup_cons. split; [|apply NoDup_singleton].
    intros H. apply list_elem_of_singleton in H. discriminate.
  - vm_compute. reflexivity.
  - apply elem_of_cons. now left.
Defined.

Lemma main_without_input_file_witness :
  (fst (Cli.main Examples.codec (MoreExamples.arguments "minutes.txt")
          (answering disk 200 "summary")) = Ret 1%Z
   \/ exists e,
        fst (Cli.main Examples.codec (MoreExamples.arguments "minutes.txt")
               (answering disk 200 "summary")) = Raise e)
  /\ same_io (answering disk 200 "summary")
       (snd (Cli.main Examples.codec (MoreExamples.arguments "minutes.txt")
               (answering disk 200 "summary"))).
Proof.
  apply (main_without_input_file Examples.codec
           (MoreExamples.arguments "minutes.txt") (answering disk 200 "summary")).
  reflexivity.
Defined.

Lemma main_success_leaves_the_memo_witness :
  files (fs (answering disk 200 "summary")) !! "meeting.txt" <> None
  /\ exists memo,
       memo <> ""
       /\ files (fs (snd (Cli.main Examples.codec
                            (MoreExamples.arguments "meeting.txt")
                            (answering disk 200 "summary"))))
          !! "meeting_memo.txt" = Some memo.
Proof.
  apply (main_success_leaves_the_memo Examples.codec
           (MoreExamples.arguments "meeting.txt") (answering disk 200 "summary")).
  vm_compute. reflexivity.
Defined.

Lemma saved_config_loads_back_witness :
  fst (__init__ Examples.codec "config.json"
         (snd (save_config Examples.codec MoreExamples.blank
                 (answering disk 200 ""))))
  = Ret MoreExamples.blank.
Proof.
  apply (saved_config_loads_back Examples.codec MoreExamples.blank
           (answering disk 200 "")); reflexivity.
Defined.

Lemma non_text_memo_empties_the_output_file_witness :
  fst (generate_memo_from_file MoreExamples.codec openai "meeting.txt" None
         (answering MoreExamples.used_disk 200 "blocks")) = Ret PNone
  /\ files (fs (snd (generate_memo_from_file MoreExamples.codec openai
                       "meeting.txt" None
                       (answering MoreExamples.used_disk 200 "blocks"))))
     !! "meeting_memo.txt" = Some "".
Proof.
  apply (non_text_memo_empties_the_output_file MoreExamples.codec openai
           "meeting.txt" None transcript (PList [PStr "Meeting "; PStr "summary."])
           (answering MoreExamples.used_disk 200 "blocks")
           (snd (generate_memo MoreExamples.codec openai transcript
                   (answering MoreExamples.used_disk 200 "blocks")))).
  - vm_compute. reflexivity.
  - vm_compute. reflexivity.
  - reflexivity.
  - discriminate.
  - intros e. vm_compute. discriminate.
Defined.

End MoreWitnesses.
